(** * RDK control core: config conversion, type registry and the web
      server's supervisory loops.

    The development has two halves.  Module [server] embeds [serveWeb]
    (package [server]): the restart-checker goroutine and the config
    watch goroutine, as state-passing programs over an explicit world
    (robot, event trace, context flag).  Modules [json] and [config]
    hold the data model of package [config] that the tests of
    [config] exercise. *)

From stdpp Require Import base option list strings pretty gmap.
From Stdlib Require Import ZArith Ascii String.

Local Open Scope Z_scope.

Set Warnings "-register-all".

(** ** Go-level conventions *)

(** A Go [error] value, reduced to its message. *)
Definition error : Type := string.

(** A Go [(T, error)] return pair with the usual usage discipline. *)
Inductive result (A : Type) : Type :=
| Ok (a : A)
| Err (e : error).
Arguments Ok {A} a.
Arguments Err {A} e.

Definition is_ok {A} (r : result A) : bool :=
  match r with Ok _ => true | Err _ => false end.

(** [time.Duration]: a signed count of nanoseconds. *)
Definition Duration : Type := Z.

(** The double-quote character and a helper that lets literals be written
    with apostrophes where the Go source has double quotes. *)
Definition dq : ascii := ascii_of_nat 34.
Definition squote : ascii := ascii_of_nat 39.

Fixpoint quoted (s : string) : string :=
  match s with
  | EmptyString => EmptyString
  | String c s' => String (if Ascii.eqb c squote then dq else c) (quoted s')
  end.

(** [strings.Contains]. *)
Fixpoint has_prefix (p s : string) : bool :=
  match p, s with
  | EmptyString, _ => true
  | String a p', String b s' => Ascii.eqb a b && has_prefix p' s'
  | String _ _, EmptyString => false
  end.

Fixpoint contains (s sub : string) : bool :=
  has_prefix sub s ||
  match s with
  | EmptyString => false
  | String _ s' => contains s' sub
  end.

(** ** [encoding/json], as far as the config reader needs it

    Dynamic values, a lexer and a recursive-descent parser.  Numbers are
    integers and an escaped character is taken literally; config inputs
    in the tests use neither fractions nor escapes. *)
Module json.

Inductive Value : Type :=
| Null
| Bool (b : bool)
| Number (n : Z)
| Str (s : string)
| Array (elems : list Value)
| Object (members : list (string * Value)).

Inductive Token : Type :=
| TLBrace | TRBrace | TLBracket | TRBracket | TColon | TComma
| TString (s : string)
| TNumber (n : Z)
| TWord (w : string).

Definition is_space (c : ascii) : bool :=
  let n := nat_of_ascii c in
  (n =? 32)%nat || (n =? 9)%nat || (n =? 10)%nat || (n =? 13)%nat.

Definition is_digit (c : ascii) : bool :=
  let n := nat_of_ascii c in (48 <=? n)%nat && (n <=? 57)%nat.

Definition is_lower (c : ascii) : bool :=
  let n := nat_of_ascii c in (97 <=? n)%nat && (n <=? 122)%nat.

Definition digit_val (c : ascii) : Z := Z.of_nat (nat_of_ascii c) - 48.

(** The body of a string literal, after its opening quote: the decoded
    text and what follows the closing quote. *)
Fixpoint take_string (s : string) : option (string * string) :=
  match s with
  | EmptyString => None
  | String c s' =>
    if Ascii.eqb c dq then Some (EmptyString, s')
    else if Ascii.eqb c "\"%char then
      match s' with
      | EmptyString => None
      | String e s'' =>
        match take_string s'' with
        | Some (body, rest) => Some (String e body, rest)
        | None => None
        end
      end
    else
      match take_string s' with
      | Some (body, rest) => Some (String c body, rest)
      | None => None
      end
  end.

Fixpoint take_digits (acc : Z) (s : string) : Z * string :=
  match s with
  | String c s' =>
    if is_digit c then take_digits (10 * acc + digit_val c) s' else (acc, s)
  | EmptyString => (acc, s)
  end.

Fixpoint take_word (s : string) : string * string :=
  match s with
  | String c s' =>
    if is_lower c then let '(w, rest) := take_word s' in (String c w, rest)
    else (EmptyString, s)
  | EmptyString => (EmptyString, s)
  end.

Definition punct (c : ascii) : option Token :=
  if Ascii.eqb c "{"%char then Some TLBrace
  else if Ascii.eqb c "}"%char then Some TRBrace
  else if Ascii.eqb c "["%char then Some TLBracket
  else if Ascii.eqb c "]"%char then Some TRBracket
  else if Ascii.eqb c ":"%char then Some TColon
  else if Ascii.eqb c ","%char then Some TComma
  else None.

Definition errInvalidChar : error := "invalid character in JSON input".
Definition errUnexpectedEnd : error := "unexpected end of JSON input".

Fixpoint lex (fuel : nat) (s : string) : result (list Token) :=
  match fuel with
  | O => Err "lexer out of fuel"
  | S fuel' =>
    match s with
    | EmptyString => Ok []
    | String c s' =>
      let emit (t : Token) (rest : string) :=
        match lex fuel' rest with
        | Ok ts => Ok (t :: ts)
        | Err e => Err e
        end in
      if is_space c then lex fuel' s'
      else match punct c with
      | Some t => emit t s'
      | None =>
        if Ascii.eqb c dq then
          match take_string s' with
          | Some (body, rest) => emit (TString body) rest
          | None => Err errUnexpectedEnd
          end
        else if is_digit c then
          let '(n, rest) := take_digits (digit_val c) s' in emit (TNumber n) rest
        else if Ascii.eqb c "-"%char then
          match s' with
          | String d s'' =>
            if is_digit d then
              let '(n, rest) := take_digits (digit_val d) s'' in
              emit (TNumber (- n)) rest
            else Err errInvalidChar
          | EmptyString => Err errUnexpectedEnd
          end
        else if is_lower c then
          let '(w, rest) := take_word s' in emit (TWord (String c w)) rest
        else Err errInvalidChar
      end
    end
  end.

Fixpoint parse_value (fuel : nat) (ts : list Token)
  : result (Value * list Token) :=
  match fuel with
  | O => Err "parser out of fuel"
  | S fuel' =>
    match ts with
    | [] => Err errUnexpectedEnd
    | TString s :: r => Ok (Str s, r)
    | TNumber n :: r => Ok (Number n, r)
    | TWord w :: r =>
      if String.eqb w "null" then Ok (Null, r)
      else if String.eqb w "true" then Ok (Bool true, r)
      else if String.eqb w "false" then Ok (Bool false, r)
      else Err errInvalidChar
    | TLBracket :: TRBracket :: r => Ok (Array [], r)
    | TLBracket :: r => parse_elements fuel' r []
    | TLBrace :: TRBrace :: r => Ok (Object [], r)
    | TLBrace :: r => parse_members fuel' r []
    | _ => Err errInvalidChar
    end
  end
with parse_elements (fuel : nat) (ts : list Token) (acc : list Value)
  : result (Value * list Token) :=
  match fuel with
  | O => Err "parser out of fuel"
  | S fuel' =>
    match parse_value fuel' ts with
    | Err e => Err e
    | Ok (v, r) =>
      match r with
      | TComma :: r' => parse_elements fuel' r' (v :: acc)
      | TRBracket :: r' => Ok (Array (rev (v :: acc)), r')
      | [] => Err errUnexpectedEnd
      | _ => Err errInvalidChar
      end
    end
  end
with parse_members (fuel : nat) (ts : list Token)
       (acc : list (string * Value))
  : result (Value * list Token) :=
  match fuel with
  | O => Err "parser out of fuel"
  | S fuel' =>
    match ts with
    | TString k :: TColon :: r =>
      match parse_value fuel' r with
      | Err e => Err e
      | Ok (v, r') =>
        match r' with
        | TComma :: r'' => parse_members fuel' r'' ((k, v) :: acc)
        | TRBrace :: r'' => Ok (Object (rev ((k, v) :: acc)), r'')
        | [] => Err errUnexpectedEnd
        | _ => Err errInvalidChar
        end
      end
    | [] | [TString _] => Err errUnexpectedEnd
    | _ => Err errInvalidChar
    end
  end.

(** Parse a whole document: one value and nothing after it. *)
Definition Parse (input : string) : result Value :=
  match lex (S (String.length input)) input with
  | Err e => Err e
  | Ok ts =>
    match parse_value (2 * List.length ts + 2)%nat ts with
    | Err e => Err e
    | Ok (v, []) => Ok v
    | Ok (_, _ :: _) => Err errInvalidChar
    end
  end.

(** Member lookup in an object; as in Go, the last duplicate wins. *)
Fixpoint member (k : string) (members : list (string * Value))
  : option Value :=
  match members with
  | [] => None
  | (k', v) :: rest =>
    match member k rest with
    | Some v' => Some v'
    | None => if String.eqb k k' then Some v else None
    end
  end.

(** The JSON name of a value's type, as decode errors print it. *)
Definition kind_name (v : Value) : string :=
  match v with
  | Null => "null"
  | Bool _ => "bool"
  | Number _ => "number"
  | Str _ => "string"
  | Array _ => "array"
  | Object _ => "object"
  end.

End json.

(** A call that either returns or panics. *)
Inductive outcome (A : Type) : Type :=
| Returned (a : A)
| Panicked (msg : string).
Arguments Returned {A} a.
Arguments Panicked {A} msg.

Definition panicked {A} (o : outcome A) : bool :=
  match o with Panicked _ => true | Returned _ => false end.

(** ** Package [config]

    Only the tests of this package and its callers are among the
    sources, so the conversion layer, the registry and the validator
    are written down from the specification, and agree with what the
    tests assert; the record shapes follow the literals of
    [TestFromReaderValidate], the struct tags of
    [TestTransformAttributeMapToStruct] and the field accesses of
    [serveWeb]. *)
Module config.

(** An [AttributeMap] is a [gmap string json.Value]. *)
Definition attributesOf (members : list (string * json.Value))
  : gmap string json.Value :=
  list_to_map (rev members).

(** *** Conversion destinations *)

Inductive Kind : Type := KString | KNumber | KBool | KArray | KObject.

Definition kind_name (k : Kind) : string :=
  match k with
  | KString => "string" | KNumber => "number" | KBool => "bool"
  | KArray => "array" | KObject => "object"
  end.

(** A null leaves the field at its zero value, as any Go decoder does. *)
Definition compatible (k : Kind) (v : json.Value) : bool :=
  match k, v with
  | _, json.Null => true
  | KString, json.Str _ => true
  | KNumber, json.Number _ => true
  | KBool, json.Bool _ => true
  | KArray, json.Array _ => true
  | KObject, json.Object _ => true
  | _, _ => false
  end.

(** A declared field: the key it binds (its tag), the kind it accepts
    and its current content. *)
Record Field : Type := mkField {
  tag : string;
  kind : Kind;
  content : json.Value
}.

(** The residual bucket a destination may declare.  It is a declared
    field itself and binds the key of its tag, [json:"attributes"] in the
    structs of [TestTransformAttributeMapToStruct]; it comes in two
    flavours, [map[string]string] and [AttributeMap]. *)
Inductive Residual : Type :=
| NoResidual
| StringBucket (bucketTag : string) (entries : gmap string string)
| DynamicBucket (bucketTag : string) (entries : gmap string json.Value).

Record Struct : Type := mkStruct {
  fields : list Field;
  residual : Residual
}.

Definition residualTags (r : Residual) : list string :=
  match r with
  | NoResidual => []
  | StringBucket t _ | DynamicBucket t _ => [t]
  end.

Definition hasResidual (r : Residual) : bool :=
  match r with NoResidual => false | _ => true end.

(** The keys the declared fields bind, the bucket's own among them. *)
Definition tags (to : Struct) : list string :=
  (tag <$> fields to) ++ residualTags (residual to).

Definition ConversionError (name expected : string) (v : json.Value)
  : error :=
  "cannot convert attribute " +:+ name +:+ ": expected "
  +:+ expected +:+ ", got " +:+ json.kind_name v.

(** One declared field: populated from its key when the value is
    type-compatible, left as it is and reported otherwise. *)
Definition bindField (attrs : gmap string json.Value) (f : Field)
  : Field * option error :=
  match attrs !! tag f with
  | None => (f, None)
  | Some json.Null => (f, None)
  | Some v =>
    if compatible (kind f) v
    then (mkField (tag f) (kind f) v, None)
    else (f, Some (ConversionError (tag f) (kind_name (kind f)) v))
  end.

(** The declared fields in declaration order.  With a residual bucket
    ([keepGoing]) a mismatch does not stop the conversion of the other
    fields; without one the first mismatch ends it, the fields after it
    are not attempted. *)
Fixpoint bindFields (keepGoing : bool) (attrs : gmap string json.Value)
    (fs : list Field) : list Field * list error :=
  match fs with
  | [] => ([], [])
  | f :: fs' =>
    match bindField attrs f with
    | (f', None) =>
      let '(fs'', errs) := bindFields keepGoing attrs fs' in
      (f' :: fs'', errs)
    | (f', Some e) =>
      if keepGoing then
        let '(fs'', errs) := bindFields keepGoing attrs fs' in
        (f' :: fs'', e :: errs)
      else (f' :: fs', [e])
    end
  end.

Definition asString (v : json.Value) : option string :=
  match v with json.Str s => Some s | _ => None end.

(** The members of an object as a [map[string]string], when they are
    all strings. *)
Definition stringMembers (ms : list (string * json.Value))
  : option (gmap string string) :=
  if forallb (λ kv, bool_decide (is_Some (asString kv.2))) ms
  then Some (omap asString (attributesOf ms))
  else None.

(** The bucket as a declared field: populated from the key of its own
    tag when that holds an object of its flavour. *)
Definition bindResidual (attrs : gmap string json.Value) (r : Residual)
  : Residual * option error :=
  match r with
  | NoResidual => (NoResidual, None)
  | StringBucket t old =>
    match attrs !! t with
    | None => (r, None)
    | Some json.Null => (r, None)
    | Some (json.Object ms) =>
      match stringMembers ms with
      | Some m => (StringBucket t m, None)
      | None =>
        (r, Some (ConversionError t "map of strings" (json.Object ms)))
      end
    | Some v => (r, Some (ConversionError t "map of strings" v))
    end
  | DynamicBucket t old =>
    match attrs !! t with
    | None => (r, None)
    | Some json.Null => (r, None)
    | Some (json.Object ms) => (DynamicBucket t (attributesOf ms), None)
    | Some v => (r, Some (ConversionError t "object" v))
    end
  end.

(** The keys no declared field binds. *)
Definition unmatched (to : Struct) (attrs : gmap string json.Value)
  : gmap string json.Value :=
  filter (λ kv, kv.1 ∉ tags to) attrs.

(** The unmatched keys on top of the entries the bucket holds. *)
Definition route (to : Struct) (attrs : gmap string json.Value)
    (bound : Residual) : Residual :=
  match bound with
  | NoResidual => NoResidual
  | StringBucket t old =>
    StringBucket t (omap asString (unmatched to attrs) ∪ old)
  | DynamicBucket t old => DynamicBucket t (unmatched to attrs ∪ old)
  end.

(** Modelled from the spec: [TransformAttributeMapToStruct], whose
    source file is missing.  The result is the destination after the
    call, which the Go function fills in through its pointer, and the
    conversion errors it reports, none for a nil error.  Declared
    fields are bound in declaration order, the bucket last as in the
    test's structs; a type mismatch is reported by a [ConversionError]
    and ends the conversion only when the destination has no residual
    bucket.  The remaining keys go to the residual bucket, on top of the
    entries it holds.  A string-to-string bucket takes the string values
    only, as [TestTransformAttributeMapToStruct] expects for the
    number 5. *)
Definition TransformAttributeMapToStruct
    (to : Struct) (attributes : gmap string json.Value)
  : Struct * list error :=
  let '(fs, errs) :=
    bindFields (hasResidual (residual to)) attributes (fields to) in
  let '(bound, err) := bindResidual attributes (residual to) in
  (mkStruct fs (route to attributes bound),
   errs ++ match err with Some e => [e] | None => [] end).

(** *** The type registry *)

(** What a conversion yields: a driver's struct or, with no converter
    registered, the attributes as they came. *)
Inductive ConvertedConfig : Type :=
| RawAttributes (attrs : gmap string json.Value)
| Converted (s : Struct).

Definition AttributeMapConverter : Type :=
  gmap string json.Value → result ConvertedConfig.

(** A validator gets the path of the resource it checks. *)
Definition Validator : Type := string → ConvertedConfig → option error.

Record Registration : Type := mkRegistration {
  conv : AttributeMapConverter;
  validator : option Validator
}.

(** The process-wide registry, passed explicitly: components are keyed
    by (component type, model), services by service type. *)
Record Registry : Type := mkRegistry {
  componentAttributeMapConverters : gmap (string * string) Registration;
  serviceAttributeMapConverters : gmap string Registration
}.

Definition emptyRegistry : Registry := mkRegistry ∅ ∅.

(** Modelled from the spec and the test:
    [RegisterComponentAttributeMapConverter], whose source file is
    missing.  [TestFromReaderValidate] asserts that its call with nil as
    fourth argument panics, under a type and model nothing in the test
    registers before: a nil fourth argument is fatal.  From the
    specification: a fatal failure when the pair is already registered,
    an insertion otherwise. *)
Definition RegisterComponentAttributeMapConverter
    (compType model : string) (c : AttributeMapConverter)
    (v : option Validator) (reg : Registry) : outcome Registry :=
  match v with
  | None => Panicked "nil fourth argument"
  | Some _ =>
    match componentAttributeMapConverters reg !! (compType, model) with
    | Some _ => Panicked "duplicate component attribute map converter"
    | None =>
      Returned (mkRegistry
        (<[(compType, model) := mkRegistration c v]>
           (componentAttributeMapConverters reg))
        (serviceAttributeMapConverters reg))
    end
  end.

(** Modelled from the spec and the test:
    [RegisterServiceAttributeMapConverter], whose source file is missing;
    the key is the service type alone, and the test asserts the panic of
    its call with nil as last argument in the same way. *)
Definition RegisterServiceAttributeMapConverter
    (svcType : string) (c : AttributeMapConverter)
    (v : option Validator) (reg : Registry) : outcome Registry :=
  match v with
  | None => Panicked "nil last argument"
  | Some _ =>
    match serviceAttributeMapConverters reg !! svcType with
    | Some _ => Panicked "duplicate service attribute map converter"
    | None =>
      Returned (mkRegistry
        (componentAttributeMapConverters reg)
        (<[svcType := mkRegistration c v]>
           (serviceAttributeMapConverters reg)))
    end
  end.

(** One registration request, for replaying an initialisation phase. *)
Inductive Register : Type :=
| RegisterComponent (compType model : string)
    (c : AttributeMapConverter) (v : option Validator)
| RegisterService (svcType : string)
    (c : AttributeMapConverter) (v : option Validator).

Definition register (r : Register) (reg : Registry) : outcome Registry :=
  match r with
  | RegisterComponent t m c v =>
    RegisterComponentAttributeMapConverter t m c v reg
  | RegisterService t c v =>
    RegisterServiceAttributeMapConverter t c v reg
  end.

(** A sequence of registrations; the first panic ends the process. *)
Fixpoint registerAll (rs : list Register) (reg : Registry)
  : outcome Registry :=
  match rs with
  | [] => Returned reg
  | r :: rs' =>
    match register r reg with
    | Panicked msg => Panicked msg
    | Returned reg' => registerAll rs' reg'
    end
  end.

Inductive ResourceKind : Type := KindComponent | KindService.

Definition lookupRegistration (reg : Registry) (k : ResourceKind)
    (typeName model : string) : option Registration :=
  match k with
  | KindComponent => componentAttributeMapConverters reg !! (typeName, model)
  | KindService => serviceAttributeMapConverters reg !! typeName
  end.

(** Modelled from the spec: the registry lookup [Convert], whose source
    file is missing; a type with no converter passes its attributes
    through, never an error. *)
Definition Convert (reg : Registry) (k : ResourceKind)
    (typeName model : string) (attrs : gmap string json.Value)
  : result ConvertedConfig :=
  match lookupRegistration reg k typeName model with
  | None => Ok (RawAttributes attrs)
  | Some r => conv r attrs
  end.

(** The validator of a type, when one is registered, run on a converted
    config. *)
Definition runValidator (reg : Registry) (k : ResourceKind)
    (typeName model path : string) (cc : ConvertedConfig) : option error :=
  match lookupRegistration reg k typeName model with
  | Some (mkRegistration _ (Some check)) => check path cc
  | _ => None
  end.

(** *** The configuration model *)

Record Cloud : Type := mkCloud {
  ID : string;
  Secret : string;
  LogPath : string;
  AppAddress : string
}.

(** [NetworkConfig] with its embedded [NetworkConfigData] flattened; Go
    promotes the embedded fields, and [serveWeb] reads
    [cfg.Network.BindAddress]. *)
Record NetworkConfig : Type := mkNetworkConfig {
  BindAddress : string;
  BindAddressDefaultSet : bool;
  TLSCertFile : string;
  TLSKeyFile : string
}.

(** A resource entry.  The specification gives the component, service,
    process and remote lists one entry shape. *)
Record Component : Type := mkComponent {
  Name : string;
  Type_ : string;
  Model : string;
  DependsOn : list string;
  Attributes : gmap string json.Value;
  ConvertedAttributes : option ConvertedConfig
}.

Record Config : Type := mkConfig {
  ConfigFilePath : string;
  Cloud_ : option Cloud;
  Network : NetworkConfig;
  Components : list Component;
  Services : list Component;
  Processes : list Component;
  Remotes : list Component;
  Debug : bool;
  FromCommand : bool;
  AllowInsecureCreds : bool
}.

Definition ComponentTypeArm : string := "arm".

Definition zeroNetwork : NetworkConfig := mkNetworkConfig "" false "" "".

Definition zeroConfig : Config :=
  mkConfig "" None zeroNetwork [] [] [] [] false false false.

(** *** Decoding a JSON document into a [Config] *)

Definition unmarshalTypeError (v : json.Value) (field ty : string) : error :=
  "json: cannot unmarshal " +:+ json.kind_name v
  +:+ " into Go struct field " +:+ field +:+ " of type " +:+ ty.

Definition decodeString (field : string) (v : option json.Value)
  : result string :=
  match v with
  | None | Some json.Null => Ok ""
  | Some (json.Str s) => Ok s
  | Some v => Err (unmarshalTypeError v field "string")
  end.

Fixpoint decodeStrings (field : string) (vs : list json.Value)
  : result (list string) :=
  match vs with
  | [] => Ok []
  | v :: vs' =>
    match decodeString field (Some v), decodeStrings field vs' with
    | Ok s, Ok ss => Ok (s :: ss)
    | Err e, _ | _, Err e => Err e
    end
  end.

Definition decodeStringList (field : string) (v : option json.Value)
  : result (list string) :=
  match v with
  | None | Some json.Null => Ok []
  | Some (json.Array vs) => decodeStrings field vs
  | Some v => Err (unmarshalTypeError v field "[]string")
  end.

Definition decodeAttributes (field : string) (v : option json.Value)
  : result (gmap string json.Value) :=
  match v with
  | None | Some json.Null => Ok ∅
  | Some (json.Object ms) => Ok (attributesOf ms)
  | Some v => Err (unmarshalTypeError v field "config.AttributeMap")
  end.

Definition decodeCloud (v : option json.Value) : result (option Cloud) :=
  match v with
  | None | Some json.Null => Ok None
  | Some (json.Object ms) =>
    match decodeString "Cloud.id" (json.member "id" ms),
          decodeString "Cloud.secret" (json.member "secret" ms),
          decodeString "Cloud.log_path" (json.member "log_path" ms),
          decodeString "Cloud.app_address" (json.member "app_address" ms) with
    | Ok i, Ok s, Ok l, Ok a => Ok (Some (mkCloud i s l a))
    | Err e, _, _, _ | _, Err e, _, _ | _, _, Err e, _ | _, _, _, Err e => Err e
    end
  | Some v => Err (unmarshalTypeError v "Config.cloud" "config.Cloud")
  end.

Definition decodeNetwork (v : option json.Value) : result NetworkConfig :=
  match v with
  | None | Some json.Null => Ok zeroNetwork
  | Some (json.Object ms) =>
    match decodeString "NetworkConfig.bind_address" (json.member "bind_address" ms),
          decodeString "NetworkConfig.tls_cert_file" (json.member "tls_cert_file" ms),
          decodeString "NetworkConfig.tls_key_file" (json.member "tls_key_file" ms) with
    | Ok b, Ok c, Ok k => Ok (mkNetworkConfig b false c k)
    | Err e, _, _ | _, Err e, _ | _, _, Err e => Err e
    end
  | Some v => Err (unmarshalTypeError v "Config.network" "config.NetworkConfig")
  end.

Definition decodeComponent (v : json.Value) : result Component :=
  match v with
  | json.Null => Ok (mkComponent "" "" "" [] ∅ None)
  | json.Object ms =>
    match decodeString "Component.name" (json.member "name" ms),
          decodeString "Component.type" (json.member "type" ms),
          decodeString "Component.model" (json.member "model" ms),
          decodeStringList "Component.depends_on" (json.member "depends_on" ms),
          decodeAttributes "Component.attributes" (json.member "attributes" ms) with
    | Ok n, Ok t, Ok m, Ok d, Ok a => Ok (mkComponent n t m d a None)
    | Err e, _, _, _, _ | _, Err e, _, _, _ | _, _, Err e, _, _
    | _, _, _, Err e, _ | _, _, _, _, Err e => Err e
    end
  | v => Err (unmarshalTypeError v "Config.components" "config.Component")
  end.

Fixpoint decodeComponents (vs : list json.Value) : result (list Component) :=
  match vs with
  | [] => Ok []
  | v :: vs' =>
    match decodeComponent v, decodeComponents vs' with
    | Ok c, Ok cs => Ok (c :: cs)
    | Err e, _ | _, Err e => Err e
    end
  end.

(** A missing section is an empty list, never an error. *)
Definition decodeList (field : string) (v : option json.Value)
  : result (list Component) :=
  match v with
  | None | Some json.Null => Ok []
  | Some (json.Array vs) => decodeComponents vs
  | Some v => Err (unmarshalTypeError v field "[]config.Component")
  end.

Definition decodeConfig (v : json.Value) : result Config :=
  match v with
  | json.Null => Ok zeroConfig
  | json.Object ms =>
    match decodeCloud (json.member "cloud" ms),
          decodeNetwork (json.member "network" ms),
          decodeList "Config.components" (json.member "components" ms),
          decodeList "Config.services" (json.member "services" ms),
          decodeList "Config.processes" (json.member "processes" ms),
          decodeList "Config.remotes" (json.member "remotes" ms) with
    | Ok c, Ok n, Ok cs, Ok ss, Ok ps, Ok rs =>
      Ok (mkConfig "" c n cs ss ps rs false false false)
    | Err e, _, _, _, _, _ | _, Err e, _, _, _, _ | _, _, Err e, _, _, _
    | _, _, _, Err e, _, _ | _, _, _, _, Err e, _ | _, _, _, _, _, Err e => Err e
    end
  | v =>
    Err ("json: cannot unmarshal " +:+ json.kind_name v
         +:+ " into Go value of type config.Config")
  end.

(** *** Validation *)

Definition quote (s : string) : string :=
  String dq s +:+ String dq EmptyString.

(** A required field is missing at [path]. *)
Definition fieldRequiredError (path field : string) : error :=
  path +:+ ": " +:+ quote field +:+ " is required".

Definition DefaultBindAddress : string := "localhost:8080".

Definition validateCloud (c : option Cloud) : option error :=
  match c with
  | Some c => if String.eqb (ID c) "" then Some (fieldRequiredError "cloud" "id") else None
  | None => None
  end.

(** One entry: the name when [needName], then conversion and validation
    by the registry when the type is registered. *)
Definition validateEntry (reg : Registry) (k : ResourceKind)
    (needName : bool) (path : string) (c : Component) : result Component :=
  if needName && String.eqb (Name c) "" then Err (fieldRequiredError path "name")
  else
    match lookupRegistration reg k (Type_ c) (Model c) with
    | None => Ok c
    | Some _ =>
      match Convert reg k (Type_ c) (Model c) (Attributes c) with
      | Err e => Err (path +:+ ": " +:+ e)
      | Ok cc =>
        match runValidator reg k (Type_ c) (Model c) path cc with
        | Some e => Err (path +:+ ": " +:+ e)
        | None =>
          Ok (mkComponent (Name c) (Type_ c) (Model c) (DependsOn c)
                (Attributes c) (Some cc))
        end
      end
    end.

(** Entries in order, each under the path [listName.index]; the first
    error aborts. *)
Fixpoint validateEntries (reg : Registry) (k : ResourceKind)
    (needName : bool) (listName : string) (idx : nat) (cs : list Component)
  : result (list Component) :=
  match cs with
  | [] => Ok []
  | c :: cs' =>
    match validateEntry reg k needName (listName +:+ "." +:+ pretty idx) c with
    | Err e => Err e
    | Ok c' =>
      match validateEntries reg k needName listName (S idx) cs' with
      | Err e => Err e
      | Ok cs'' => Ok (c' :: cs'')
      end
    end
  end.

(** The bind address defaults when unset, and the flag records it. *)
Definition validateNetwork (n : NetworkConfig) : NetworkConfig :=
  if String.eqb (BindAddress n) ""
  then mkNetworkConfig DefaultBindAddress true (TLSCertFile n) (TLSKeyFile n)
  else n.

(** Modelled from the spec: [Config.Validate], whose source file is
    missing: the cloud section needs an id, every component a name,
    registered types are converted and validated, the bind address is
    defaulted; the first error aborts the whole validation. *)
Definition Validate (reg : Registry) (c : Config) : result Config :=
  match validateCloud (Cloud_ c) with
  | Some e => Err e
  | None =>
    match validateEntries reg KindComponent true "components" 0 (Components c) with
    | Err e => Err e
    | Ok cs =>
      match validateEntries reg KindService false "services" 0 (Services c) with
      | Err e => Err e
      | Ok ss =>
        Ok (mkConfig (ConfigFilePath c) (Cloud_ c) (validateNetwork (Network c))
              cs ss (Processes c) (Remotes c)
              (Debug c) (FromCommand c) (AllowInsecureCreds c))
      end
    end
  end.

Definition withPath (path : string) (c : Config) : Config :=
  mkConfig path (Cloud_ c) (Network c) (Components c) (Services c)
    (Processes c) (Remotes c) (Debug c) (FromCommand c) (AllowInsecureCreds c).

(** Modelled from the spec: [FromReader], whose source file is missing:
    parse the payload, decode its sections, record the path, validate. *)
Definition FromReader (reg : Registry) (originalPath : string)
    (input : string) : result Config :=
  match json.Parse input with
  | Err e => Err e
  | Ok v =>
    match decodeConfig v with
    | Err e => Err e
    | Ok c => Validate reg (withPath originalPath c)
    end
  end.

(** The part of a [DiffConfigs] result that [serveWeb] reads. *)
Record Diff : Type := mkDiff {
  NetworkEqual : bool
}.

End config.

(** ** Packages [rpc] and [weboptions]: the option records [serveWeb]
    fills in *)
Module rpc.

Inductive DialOption : Type :=
| WithAllowInsecureWithCredentialsDowngrade
| OtherDialOption (id : nat).

End rpc.

Module weboptions.

Record Options : Type := mkOptions {
  Pprof : bool;
  SharedDir : string;
  Debug : bool;
  WebRTC : bool;
  SignalingDialOpts : list rpc.DialOption;
  AuthHandlers : list string
}.

Definition zero : Options := mkOptions false "" false false [] [].

End weboptions.

(** ** Package [server]: [serveWeb] and its two supervisory goroutines *)
Module server.

(** Arguments for the command. *)
Record Arguments : Type := mkArguments {
  AllowInsecureCreds : bool;
  ConfigFile : string;
  CPUProfile : string;
  Debug : bool;
  SharedDir : string;
  Version : bool;
  WebProfile : bool;
  WebRTC : bool;
  revealSensitiveConfigDiffs : bool
}.

(** The methods of the robot that the watch loop calls.  [Reconfigure]
    returns nothing; [StopWeb] and [StartWeb] return an error or nil. *)
Class LocalRobot (R : Type) : Type := {
  Reconfigure : R → config.Config → R;
  StopWeb : R → R * option error;
  StartWeb : R → weboptions.Options → R * option error
}.

Inductive Level : Type := Info | Warn | Error.

(** What the goroutines do to the outside, in the order they do it. *)
Inductive Event : Type :=
| Log (lvl : Level) (msg : string) (err : option error)
| CallReconfigure (cfg : config.Config)
| CallStopWeb
| CallStartWeb (options : weboptions.Options)
| CallNeedsRestart
| CallCancel
| CallRestartCheckClose
| Wait (d : Duration).

(** The world a goroutine runs in: the robot, the trace so far and
    whether [ctx] is done. *)
Record World (R : Type) : Type := mkWorld {
  robot : R;
  trace : list Event;
  ctxDone : bool
}.
Arguments mkWorld {R} robot trace ctxDone.
Arguments robot {R} w.
Arguments trace {R} w.
Arguments ctxDone {R} w.

(** State passing over the world. *)
Definition M (R A : Type) : Type := World R → A * World R.

#[global] Instance M_ret {R} : MRet (M R) := λ A a w, (a, w).
#[global] Instance M_bind {R} : MBind (M R) :=
  λ A B k m w, let '(a, w') := m w in k a w'.

Definition emit {R} (e : Event) : M R unit :=
  λ w, (tt, mkWorld (robot w) (trace w ++ [e]) (ctxDone w)).

(** [logger.Errorw], [logger.Infow] with their one ["error"] field, and
    [logger.Warn]. *)
Definition Errorw {R} (msg : string) (err : error) : M R unit :=
  emit (Log Error msg (Some err)).
Definition Infow {R} (msg : string) (err : error) : M R unit :=
  emit (Log Info msg (Some err)).
Definition Warn_ {R} (msg : string) : M R unit :=
  emit (Log Warn msg None).

(** [cancel()] of the context [serveWeb] derives. *)
Definition cancel {R} : M R unit :=
  λ w, (tt, mkWorld (robot w) (trace w ++ [CallCancel]) true).

(** [utils.SelectContextOrWait(ctx, d)]: false when the context is done
    before the wait is over.  [interrupted] says whether somebody else
    cancels during this wait. *)
Definition SelectContextOrWait {R} (d : Duration) (interrupted : bool)
  : M R bool :=
  λ w, if ctxDone w || interrupted
       then (false, mkWorld (robot w) (trace w ++ [Wait d]) true)
       else (true, mkWorld (robot w) (trace w ++ [Wait d]) false).

(** How a loop body ends: with the next iteration, carrying the loop's
    variable, or by returning from the goroutine. *)
Inductive Ctl (A : Type) : Type :=
| Continue (a : A)
| Return.
Arguments Continue {A} a.
Arguments Return {A}.

(** What [restartCheck.needsRestart] answers: Go's triple
    [(mustRestart, newRestartInterval, err)]. *)
Record Answer : Type := mkAnswer {
  mustRestart : bool;
  newRestartInterval : Duration;
  err : option error
}.

(** One turn of the restart checker as the environment decides it. *)
Record Poll : Type := mkPoll {
  interrupted : bool;
  answer : Answer
}.

(** What the watch loop's [select] receives. *)
Inductive Delivery : Type :=
| CtxDone
| NewConfig (cfg : config.Config).

Section serveWeb.

Context {R : Type} `{LocalRobot R}.

(** Collaborators whose source files are missing, with their Go
    signatures. *)
Variable TLSConfig : Type.
Variable NewTLSConfig : config.Config → TLSConfig.
Variable ProcessConfig : config.Config → TLSConfig → result config.Config.
Variable DiffConfigs :
  config.Config → config.Config → bool → result config.Diff.
Variable FromConfig : config.Config → result weboptions.Options.
Variable SplitHostPort : string → result (string * string).
Variable defaultNeedsRestartCheckInterval : Duration.

(** The arguments of [serveWeb]. *)
Variable cfg : config.Config.
Variable argsParsed : Arguments.

Definition callReconfigure (c : config.Config) : M R unit :=
  λ w, (tt, mkWorld (Reconfigure (robot w) c)
                    (trace w ++ [CallReconfigure c]) (ctxDone w)).

Definition callStopWeb : M R (option error) :=
  λ w, let '(r, e) := StopWeb (robot w) in
       (e, mkWorld r (trace w ++ [CallStopWeb]) (ctxDone w)).

Definition callStartWeb (options : weboptions.Options) : M R (option error) :=
  λ w, let '(r, e) := StartWeb (robot w) options in
       (e, mkWorld r (trace w ++ [CallStartWeb options]) (ctxDone w)).

Definition createWebOptions (cfg : config.Config) (argsParsed : Arguments)
  : M R (result weboptions.Options) :=
  match FromConfig cfg with
  | Err err => mret (Err err)
  | Ok options =>
    let options :=
      weboptions.mkOptions
        (WebProfile argsParsed)
        (SharedDir argsParsed)
        (Debug argsParsed || config.Debug cfg)
        (WebRTC argsParsed)
        (if bool_decide (config.Cloud_ cfg ≠ None) && AllowInsecureCreds argsParsed
         then weboptions.SignalingDialOpts options
              ++ [rpc.WithAllowInsecureWithCredentialsDowngrade]
         else weboptions.SignalingDialOpts options)
        (weboptions.AuthHandlers options) in
    if (List.length (weboptions.AuthHandlers options) =? 0)%nat then
      match SplitHostPort (config.BindAddress (config.Network cfg)) with
      | Err err => mret (Err err)
      | Ok (host, _) =>
        (if String.eqb host "" || String.eqb host "0.0.0.0" || String.eqb host "::"
         then Warn_ "binding to all interfaces without authentication"
         else mret tt) ;;
        mret (Ok options)
      end
    else mret (Ok options)
  end.

(** The closure [processConfig]; it reads the [cfg] of [serveWeb], not
    the candidate, for the TLS config and the debug flag. *)
Definition processConfig (in_ : config.Config) : result config.Config :=
  let tlsCfg := NewTLSConfig cfg in
  match ProcessConfig in_ tlsCfg with
  | Err err => Err err
  | Ok out =>
    Ok (config.mkConfig
          (config.ConfigFilePath out) (config.Cloud_ out) (config.Network out)
          (config.Components out) (config.Services out)
          (config.Processes out) (config.Remotes out)
          (Debug argsParsed || config.Debug cfg)
          true
          (AllowInsecureCreds argsParsed))
  end.

(** *** The restart checker *)

(** The body of the checker's [for] loop. *)
Definition restartCheckIteration (restartInterval : Duration) (p : Poll)
  : M R (Ctl Duration) :=
  waited ← SelectContextOrWait restartInterval (interrupted p);
  if negb waited then mret Return
  else
    emit CallNeedsRestart ;;
    let '(mkAnswer mustRestart newRestartInterval err) := answer p in
    match err with
    | Some err =>
      Infow "failed to check restart" err ;;
      mret (Continue restartInterval)
    | None =>
      let restartInterval := newRestartInterval in
      if mustRestart then cancel ;; mret Return
      else mret (Continue restartInterval)
    end.

(** The loop over the turns observed so far.  [Continue i] at the end
    says the goroutine is still looping and its next wait is [i]. *)
Fixpoint restartCheckLoop (restartInterval : Duration) (polls : list Poll)
  : M R (Ctl Duration) :=
  match polls with
  | [] => mret (Continue restartInterval)
  | p :: polls' =>
    c ← restartCheckIteration restartInterval p;
    match c with
    | Return => mret Return
    | Continue restartInterval => restartCheckLoop restartInterval polls'
    end
  end.

(** The goroutine after [newRestartChecker] succeeded: the loop from
    the default interval and, once the loop returns, the deferred
    [restartCheck.close()].  While the goroutine is still looping
    nothing is closed. *)
Definition restartChecker (polls : list Poll) : M R (Ctl Duration) :=
  c ← restartCheckLoop defaultNeedsRestartCheckInterval polls;
  match c with
  | Return => emit CallRestartCheckClose ;; mret Return
  | Continue restartInterval => mret (Continue restartInterval)
  end.

(** *** The config watcher *)

(** What the loop does with one candidate from [watcher.Config()].  The
    result is the loop's [oldCfg] for the next iteration; every
    [continue] of the source leaves it as it was. *)
Definition reconfigure (oldCfg cfg : config.Config) : M R config.Config :=
  match processConfig cfg with
  | Err err =>
    Errorw "error processing config" err ;;
    mret oldCfg
  | Ok processedConfig =>
    callReconfigure processedConfig ;;
    match DiffConfigs oldCfg processedConfig
            (revealSensitiveConfigDiffs argsParsed) with
    | Err err =>
      Errorw "error diffing config" err ;;
      mret oldCfg
    | Ok diff =>
      if negb (config.NetworkEqual diff) then
        stopErr ← callStopWeb;
        match stopErr with
        | Some err =>
          Errorw "error stopping web service while reconfiguring" err ;;
          mret oldCfg
        | None =>
          options ← createWebOptions processedConfig argsParsed;
          match options with
          | Err err =>
            Errorw "error creating weboptions" err ;;
            mret oldCfg
          | Ok options =>
            startErr ← callStartWeb options;
            match startErr with
            | Some err =>
              Errorw "error starting web service while reconfiguring" err
            | None => mret tt
            end ;;
            mret processedConfig
          end
        end
      else mret processedConfig
    end
  end.

(** The body of the watcher's [for] loop: the two [select]s, then the
    candidate. *)
Definition watchIteration (oldCfg : config.Config) (d : Delivery)
  : M R (Ctl config.Config) :=
  λ w,
    if ctxDone w then (Return, w)
    else
      match d with
      | CtxDone => (Return, mkWorld (robot w) (trace w) true)
      | NewConfig cfg =>
        let '(oldCfg, w') := reconfigure oldCfg cfg w in
        (Continue oldCfg, w')
      end.

(** The loop over the deliveries observed so far; [Continue oldCfg] at
    the end says the goroutine is waiting with that baseline. *)
Fixpoint watchLoop (oldCfg : config.Config) (ds : list Delivery)
  : M R (Ctl config.Config) :=
  match ds with
  | [] => mret (Continue oldCfg)
  | d :: ds' =>
    c ← watchIteration oldCfg d;
    match c with
    | Return => mret Return
    | Continue oldCfg => watchLoop oldCfg ds'
    end
  end.

End serveWeb.

End server.

(** ** Package [fake]: a scripted robot and stand-ins for the missing
    collaborators, for running [serveWeb]'s loops on concrete inputs *)
Module fake.

(** A robot that records what it was given and fails on demand. *)
Record Robot : Type := mkRobot {
  current : option config.Config;
  webRunning : bool;
  stopWebErr : option error;
  startWebErr : option error
}.

#[global] Instance Robot_LocalRobot : server.LocalRobot Robot := {|
  server.Reconfigure r c :=
    mkRobot (Some c) (webRunning r) (stopWebErr r) (startWebErr r);
  server.StopWeb r :=
    match stopWebErr r with
    | Some e => (r, Some e)
    | None => (mkRobot (current r) false (stopWebErr r) (startWebErr r), None)
    end;
  server.StartWeb r _ :=
    match startWebErr r with
    | Some e => (r, Some e)
    | None => (mkRobot (current r) true (stopWebErr r) (startWebErr r), None)
    end
|}.

Definition NewTLSConfig (_ : config.Config) : unit := tt.

(** Processing stands for validation against an empty registry. *)
Definition ProcessConfig (in_ : config.Config) (_ : unit)
  : result config.Config :=
  config.Validate config.emptyRegistry in_.

Definition networkEqual (l r : config.NetworkConfig) : bool :=
  String.eqb (config.BindAddress l) (config.BindAddress r)
  && Bool.eqb (config.BindAddressDefaultSet l) (config.BindAddressDefaultSet r)
  && String.eqb (config.TLSCertFile l) (config.TLSCertFile r)
  && String.eqb (config.TLSKeyFile l) (config.TLSKeyFile r).

(** Modelled from the spec: the network-equality flag of [DiffConfigs],
    whose source file is missing: true iff the network settings of the
    two configs are the same.  [failure] scripts a diff error. *)
Definition DiffConfigs (failure : option error)
    (left right : config.Config) (revealSensitive : bool)
  : result config.Diff :=
  match failure with
  | Some e => Err e
  | None =>
    Ok (config.mkDiff (networkEqual (config.Network left) (config.Network right)))
  end.

Definition FromConfig (_ : config.Config) : result weboptions.Options :=
  Ok weboptions.zero.

(** [net.SplitHostPort] on the [host:port] form: split at the last
    colon, an error when there is none. *)
Fixpoint splitLastColon (s : string) : option (string * string) :=
  match s with
  | EmptyString => None
  | String c s' =>
    match splitLastColon s' with
    | Some (h, p) => Some (String c h, p)
    | None => if Ascii.eqb c ":"%char then Some (EmptyString, s') else None
    end
  end.

Definition SplitHostPort (hostport : string) : result (string * string) :=
  match splitLastColon hostport with
  | Some hp => Ok hp
  | None => Err ("address " +:+ hostport +:+ ": missing port in address")
  end.

Definition args : server.Arguments :=
  server.mkArguments false "robot.json" "" false "" false false false false.

(** A config that binds [addr] and has one arm whose attribute [speed]
    is [speed]. *)
Definition configWith (addr : string) (speed : Z) : config.Config :=
  config.mkConfig "robot.json" None
    (config.mkNetworkConfig addr false "" "")
    [config.mkComponent "foo" config.ComponentTypeArm "" []
       {[ "speed" := json.Number speed ]} None]
    [] [] [] false true false.

Definition healthy : Robot := mkRobot None true None None.

Definition start (r : Robot) : server.World Robot := server.mkWorld r [] false.

(** One candidate through the watch loop's body, with [failure]
    scripting the differ. *)
Definition cycle (failure : option error) (r : Robot)
    (oldCfg candidate : config.Config)
  : config.Config * server.World Robot :=
  server.reconfigure unit NewTLSConfig ProcessConfig (DiffConfigs failure)
    FromConfig SplitHostPort oldCfg args oldCfg candidate (start r).

End fake.

(** ** Observations on traces *)

Definition isRobotCall (e : server.Event) : bool :=
  match e with
  | server.CallReconfigure _ | server.CallStopWeb | server.CallStartWeb _ => true
  | _ => false
  end.

(** The robot calls of a trace, in order. *)
Definition robotCalls (evs : list server.Event) : list server.Event :=
  List.filter isRobotCall evs.

(** What a step appended to the trace. *)
Definition appended {R} (before after : server.World R) : list server.Event :=
  drop (List.length (server.trace before)) (server.trace after).

(** [StopWeb] and then [StartWeb] occur, and no [Reconfigure] occurs
    before that [StartWeb]. *)
Fixpoint restartedBeforeApply (seenStop : bool) (evs : list server.Event)
  : bool :=
  match evs with
  | [] => false
  | server.CallReconfigure _ :: _ => false
  | server.CallStopWeb :: evs' => restartedBeforeApply true evs'
  | server.CallStartWeb _ :: _ => seenStop
  | _ :: evs' => restartedBeforeApply seenStop evs'
  end.

(** ** Observations on cycles and turns *)

(** A poll that reaches [needsRestart]: the context is live and nobody
    cancels during the wait. *)
Definition reachesCheck {R} (w : server.World R) (p : server.Poll) : Prop :=
  server.ctxDone w = false ∧ server.interrupted p = false.

Definition failed (p : server.Poll) : Prop := is_Some (server.err (server.answer p)).

(** How the web restart of a network-changed cycle ends. *)
Inductive WebRestart : Type :=
| StopFailed (e : error)
| OptionsFailed (e : error)
| StartFailed (options : weboptions.Options) (e : error)
| Restarted (options : weboptions.Options).

(** The robot calls one cycle can make, and those of a run of cycles. *)
Inductive cycleCalls : list server.Event → Prop :=
| cycle_dropped : cycleCalls []
| cycle_applied pc : cycleCalls [server.CallReconfigure pc]
| cycle_stopped pc :
    cycleCalls [server.CallReconfigure pc; server.CallStopWeb]
| cycle_restarted pc options :
    cycleCalls [server.CallReconfigure pc; server.CallStopWeb;
                server.CallStartWeb options].

Inductive cyclesCalls : list server.Event → Prop :=
| cycles_none : cyclesCalls []
| cycles_more l rest :
    cycleCalls l → cyclesCalls rest → cyclesCalls (l ++ rest).

(** Why a candidate is dropped before the web restart is considered. *)
Inductive Discarded : Type :=
| ProcessingFailed (e : error)
| DiffFailed (pc : config.Config) (e : error).

Section Observations.

Context {R : Type} `{server.LocalRobot R}.
Variable TLSConfig : Type.
Variable NewTLSConfig : config.Config → TLSConfig.
Variable ProcessConfig : config.Config → TLSConfig → result config.Config.
Variable DiffConfigs :
  config.Config → config.Config → bool → result config.Diff.
Variable FromConfig : config.Config → result weboptions.Options.
Variable SplitHostPort : string → result (string * string).
Variable cfg : config.Config.
Variable argsParsed : server.Arguments.

Implicit Types (w : server.World R) (c pc oldCfg : config.Config).

(** The web restart that follows [Reconfigure] in a cycle whose diff
    says the network changed, read off the robot [r] that [Reconfigure]
    left and the processed candidate.  The world only serves to run
    [createWebOptions], whose answer is the same in every world. *)
Definition webRestart (r : R) pc w : WebRestart :=
  match server.StopWeb r with
  | (_, Some e) => StopFailed e
  | (r', None) =>
    match (server.createWebOptions FromConfig SplitHostPort pc argsParsed w).1 with
    | Err e => OptionsFailed e
    | Ok options =>
      match server.StartWeb r' options with
      | (_, Some e) => StartFailed options e
      | (_, None) => Restarted options
      end
    end
  end.

(** The baseline and the robot calls of a cycle whose web restart ends
    as [o]. *)
Definition baselineAfter oldCfg pc (o : WebRestart) : config.Config :=
  match o with
  | StopFailed _ | OptionsFailed _ => oldCfg
  | StartFailed _ _ | Restarted _ => pc
  end.

Definition callsOf pc (o : WebRestart) : list server.Event :=
  match o with
  | StopFailed _ | OptionsFailed _ =>
    [server.CallReconfigure pc; server.CallStopWeb]
  | StartFailed options _ | Restarted options =>
    [server.CallReconfigure pc; server.CallStopWeb;
     server.CallStartWeb options]
  end.

Definition errorLogged (o : WebRestart) : list server.Event :=
  match o with
  | StopFailed e =>
    [server.Log server.Error "error stopping web service while reconfiguring" (Some e)]
  | OptionsFailed e =>
    [server.Log server.Error "error creating weboptions" (Some e)]
  | StartFailed _ e =>
    [server.Log server.Error "error starting web service while reconfiguring" (Some e)]
  | Restarted _ => []
  end.

(** Whether, and why, the cycle for [c] ends before the web restart. *)
Definition discarded oldCfg c : option Discarded :=
  match server.processConfig TLSConfig NewTLSConfig ProcessConfig cfg argsParsed c with
  | Err e => Some (ProcessingFailed e)
  | Ok pc =>
    match DiffConfigs oldCfg pc (server.revealSensitiveConfigDiffs argsParsed) with
    | Err e => Some (DiffFailed pc e)
    | Ok _ => None
    end
  end.

End Observations.

(** ** Scenarios *)

Definition served : config.Config := fake.configWith "localhost:8080" 1.
Definition retuned : config.Config := fake.configWith "localhost:8080" 2.
Definition rebound : config.Config := fake.configWith "localhost:9090" 1.
Definition portless : config.Config := fake.configWith "localhost" 1.
Definition nameless : config.Config :=
  config.mkConfig "robot.json" None
    (config.mkNetworkConfig "localhost:8080" false "" "")
    [config.mkComponent "" config.ComponentTypeArm "" [] ∅ None]
    [] [] [] false true false.

Definition stopFailing : fake.Robot :=
  fake.mkRobot None true (Some "web service busy") None.
Definition startFailing : fake.Robot :=
  fake.mkRobot None true None (Some "address already in use").

Definition unreachable : server.Poll :=
  server.mkPoll false (server.mkAnswer true 1 (Some "connection refused")).
Definition restartNow : server.Poll :=
  server.mkPoll false (server.mkAnswer true 1000 None).
Definition slowDown : server.Poll :=
  server.mkPoll false (server.mkAnswer false 9000 None).

(** What a registration request is keyed by. *)
Inductive Key : Type :=
| ComponentKey (compType model : string)
| ServiceKey (svcType : string).

Definition keyOf (r : config.Register) : Key :=
  match r with
  | config.RegisterComponent t m _ _ => ComponentKey t m
  | config.RegisterService t _ _ => ServiceKey t
  end.

Definition registered (k : Key) (reg : config.Registry) : bool :=
  match k with
  | ComponentKey t m =>
    bool_decide (is_Some (config.componentAttributeMapConverters reg !! (t, m)))
  | ServiceKey t =>
    bool_decide (is_Some (config.serviceAttributeMapConverters reg !! t))
  end.

(** The fourth argument of a registration request, nil or not. *)
Definition fourthOf (r : config.Register) : option config.Validator :=
  match r with
  | config.RegisterComponent _ _ _ v => v
  | config.RegisterService _ _ v => v
  end.

Definition someConverter : config.AttributeMapConverter :=
  λ attrs, Ok (config.RawAttributes attrs).

Definition someValidator : config.Validator := λ _ _, None.

(** The tests of [TestTransformAttributeMapToStruct]: [myType] has a
    string-to-string bucket, [myExtendedType] a dynamic one. *)
Definition testAttrs : gmap string json.Value :=
  {[ "a" := json.Str "1"; "b" := json.Str "2"; "c" := json.Str "3";
     "d" := json.Str "4"; "e" := json.Number 5 ]}.

Definition stringFields : list config.Field :=
  [config.mkField "a" config.KString (json.Str "");
   config.mkField "b" config.KString (json.Str "")].

Definition myType : config.Struct :=
  config.mkStruct stringFields (config.StringBucket "attributes" ∅).

Definition myExtendedType : config.Struct :=
  config.mkStruct stringFields (config.DynamicBucket "attributes" ∅).

(** Attributes with a number where field [a] wants a string, and with a
    key of the bucket's own tag. *)
Definition mistyped : gmap string json.Value :=
  {[ "a" := json.Number 1; "b" := json.Str "2"; "c" := json.Str "3";
     "e" := json.Number 5;
     "attributes" := json.Object [("x", json.Str "y")] ]}.

Definition defaultNetwork : config.NetworkConfig :=
  config.mkNetworkConfig "localhost:8080" true "" "".

Definition emptyInput : string := "{}".
Definition cloudWithoutID : string := quoted "{'cloud': {}}".
Definition componentWithoutName : string := quoted "{'components': [{}]}".
Definition oneArm : string :=
  quoted "{'components': [{'name': 'foo', 'type': 'arm'}]}".

(** ** Observations on whole runs of the two loops *)

(** The candidates a run of the watch loop receives: those delivered
    before the context is reported done. *)
Fixpoint received (ds : list server.Delivery) : list config.Config :=
  match ds with
  | server.NewConfig c :: ds' => c :: received ds'
  | _ => []
  end.

(** The configs handed to [Reconfigure], in order. *)
Definition reconfigureCalls (evs : list server.Event) : list config.Config :=
  omap (λ e, match e with
             | server.CallReconfigure c => Some c
             | _ => None
             end) evs.

Definition warnings (evs : list server.Event) : list string :=
  omap (λ e, match e with
             | server.Log server.Warn msg _ => Some msg
             | _ => None
             end) evs.

Definition cancels (evs : list server.Event) : nat :=
  List.length (List.filter (λ e, match e with
                                 | server.CallCancel => true
                                 | _ => false
                                 end) evs).

Definition checks (evs : list server.Event) : nat :=
  List.length (List.filter (λ e, match e with
                                 | server.CallNeedsRestart => true
                                 | _ => false
                                 end) evs).

Definition closes (evs : list server.Event) : nat :=
  List.length (List.filter (λ e, match e with
                                 | server.CallRestartCheckClose => true
                                 | _ => false
                                 end) evs).

(** The interval the restart checker carries after a run of turns that
    all reach the check: that of the latest answer without error. *)
Fixpoint carried (i : Duration) (polls : list server.Poll) : Duration :=
  match polls with
  | [] => i
  | p :: polls' =>
    match server.err (server.answer p) with
    | Some _ => carried i polls'
    | None => carried (server.newRestartInterval (server.answer p)) polls'
    end
  end.

(** Hosts that bind every interface. *)
Definition bindsAll (host : string) : bool :=
  String.eqb host "" || String.eqb host "0.0.0.0" || String.eqb host "::".

Section RunObservations.

Variable TLSConfig : Type.
Variable NewTLSConfig : config.Config → TLSConfig.
Variable ProcessConfig : config.Config → TLSConfig → result config.Config.
Variable cfg : config.Config.
Variable argsParsed : server.Arguments.

(** The processed forms of the candidates that process, in order. *)
Definition processedOf (cs : list config.Config) : list config.Config :=
  omap (λ c,
          match server.processConfig TLSConfig NewTLSConfig ProcessConfig
                  cfg argsParsed c with
          | Ok pc => Some pc
          | Err _ => None
          end) cs.

End RunObservations.

(** The options [createWebOptions] answers with when it succeeds: what
    [weboptions.FromConfig] gave, with the four command-line settings
    assigned over it and the downgrade dial option appended for a cloud
    config run with [-allow-insecure-creds]. *)
Definition withFlags (c : config.Config) (a : server.Arguments)
    (o : weboptions.Options) : weboptions.Options :=
  weboptions.mkOptions
    (server.WebProfile a)
    (server.SharedDir a)
    (server.Debug a || config.Debug c)
    (server.WebRTC a)
    (weboptions.SignalingDialOpts o
     ++ (if bool_decide (config.Cloud_ c ≠ None) && server.AllowInsecureCreds a
         then [rpc.WithAllowInsecureWithCredentialsDowngrade]
         else []))
    (weboptions.AuthHandlers o).

Definition allInterfacesWarning : string :=
  "binding to all interfaces without authentication".

(** ** Package [server], the main goroutine: [RunServer],
    [runServerWithLogging] and [serveWeb] from start to teardown

    The calls out of the package are recorded as acts, their results
    come from the environment; [defer] and [return] are Go's.

    The acts are those of the main goroutine alone, in its program
    order.  [GoRestartChecker] and [GoWatcher] record that a goroutine
    is started; what the goroutine then does ([server.restartChecker],
    [server.watchLoop]) runs concurrently and is in no act list here.
    The restart checker holds the same [cancel] as the main goroutine
    and may call it at any time once started; the main goroutine meets
    a context cancelled that way only in what its collaborators return,
    which the environment supplies. *)
Module entry.

Inductive Codec : Type := Opus | X264 | H264.

(** [gostream.StreamConfig]. *)
Record StreamConfig : Type := mkStreamConfig {
  AudioEncoderFactory : option Codec;
  VideoEncoderFactory : option Codec
}.

(** [robotimpl.Option]; [WithWebOptions] stands for
    [robotimpl.WithWebOptions(web.WithStreamConfig(streamConfig))]. *)
Inductive RobotOption : Type :=
| WithWebOptions (streamConfig : StreamConfig)
| WithRevealSensitiveConfigDiffs.

Inductive Act : Type :=
| CallParseFlags (args : list string)
| LogInfof (msg : string)
| LogError (msg : string) (err : option error)
| CallOsCreate (name : string)
| CallStartCPUProfile
| CallStopCPUProfile
| CallWithTimeout
| CallCancelTimeout
| CallReadLocalConfig (path : string)
| CallAddCloudLogger (cloud : config.Cloud)
| CallCloser
| CallExporterStart
| CallExporterStop
| CallRead (path : string)
| CallWithCancel
| CallCancel
| CallNewCachedDialer
| CallDialerClose
| GoRestartChecker (cloud : option config.Cloud)
| CallRobotNew (cfg : config.Config) (opts : list RobotOption)
| CallRobotClose
| CallNewWatcher (cfg : config.Config)
| CallWatcherClose
| GoWatcher (oldCfg : config.Config)
| WaitWatchDone
| Logged (e : server.Event)
| CallRunWeb (options : weboptions.Options).

(** [multierr.Combine] of two errors; a combined error prints its parts
    separated by a semicolon. *)
Definition Combine (a b : option error) : option error :=
  match a, b with
  | None, x => x
  | x, None => x
  | Some a, Some b => Some (a +:+ "; " +:+ b)
  end.

(** A deferred call: [defer f()], or
    [defer func() { err = multierr.Combine(err, f()) }()] with what [f]
    returns. *)
Inductive Deferred : Type :=
| DeferCall (a : Act)
| DeferCombine (a : Act) (r : option error).

(** The acts so far and the deferred calls, the latest first. *)
Record Frame : Type := mkFrame {
  acts : list Act;
  deferred : list Deferred
}.

Inductive Flow (A : Type) : Type :=
| Next (a : A)
| Returns (err : option error).
Arguments Next {A} a.
Arguments Returns {A} err.

Definition Body (A : Type) : Type := Frame → Flow A * Frame.

#[global] Instance Body_ret : MRet Body := λ A a f, (Next a, f).
#[global] Instance Body_bind : MBind Body :=
  λ A B k m f,
    match m f with
    | (Next a, f') => k a f'
    | (Returns err, f') => (Returns err, f')
    end.

Definition act (a : Act) : Body unit :=
  λ f, (Next tt, mkFrame (acts f ++ [a]) (deferred f)).

Definition defer (d : Deferred) : Body unit :=
  λ f, (Next tt, mkFrame (acts f) (d :: deferred f)).

Definition return_ {A} (err : option error) : Body A :=
  λ f, (Returns err, f).

(** Run the deferred calls, the latest first, on the result [err]. *)
Fixpoint unwind (ds : list Deferred) (err : option error)
  : option error * list Act :=
  match ds with
  | [] => (err, [])
  | DeferCall a :: ds' =>
    let '(err', rest) := unwind ds' err in (err', a :: rest)
  | DeferCombine a r :: ds' =>
    let '(err', rest) := unwind ds' (Combine err r) in (err', a :: rest)
  end.

(** A function call: its body from an empty frame, then its deferred
    calls; the result and everything it did. *)
Definition call (body : Body (option error)) : option error * list Act :=
  let '(flow, f) := body (mkFrame [] []) in
  let err := match flow with Next err | Returns err => err end in
  let '(err', rest) := unwind (deferred f) err in
  (err', acts f ++ rest).

(** The result of a call made from a body, its acts taken over. *)
Definition sub (r : option error * list Act) : Body (option error) :=
  λ f, (Next r.1, mkFrame (acts f ++ r.2) (deferred f)).

Definition missingConfigMessage : string :=
  "please specify a config file through the -config parameter.".

Section main.

Context {R : Type} `{server.LocalRobot R}.

(** The collaborators of [serveWeb]'s goroutines, as before. *)
Variable TLSConfig : Type.
Variable NewTLSConfig : config.Config → TLSConfig.
Variable ProcessConfig : config.Config → TLSConfig → result config.Config.
Variable FromConfig : config.Config → result weboptions.Options.
Variable SplitHostPort : string → result (string * string).

(** What the calls of the main goroutine return. *)
Variable ParseFlags : list string → result server.Arguments.
Variable versionLine : string.
Variable osCreate : string → option error.
Variable StartCPUProfile : option error.
Variable ReadLocalConfig : string → result config.Config.
Variable addCloudLogger : config.Cloud → option error.
Variable exporterStart : option error.
Variable Read : string → result config.Config.
Variable robotNew : config.Config → list RobotOption → result R.
Variable NewWatcher : config.Config → option error.
Variable RunWeb : R → weboptions.Options → option error.
Variable dialerClose : option error.
Variable robotClose : option error.
Variable watcherClose : option error.

Definition robotOptions (argsParsed : server.Arguments) : list RobotOption :=
  let streamConfig := mkStreamConfig (Some Opus) (Some X264) in
  let robotOptions := [WithWebOptions streamConfig] in
  if server.revealSensitiveConfigDiffs argsParsed
  then robotOptions ++ [WithRevealSensitiveConfigDiffs]
  else robotOptions.

Definition serveWeb (cfg : config.Config) (argsParsed : server.Arguments)
  : option error * list Act :=
  call (
    act CallWithCancel ;;
    defer (DeferCall CallCancel) ;;
    act CallNewCachedDialer ;;
    defer (DeferCombine CallDialerClose dialerClose) ;;
    match server.processConfig TLSConfig NewTLSConfig ProcessConfig
            cfg argsParsed cfg with
    | Err err => return_ (Some err)
    | Ok processedConfig =>
      (if bool_decide (config.Cloud_ processedConfig ≠ None)
       then act (GoRestartChecker (config.Cloud_ cfg))
       else mret tt) ;;
      let robotOptions := robotOptions argsParsed in
      act (CallRobotNew processedConfig robotOptions) ;;
      match robotNew processedConfig robotOptions with
      | Err err => return_ (Some err)
      | Ok myRobot =>
        defer (DeferCombine CallRobotClose robotClose) ;;
        act (CallNewWatcher cfg) ;;
        match NewWatcher cfg with
        | Some err => return_ (Some err)
        | None =>
          defer (DeferCombine CallWatcherClose watcherClose) ;;
          let oldCfg := processedConfig in
          act (GoWatcher oldCfg) ;;
          defer (DeferCall WaitWatchDone) ;;
          defer (DeferCall CallCancel) ;;
          let '(options, w) :=
            server.createWebOptions FromConfig SplitHostPort
              processedConfig argsParsed (server.mkWorld myRobot [] false) in
          let options :=
            match options with
            | Ok options => options
            | Err _ => weboptions.zero
            end in
          (λ f, (Next tt, mkFrame (acts f ++ (Logged <$> server.trace w))
                            (deferred f))) ;;
          act (CallRunWeb options) ;;
          return_ (RunWeb myRobot options)
        end
      end
    end).

Definition runServerWithLogging (argsParsed : server.Arguments)
  : option error * list Act :=
  call (
    act CallExporterStart ;;
    match exporterStart with
    | Some err => return_ (Some err)
    | None =>
      defer (DeferCall CallExporterStop) ;;
      act CallWithTimeout ;;
      act (CallRead (server.ConfigFile argsParsed)) ;;
      match Read (server.ConfigFile argsParsed) with
      | Err err => act CallCancelTimeout ;; return_ (Some err)
      | Ok cfg =>
        act CallCancelTimeout ;;
        err ← sub (serveWeb cfg argsParsed);
        match err with
        | Some e => act (LogError "error serving web" (Some e))
        | None => mret tt
        end ;;
        return_ err
      end
    end).

Definition RunServer (args : list string) : option error * list Act :=
  call (
    act (CallParseFlags args) ;;
    match ParseFlags args with
    | Err err => return_ (Some err)
    | Ok argsParsed =>
      act (LogInfof versionLine) ;;
      if server.Version argsParsed then return_ None
      else if String.eqb (server.ConfigFile argsParsed) "" then
        act (LogError missingConfigMessage None) ;;
        return_ None
      else
        (if negb (String.eqb (server.CPUProfile argsParsed) "") then
           act (CallOsCreate (server.CPUProfile argsParsed)) ;;
           match osCreate (server.CPUProfile argsParsed) with
           | Some err => return_ (Some err)
           | None =>
             act CallStartCPUProfile ;;
             match StartCPUProfile with
             | Some err => return_ (Some err)
             | None => defer (DeferCall CallStopCPUProfile)
             end
           end
         else mret tt) ;;
        act CallWithTimeout ;;
        act (CallReadLocalConfig (server.ConfigFile argsParsed)) ;;
        match ReadLocalConfig (server.ConfigFile argsParsed) with
        | Err err => act CallCancelTimeout ;; return_ (Some err)
        | Ok cfgFromDisk =>
          act CallCancelTimeout ;;
          match config.Cloud_ cfgFromDisk with
          | Some cloud =>
            if negb (String.eqb (config.LogPath cloud) "")
               || negb (String.eqb (config.AppAddress cloud) "")
            then
              act (CallAddCloudLogger cloud) ;;
              match addCloudLogger cloud with
              | Some err => return_ (Some err)
              | None => defer (DeferCall CallCloser)
              end
            else mret tt
          | None => mret tt
          end ;;
          err ← sub (runServerWithLogging argsParsed);
          match err with
          | Some e =>
            act (LogError "Fatal error running server, existing now: " (Some e))
          | None => mret tt
          end ;;
          return_ err
        end
    end).

End main.

End entry.

(** ** Observations on the main goroutine *)

Definition countOf (p : entry.Act → bool) (l : list entry.Act) : nat :=
  List.length (List.filter p l).

Definition isWithTimeout (a : entry.Act) : bool :=
  match a with entry.CallWithTimeout => true | _ => false end.
Definition isCancelTimeout (a : entry.Act) : bool :=
  match a with entry.CallCancelTimeout => true | _ => false end.
Definition isNewCachedDialer (a : entry.Act) : bool :=
  match a with entry.CallNewCachedDialer => true | _ => false end.
Definition isDialerClose (a : entry.Act) : bool :=
  match a with entry.CallDialerClose => true | _ => false end.
Definition isWithCancel (a : entry.Act) : bool :=
  match a with entry.CallWithCancel => true | _ => false end.
Definition isCancel (a : entry.Act) : bool :=
  match a with entry.CallCancel => true | _ => false end.
Definition isRobotNew (a : entry.Act) : bool :=
  match a with entry.CallRobotNew _ _ => true | _ => false end.
Definition isRobotClose (a : entry.Act) : bool :=
  match a with entry.CallRobotClose => true | _ => false end.
Definition isNewWatcher (a : entry.Act) : bool :=
  match a with entry.CallNewWatcher _ => true | _ => false end.
Definition isWatcherClose (a : entry.Act) : bool :=
  match a with entry.CallWatcherClose => true | _ => false end.
Definition isExporterStart (a : entry.Act) : bool :=
  match a with entry.CallExporterStart => true | _ => false end.
Definition isExporterStop (a : entry.Act) : bool :=
  match a with entry.CallExporterStop => true | _ => false end.

(** The options [serveWeb] runs the web server with: those of
    [createWebOptions], or the zero options when it failed. *)
Definition optionsOrZero (r : result weboptions.Options) : weboptions.Options :=
  match r with
  | Ok options => options
  | Err _ => weboptions.zero
  end.

Definition fatalMessage : string := "Fatal error running server, existing now: ".

(** A cloud section that asks for remote logging. *)
Definition logsRemotely (c : config.Config) : bool :=
  match config.Cloud_ c with
  | Some cloud =>
    negb (String.eqb (config.LogPath cloud) "")
    || negb (String.eqb (config.AppAddress cloud) "")
  | None => false
  end.

(** What is opened and closed, counted over the acts of a call. *)
Definition balanced (acts : list entry.Act) : Prop :=
  countOf isCancelTimeout acts = countOf isWithTimeout acts
  ∧ countOf isDialerClose acts = countOf isNewCachedDialer acts
  ∧ (countOf isWithCancel acts ≤ countOf isCancel acts)%nat
  ∧ (countOf isExporterStop acts ≤ countOf isExporterStart acts)%nat
  ∧ (countOf isRobotClose acts ≤ countOf isRobotNew acts)%nat
  ∧ (countOf isWatcherClose acts ≤ countOf isNewWatcher acts)%nat.

(** ** A fake environment for the main goroutine and the loops *)

Definition fakeWatch (oldCfg : config.Config) (ds : list server.Delivery)
    (w : server.World fake.Robot)
  : server.Ctl config.Config * server.World fake.Robot :=
  server.watchLoop unit fake.NewTLSConfig fake.ProcessConfig
    (fake.DiffConfigs None) fake.FromConfig fake.SplitHostPort
    served fake.args oldCfg ds w.

Definition fakeWebOptions (c : config.Config)
  : result weboptions.Options * server.World fake.Robot :=
  server.createWebOptions fake.FromConfig fake.SplitHostPort c fake.args
    (fake.start fake.healthy).

(** A config that binds every interface. *)
Definition exposed : config.Config := fake.configWith "0.0.0.0:8080" 1.

(** Web options with one auth handler configured. *)
Definition authenticated : weboptions.Options :=
  weboptions.mkOptions false "" false false [] ["api-key"].

(** Flags that name a config file and a CPU profile. *)
Definition profiledFlags : server.Arguments :=
  server.mkArguments false "robot.json" "cpu.prof" false "" false false false false.

Definition versionFlags : server.Arguments :=
  server.mkArguments false "" "" false "" true false false false.

(** A local config whose cloud section asks for remote logging. *)
Definition someCloud : config.Cloud := config.mkCloud "robot-id" "secret" "/var/log/robot" "".

Definition cloudConfig (addr : string) : config.Config :=
  config.mkConfig "robot.json" (Some someCloud)
    (config.mkNetworkConfig addr false "" "") [] [] [] [] false false false.

(** [RunServer] and [serveWeb] in an environment where every call
    succeeds except those the arguments script. *)
Definition fakeServeWeb (runWeb dialerClose : option error) (cfg : config.Config)
  : option error * list entry.Act :=
  entry.serveWeb (R:=fake.Robot) unit fake.NewTLSConfig fake.ProcessConfig
    fake.FromConfig fake.SplitHostPort
    (λ _ _, Ok fake.healthy) (λ _, None) (λ _ _, runWeb)
    dialerClose None None cfg profiledFlags.

Definition fakeRunServer (flags : server.Arguments) (runWeb : option error)
    (cfg : config.Config) (args : list string)
  : option error * list entry.Act :=
  entry.RunServer (R:=fake.Robot) unit fake.NewTLSConfig fake.ProcessConfig
    fake.FromConfig fake.SplitHostPort
    (λ _, Ok flags) "Viam RDK Version: dev, Hash: 0" (λ _, None) None
    (λ _, Ok cfg) (λ _, None) None (λ _, Ok cfg)
    (λ _ _, Ok fake.healthy) (λ _, None) (λ _ _, runWeb)
    None None None args.

(** A turn during whose wait somebody else cancels the context. *)
Definition cancelledElsewhere : server.Poll :=
  server.mkPoll true (server.mkAnswer false 9000 None).


(** ** Package [fake], the camera test's image source *)
Module camera_test.

Section imageSource.

Variable Image : Type.

Record imageSource : Type := mkImageSource {
  Images : list Image;
  idx : nat
}.

(** [Read]: the next image, or nil when none is left; the error is
    always nil. *)
Definition Read (is_ : imageSource)
  : option Image * option error * imageSource :=
  if (List.length (Images is_) <=? idx is_)%nat then (None, None, is_)
  else
    let img := Images is_ !! idx is_ in
    (img, None, mkImageSource (Images is_) (S (idx is_))).

(** [n] reads in a row: what each returned. *)
Fixpoint reads (n : nat) (is_ : imageSource)
  : list (option Image * option error) * imageSource :=
  match n with
  | O => ([], is_)
  | S n' =>
    let '(img, err, is_') := Read is_ in
    let '(rest, is_'') := reads n' is_' in
    ((img, err) :: rest, is_'')
  end.

End imageSource.

End camera_test.

(** ** Package [wx250s]: the arm's joints and servos *)
Module wx250s.

(** [portMapping] with its allocator: a mutex is the address [&sync.Mutex{}]
    returned, the next address is [allocated]. *)
Record Ports : Type := mkPorts {
  portMapping : gmap string nat;
  allocated : nat
}.

Definition noPorts : Ports := mkPorts ∅ 0.

Definition getPortMutex (port : string) (st : Ports) : nat * Ports :=
  match portMapping st !! port with
  | Some mu => (mu, st)
  | None =>
    let mu := allocated st in
    (mu, mkPorts (<[port := mu]> (portMapping st)) (S (allocated st)))
  end.

(** One call per port, in order. *)
Fixpoint getPortMutexes (ports : list string) (st : Ports)
  : list nat * Ports :=
  match ports with
  | [] => ([], st)
  | p :: ports' =>
    let '(mu, st') := getPortMutex p st in
    let '(mus, st'') := getPortMutexes ports' st' in
    (mu :: mus, st'')
  end.

Definition JointOrder : list string :=
  ["Waist"; "Shoulder"; "Elbow"; "Forearm_rot"; "Wrist"; "Wrist_rot"].

Section Arm.

Variable Servo : Type.

(** The fields of [Arm] the functions below read. *)
Record Arm : Type := mkArm {
  Joints : gmap string (list Servo)
}.

Inductive Ev : Type :=
| Lock
| Unlock
| CallGoalAndTrack (pos : Z) (block : bool) (servos : list Servo)
| Errorf (msg : string)
| CallServo (s : Servo).

(** [a.Joints[jointName]]: the zero value, nil, for a missing key. *)
Definition jointServos (a : Arm) (jointName : string) : list Servo :=
  default [] (Joints a !! jointName).

Definition GetServos (a : Arm) (jointName : string) : list Servo :=
  [] ++ jointServos a jointName.

Definition GetAllServos (a : Arm) : list Servo :=
  foldl (λ servos joint, servos ++ jointServos a joint) [] JointOrder.

(** What [servo.GoalAndTrack] returns. *)
Variable GoalAndTrack : Z → bool → list Servo → option error.

Definition JointTo (a : Arm) (jointName : string) (pos : Z) (block : bool)
  : list Ev :=
  let pos := if 4095 <? pos then 4095 else if pos <? 0 then 0 else pos in
  let err := GoalAndTrack pos block (GetServos a jointName) in
  CallGoalAndTrack pos block (GetServos a jointName)
  :: match err with
     | Some err => [Errorf (jointName +:+ " jointTo error: " +:+ err)]
     | None => []
     end.

(** The loop of [SetAcceleration], [SetVelocity], [TorqueOn] and
    [TorqueOff]: one call per servo, the first error returns. *)
Fixpoint eachServo (op : Servo → option error) (servos : list Servo)
  : option error * list Ev :=
  match servos with
  | [] => (None, [])
  | s :: servos' =>
    match op s with
    | Some err => (Some err, [CallServo s])
    | None =>
      let '(err, evs) := eachServo op servos' in (err, CallServo s :: evs)
    end
  end.

(** The four functions: lock, the loop over all servos, and the
    deferred unlock. *)
Definition withAllServos (a : Arm) (op : Servo → option error)
  : option error * list Ev :=
  let '(err, evs) := eachServo op (GetAllServos a) in
  (err, [Lock] ++ evs ++ [Unlock]).

Definition SetAcceleration (SetProfileAcceleration : Servo → Z → option error)
    (a : Arm) (accel : Z) : option error * list Ev :=
  withAllServos a (λ s, SetProfileAcceleration s accel).

Definition SetVelocity (SetProfileVelocity : Servo → Z → option error)
    (a : Arm) (veloc : Z) : option error * list Ev :=
  withAllServos a (λ s, SetProfileVelocity s veloc).

Definition TorqueOn (SetTorqueEnable : Servo → bool → option error) (a : Arm)
  : option error * list Ev :=
  withAllServos a (λ s, SetTorqueEnable s true).

Definition TorqueOff (SetTorqueEnable : Servo → bool → option error) (a : Arm)
  : option error * list Ev :=
  withAllServos a (λ s, SetTorqueEnable s false).

(** [NewArm], given what [findServos], [frame.ParseJSON] and
    [kinematics.CreateCombinedIKSolver] return: the joints are built by
    indexing the servos found, which panics when there are fewer than
    eight. *)
Definition NewArm (found : result (list Servo))
    (parsed solver : option error) : outcome (result Arm) :=
  match found with
  | Err err => Returned (Err err)
  | Ok servos =>
    match parsed with
    | Some err => Returned (Err err)
    | None =>
      match solver with
      | Some err => Returned (Err err)
      | None =>
        match servos with
        | s0 :: s1 :: s2 :: s3 :: s4 :: s5 :: s6 :: s7 :: _ =>
          Returned (Ok (mkArm
            {[ "Waist" := [s0]; "Shoulder" := [s1; s2]; "Elbow" := [s3; s4];
               "Forearm_rot" := [s5]; "Wrist" := [s6]; "Wrist_rot" := [s7] ]}))
        | _ => Panicked "runtime error: index out of range"
        end
      end
    end
  end.

End Arm.

End wx250s.

(** ** The command line's data export: fetching one binary datum *)
Module cli.

Definition maxRetryCount : nat := 5.

(** [errors.Wrapf(err, msg)]. *)
Definition Wrapf (err : error) (msg : string) : error :=
  msg +:+ ": " +:+ err.

Section downloadBinary.

Variable Datum : Type.

(** What the call of [client.BinaryDataByIDs] number [count] returns:
    the response, as its data or nil, and the error. *)
Variable BinaryDataByIDs : nat → option (list Datum) * option error.

(** [resp.GetData()], nil for a nil response. *)
Definition GetData (resp : option (list Datum)) : list Datum :=
  default [] resp.

(** The retry loop, with [left] iterations to go; returns the number
    of calls made and the last [resp] and [err] assigned. *)
Fixpoint retry (left count : nat) (resp : option (list Datum))
    (err : option error) : nat * option (list Datum) * option error :=
  match left with
  | O => (count, resp, err)
  | S left' =>
    let '(resp, err) := BinaryDataByIDs count in
    match err with
    | None => (S count, resp, err)
    | Some _ => retry left' (S count) resp err
    end
  end.

(** [downloadBinary] up to [datum := data[0]]: the number of calls
    made, and the datum that goes on to be written to disk or the
    error returned. *)
Definition downloadBinary : nat * result Datum :=
  let '(calls, resp, err) := retry maxRetryCount 0 None None in
  match err with
  | Some err => (calls, Err (Wrapf err "received error from server"))
  | None =>
    match GetData resp with
    | [datum] => (calls, Ok datum)
    | data =>
      (calls, Err ("expected a single response, received "
                   +:+ pretty (List.length data)))
    end
  end.

End downloadBinary.

End cli.

(** ** Observations on the port mutexes *)

(** Every mutex handed out is below the allocator, and no two ports
    share one. *)
Definition wfPorts (st : wx250s.Ports) : Prop :=
  ∀ p m, wx250s.portMapping st !! p = Some m →
         (m < wx250s.allocated st)%nat
         ∧ ∀ q, wx250s.portMapping st !! q = Some m → q = p.

(** * Properties *)

(** Unfold the state-passing layer. *)
Ltac run :=
  unfold mbind, mret, server.M_bind, server.M_ret, server.emit,
    server.Errorw, server.Infow, server.Warn_, server.cancel,
    server.SelectContextOrWait, server.callReconfigure,
    server.callStopWeb, server.callStartWeb in *;
  cbn [server.robot server.trace server.ctxDone fst snd] in *.

Lemma appended_app {R} (w : server.World R) r evs done :
  appended w (server.mkWorld r (server.trace w ++ evs) done) = evs.
Proof. unfold appended. cbn. apply drop_app_length. Qed.

(** ** The restart checker *)
Section RestartChecker.

Context {R : Type} `{server.LocalRobot R}.
Implicit Types (w : server.World R) (p : server.Poll) (i : Duration).

Lemma restartCheckIteration_failed i p w e :
  reachesCheck w p →
  server.err (server.answer p) = Some e →
  server.restartCheckIteration i p w
  = (server.Continue i,
     server.mkWorld (server.robot w)
       (server.trace w
        ++ [server.Wait i; server.CallNeedsRestart;
            server.Log server.Info "failed to check restart" (Some e)])
       false).
Proof.
  intros [Hctx Hint] He. unfold server.restartCheckIteration. run.
  rewrite Hctx, Hint. cbn.
  destruct (server.answer p) as [mr ni er]. cbn in He. subst er. cbn.
  by rewrite <- !app_assoc.
Qed.

Lemma restartCheckIteration_ok i p w mr ni :
  reachesCheck w p →
  server.answer p = server.mkAnswer mr ni None →
  server.restartCheckIteration i p w
  = if mr
    then (server.Return,
          server.mkWorld (server.robot w)
            (server.trace w
             ++ [server.Wait i; server.CallNeedsRestart; server.CallCancel])
            true)
    else (server.Continue ni,
          server.mkWorld (server.robot w)
            (server.trace w ++ [server.Wait i; server.CallNeedsRestart])
            false).
Proof.
  intros [Hctx Hint] Ha. unfold server.restartCheckIteration. run.
  rewrite Hctx, Hint, Ha. cbn.
  destruct mr; cbn; by rewrite <- !app_assoc.
Qed.

(** Every turn starts by waiting for the interval the loop carries. *)
Lemma restartCheckIteration_waits i p w :
  ∃ rest, server.trace (server.restartCheckIteration i p w).2
          = server.trace w ++ server.Wait i :: rest.
Proof.
  unfold server.restartCheckIteration. run.
  destruct (server.ctxDone w || server.interrupted p); cbn.
  - by exists [].
  - destruct (server.answer p) as [mr ni [e|]]; cbn.
    + eexists. by rewrite <- !app_assoc.
    + destruct mr; cbn; eexists; by rewrite <- !app_assoc.
Qed.

(** However many checks fail in a row, the loop keeps its interval,
    stays alive, leaves the robot alone and never cancels. *)
Lemma restartCheckLoop_all_failed polls : ∀ i w,
  server.ctxDone w = false →
  Forall (λ p, server.interrupted p = false ∧ failed p) polls →
  ∃ evs, server.restartCheckLoop i polls w
         = (server.Continue i,
            server.mkWorld (server.robot w) (server.trace w ++ evs) false)
         ∧ server.CallCancel ∉ evs.
Proof.
  induction polls as [|p polls IH]; intros i w Hctx Hall.
  - exists []. cbn. run. rewrite app_nil_r, <- Hctx.
    split; [by destruct w | apply not_elem_of_nil].
  - apply Forall_cons in Hall as [[Hint [e He]] Hall].
    cbn [server.restartCheckLoop]. unfold mbind, server.M_bind.
    rewrite (restartCheckIteration_failed i p w e); [|by split|done].
    destruct (IH i (server.mkWorld (server.robot w)
       (server.trace w
        ++ [server.Wait i; server.CallNeedsRestart;
            server.Log server.Info "failed to check restart" (Some e)])
       false) eq_refl Hall) as (evs & Hrun & Hc).
    rewrite Hrun. cbn.
    exists ([server.Wait i; server.CallNeedsRestart;
             server.Log server.Info "failed to check restart" (Some e)] ++ evs).
    rewrite <- app_assoc. split; [done|].
    rewrite not_elem_of_app, !not_elem_of_cons.
    repeat split; try done. apply not_elem_of_nil.
Qed.

(** C8.  In any turn of the restart checker whose [needsRestart] call
    returns an error, the turn only logs the failure: it ends with
    [continue] carrying the interval it came with, the loop goes on
    with the remaining turns from the logged world, nothing is
    cancelled, the context stays live, the robot is not touched, and
    the next turn waits for that same interval. *)
Theorem restart_check_error_is_logged_and_retried i p polls w e :
  reachesCheck w p →
  server.err (server.answer p) = Some e →
  let w' :=
    server.mkWorld (server.robot w)
      (server.trace w
       ++ [server.Wait i; server.CallNeedsRestart;
           server.Log server.Info "failed to check restart" (Some e)])
      false in
  server.restartCheckIteration i p w = (server.Continue i, w')
  ∧ server.restartCheckLoop i (p :: polls) w
    = server.restartCheckLoop i polls w'
  ∧ (server.CallCancel ∉ appended w w')
  ∧ server.ctxDone w' = false
  ∧ (∀ p', ∃ rest,
       server.trace (server.restartCheckIteration i p' w').2
       = server.trace w' ++ server.Wait i :: rest).
Proof.
  intros Hreach He w'.
  pose proof (restartCheckIteration_failed i p w e Hreach He) as Hit.
  fold w' in Hit. repeat split.
  - exact Hit.
  - cbn [server.restartCheckLoop]. unfold mbind, server.M_bind.
    by rewrite Hit.
  - unfold w'. rewrite appended_app, !not_elem_of_cons.
    repeat split; try done. apply not_elem_of_nil.
  - intros p'. apply restartCheckIteration_waits.
Qed.

(** C9.  In any turn whose [needsRestart] call succeeds: with
    [mustRestart] true the turn cancels the context and returns, and so
    does the loop whatever turns would follow; the robot is untouched
    and the turn's events are the wait, the check and the cancel, no
    robot call among them.  With [mustRestart] false nothing is
    cancelled, the loop goes on carrying the interval the server
    supplied, and the next turn waits for that interval. *)
Theorem restart_check_answer_decides i p polls w mr ni :
  reachesCheck w p →
  server.answer p = server.mkAnswer mr ni None →
  if mr then
    let w' :=
      server.mkWorld (server.robot w)
        (server.trace w
         ++ [server.Wait i; server.CallNeedsRestart; server.CallCancel])
        true in
    server.restartCheckIteration i p w = (server.Return, w')
    ∧ server.restartCheckLoop i (p :: polls) w = (server.Return, w')
    ∧ robotCalls (appended w w') = []
  else
    let w' :=
      server.mkWorld (server.robot w)
        (server.trace w ++ [server.Wait i; server.CallNeedsRestart])
        false in
    server.restartCheckIteration i p w = (server.Continue ni, w')
    ∧ server.restartCheckLoop i (p :: polls) w
      = server.restartCheckLoop ni polls w'
    ∧ (server.CallCancel ∉ appended w w')
    ∧ server.ctxDone w' = false
    ∧ (∀ p', ∃ rest,
         server.trace (server.restartCheckIteration ni p' w').2
         = server.trace w' ++ server.Wait ni :: rest).
Proof.
  intros Hreach Ha.
  pose proof (restartCheckIteration_ok i p w mr ni Hreach Ha) as Hit.
  destruct mr; cbn zeta; repeat split.
  - exact Hit.
  - cbn [server.restartCheckLoop]. unfold mbind, server.M_bind.
    by rewrite Hit.
  - by rewrite appended_app.
  - exact Hit.
  - cbn [server.restartCheckLoop]. unfold mbind, server.M_bind.
    by rewrite Hit.
  - rewrite appended_app, !not_elem_of_cons.
    repeat split; try done. apply not_elem_of_nil.
  - intros p'. apply restartCheckIteration_waits.
Qed.

End RestartChecker.

(** ** The config watcher *)


Section Watcher.

Context {R : Type} `{server.LocalRobot R}.
Variable TLSConfig : Type.
Variable NewTLSConfig : config.Config → TLSConfig.
Variable ProcessConfig : config.Config → TLSConfig → result config.Config.
Variable DiffConfigs :
  config.Config → config.Config → bool → result config.Diff.
Variable FromConfig : config.Config → result weboptions.Options.
Variable SplitHostPort : string → result (string * string).
Variable cfg : config.Config.
Variable argsParsed : server.Arguments.

Abbreviation processConfig :=
  (server.processConfig TLSConfig NewTLSConfig ProcessConfig cfg argsParsed).
Abbreviation createWebOptions :=
  (server.createWebOptions FromConfig SplitHostPort).
Abbreviation reconfigure :=
  (server.reconfigure TLSConfig NewTLSConfig ProcessConfig DiffConfigs
     FromConfig SplitHostPort cfg argsParsed).
Abbreviation watchLoop :=
  (server.watchLoop TLSConfig NewTLSConfig ProcessConfig DiffConfigs
     FromConfig SplitHostPort cfg argsParsed).
Abbreviation diffConfigs old new :=
  (DiffConfigs old new (server.revealSensitiveConfigDiffs argsParsed)).
Abbreviation webRestart :=
  (webRestart FromConfig SplitHostPort argsParsed).
Abbreviation discarded :=
  (discarded TLSConfig NewTLSConfig ProcessConfig DiffConfigs cfg argsParsed).

Implicit Types (w : server.World R) (c pc oldCfg : config.Config).


(** [createWebOptions] answers the same in every world, and all it does
    to the world is log. *)
Lemma createWebOptions_fst c a w w' :
  (createWebOptions c a w).1 = (createWebOptions c a w').1.
Proof.
  unfold server.createWebOptions.
  destruct (FromConfig c) as [o|e]; [|done].
  destruct (_ =? _)%nat; [|done].
  destruct (SplitHostPort _) as [[host port]|e]; [|done].
  run. by destruct (_ || _).
Qed.

Lemma createWebOptions_snd c a w :
  ∃ logs, (createWebOptions c a w).2
          = server.mkWorld (server.robot w) (server.trace w ++ logs)
              (server.ctxDone w)
          ∧ robotCalls logs = []
          ∧ (is_ok (createWebOptions c a w).1 = false → logs = []).
Proof.
  unfold server.createWebOptions.
  destruct (FromConfig c) as [o|e].
  2:{ exists []. run. rewrite app_nil_r. by destruct w. }
  destruct (_ =? _)%nat.
  2:{ exists []. run. rewrite app_nil_r. by destruct w. }
  destruct (SplitHostPort _) as [[host port]|e].
  2:{ exists []. run. rewrite app_nil_r. by destruct w. }
  run. destruct (_ || _); cbn.
  - eexists. split; [done|]. split; [done|]. intros; discriminate.
  - exists []. rewrite app_nil_r. by destruct w.
Qed.

Lemma reconfigure_process_failed oldCfg c w e :
  processConfig c = Err e →
  reconfigure oldCfg c w
  = (oldCfg,
     server.mkWorld (server.robot w)
       (server.trace w
        ++ [server.Log server.Error "error processing config" (Some e)])
       (server.ctxDone w)).
Proof. intros Hp. unfold server.reconfigure. by rewrite Hp. Qed.

Lemma reconfigure_diff_failed oldCfg c w pc e :
  processConfig c = Ok pc →
  diffConfigs oldCfg pc = Err e →
  reconfigure oldCfg c w
  = (oldCfg,
     server.mkWorld (server.Reconfigure (server.robot w) pc)
       (server.trace w
        ++ [server.CallReconfigure pc;
            server.Log server.Error "error diffing config" (Some e)])
       (server.ctxDone w)).
Proof.
  intros Hp Hd. unfold server.reconfigure. rewrite Hp. run. rewrite Hd.
  cbn. by rewrite <- app_assoc.
Qed.

Lemma reconfigure_network_equal oldCfg c w pc d :
  processConfig c = Ok pc →
  diffConfigs oldCfg pc = Ok d →
  config.NetworkEqual d = true →
  reconfigure oldCfg c w
  = (pc,
     server.mkWorld (server.Reconfigure (server.robot w) pc)
       (server.trace w ++ [server.CallReconfigure pc])
       (server.ctxDone w)).
Proof.
  intros Hp Hd He. unfold server.reconfigure. rewrite Hp. run.
  by rewrite Hd, He.
Qed.


Lemma reconfigure_network_changed oldCfg c w pc d :
  processConfig c = Ok pc →
  diffConfigs oldCfg pc = Ok d →
  config.NetworkEqual d = false →
  let o := webRestart (server.Reconfigure (server.robot w) pc) pc w in
  ∃ r evs,
    reconfigure oldCfg c w
    = (baselineAfter oldCfg pc o,
       server.mkWorld r (server.trace w ++ evs) (server.ctxDone w))
    ∧ robotCalls evs = callsOf pc o
    ∧ ∃ before, evs = before ++ errorLogged o.
Proof.
  intros Hp Hd Hne o. subst o. unfold server.reconfigure, webRestart.
  rewrite Hp. run. rewrite Hd, Hne. cbn.
  destruct (server.StopWeb _) as [r2 [e|]] eqn:Hstop; cbn.
  { eexists _, _. rewrite <- !app_assoc. split; [done|]. split; [done|].
    by exists [server.CallReconfigure pc; server.CallStopWeb]. }
  set (w2 := server.mkWorld r2 _ _).
  rewrite (createWebOptions_fst pc argsParsed w w2).
  destruct (createWebOptions_snd pc argsParsed w2) as (logs & Hw & Hcalls & Hlogs).
  destruct (createWebOptions pc argsParsed w2) as [[options|e] w3] eqn:Hopt;
    cbn in Hw, Hlogs |- *; subst w3; cbn.
  - destruct (server.StartWeb r2 options) as [r3 [e|]] eqn:Hstart; cbn.
    + eexists _, _. rewrite <- !app_assoc. split; [done|]. cbn.
      split.
      * unfold robotCalls in *. cbn. rewrite !List.filter_app, Hcalls. done.
      * by exists ([server.CallReconfigure pc; server.CallStopWeb] ++ logs
                   ++ [server.CallStartWeb options]); rewrite <- !app_assoc.
    + eexists _, _. rewrite <- !app_assoc. split; [done|]. cbn.
      split.
      * unfold robotCalls in *. cbn. rewrite !List.filter_app, Hcalls. done.
      * eexists. by rewrite app_nil_r.
  - rewrite (Hlogs eq_refl), app_nil_r.
    eexists _, _. rewrite <- !app_assoc. split; [done|]. split; [done|].
    by exists [server.CallReconfigure pc; server.CallStopWeb].
Qed.

(** With a live context the loop hands the candidate to [reconfigure]
    and goes on with the baseline it returns. *)
Lemma watchLoop_cons oldCfg c ds w :
  server.ctxDone w = false →
  watchLoop oldCfg (server.NewConfig c :: ds) w
  = watchLoop (reconfigure oldCfg c w).1 ds (reconfigure oldCfg c w).2.
Proof.
  intros Hctx. cbn [server.watchLoop].
  unfold mbind, server.M_bind, server.watchIteration. rewrite Hctx.
  by destruct (reconfigure oldCfg c w).
Qed.


(** Every cycle appends to the trace, keeps the context flag and makes
    the robot calls of one of the four shapes. *)
Lemma reconfigure_shape oldCfg c w :
  ∃ r evs,
    (reconfigure oldCfg c w).2
    = server.mkWorld r (server.trace w ++ evs) (server.ctxDone w)
    ∧ cycleCalls (robotCalls evs).
Proof.
  destruct (processConfig c) as [pc|e] eqn:Hp.
  2:{ rewrite (reconfigure_process_failed oldCfg c w e Hp).
      eexists _, _. split; [done|]. constructor. }
  destruct (diffConfigs oldCfg pc) as [d|e] eqn:Hd.
  2:{ rewrite (reconfigure_diff_failed oldCfg c w pc e Hp Hd).
      eexists _, _. split; [done|]. constructor. }
  destruct (config.NetworkEqual d) eqn:Hne.
  { rewrite (reconfigure_network_equal oldCfg c w pc d Hp Hd Hne).
    eexists _, _. split; [done|]. constructor. }
  destruct (reconfigure_network_changed oldCfg c w pc d Hp Hd Hne)
    as (r & evs & Hrun & Hcalls & _).
  rewrite Hrun. exists r, evs. split; [done|]. rewrite Hcalls.
  destruct (webRestart _ _ _); constructor.
Qed.

(** However many candidates arrive, the robot calls of the watch loop
    are a sequence of such cycles: no [StopWeb] without the
    [Reconfigure] of its cycle before it, no [StartWeb] without the
    [StopWeb] of its cycle before it. *)
Lemma watchLoop_calls ds : ∀ oldCfg w,
  ∃ r evs done,
    (watchLoop oldCfg ds w).2 = server.mkWorld r (server.trace w ++ evs) done
    ∧ cyclesCalls (robotCalls evs).
Proof.
  induction ds as [|d ds IH]; intros oldCfg w.
  - exists (server.robot w), [], (server.ctxDone w). cbn. run.
    rewrite app_nil_r. split; [by destruct w | constructor].
  - cbn [server.watchLoop]. unfold mbind, server.M_bind, server.watchIteration.
    destruct (server.ctxDone w) eqn:Hctx.
    { exists (server.robot w), [], true. cbn. rewrite app_nil_r, <- Hctx.
      split; [by destruct w | constructor]. }
    destruct d as [|c].
    { exists (server.robot w), [], true. cbn. rewrite app_nil_r.
      split; [done | constructor]. }
    destruct (reconfigure_shape oldCfg c w) as (r & evs & Hw & Hshape).
    destruct (reconfigure oldCfg c w) as [b w1]. cbn in Hw. subst w1.
    destruct (IH b (server.mkWorld r (server.trace w ++ evs) (server.ctxDone w)))
      as (r' & evs' & done' & Hrun & Hcycles).
    rewrite Hrun. cbn. exists r', (evs ++ evs'), done'.
    rewrite app_assoc. split; [done|].
    unfold robotCalls in *. rewrite List.filter_app. by constructor.
Qed.

(** C1, as the code has it.  In a cycle whose candidate is processed
    and diffed: [Reconfigure] is the first robot call.  When the diff
    says the network settings are equal it is the only one: neither
    [StopWeb] nor [StartWeb] is called.  When it says they changed,
    [StopWeb] is called next, and [StartWeb] after it exactly when
    [StopWeb] and the creation of the web options succeeded. *)
Theorem reconfigure_call_order oldCfg c w pc d :
  processConfig c = Ok pc →
  diffConfigs oldCfg pc = Ok d →
  let calls := robotCalls (appended w (reconfigure oldCfg c w).2) in
  if config.NetworkEqual d
  then calls = [server.CallReconfigure pc]
  else
    match webRestart (server.Reconfigure (server.robot w) pc) pc w with
    | StopFailed _ | OptionsFailed _ =>
      calls = [server.CallReconfigure pc; server.CallStopWeb]
    | StartFailed options _ | Restarted options =>
      calls = [server.CallReconfigure pc; server.CallStopWeb;
               server.CallStartWeb options]
    end.
Proof.
  intros Hp Hd calls. subst calls.
  destruct (config.NetworkEqual d) eqn:Hne.
  - rewrite (reconfigure_network_equal oldCfg c w pc d Hp Hd Hne).
    cbn [snd]. by rewrite appended_app.
  - destruct (reconfigure_network_changed oldCfg c w pc d Hp Hd Hne)
      as (r & evs & Hrun & Hcalls & _).
    rewrite Hrun. cbn [snd]. rewrite appended_app, Hcalls.
    by destruct (webRestart _ _ _).
Qed.

(** C2, as the code has it.  A candidate whose processing or diffing
    fails leaves the baseline as it was, and the loop goes on with that
    baseline.  When processing fails the robot is not called at all;
    when diffing fails [Reconfigure] has already been called with the
    processed candidate, and neither [StopWeb] nor [StartWeb] is. *)
Theorem discarded_candidate_keeps_baseline oldCfg c ds w f :
  server.ctxDone w = false →
  discarded oldCfg c = Some f →
  let next := reconfigure oldCfg c w in
  next.1 = oldCfg
  ∧ watchLoop oldCfg (server.NewConfig c :: ds) w = watchLoop oldCfg ds next.2
  ∧ match f with
    | ProcessingFailed e =>
      next.2 = server.mkWorld (server.robot w)
                 (server.trace w
                  ++ [server.Log server.Error "error processing config" (Some e)])
                 (server.ctxDone w)
      ∧ robotCalls (appended w next.2) = []
    | DiffFailed pc e =>
      next.2 = server.mkWorld (server.Reconfigure (server.robot w) pc)
                 (server.trace w
                  ++ [server.CallReconfigure pc;
                      server.Log server.Error "error diffing config" (Some e)])
                 (server.ctxDone w)
      ∧ robotCalls (appended w next.2) = [server.CallReconfigure pc]
    end.
Proof.
  intros Hctx Hf next. subst next.
  rewrite (watchLoop_cons oldCfg c ds w Hctx).
  unfold discarded in Hf.
  destruct (processConfig c) as [pc|e] eqn:Hp.
  - destruct (diffConfigs oldCfg pc) as [d|e] eqn:Hd; [discriminate|].
    injection Hf as <-.
    rewrite (reconfigure_diff_failed oldCfg c w pc e Hp Hd). cbn [fst snd].
    by rewrite appended_app.
  - injection Hf as <-.
    rewrite (reconfigure_process_failed oldCfg c w e Hp). cbn [fst snd].
    by rewrite appended_app.
Qed.

(** C10.  In a cycle whose diff says the network changed, the baseline
    the loop carries on with depends on where the web restart fails:
    after a failed [StopWeb] or a failed creation of the web options it
    is the old baseline, after a failed [StartWeb] it is the processed
    candidate, as after a successful restart.  In each failing case the
    cycle ends with the matching error log. *)
Theorem web_error_baseline oldCfg c ds w pc d :
  server.ctxDone w = false →
  processConfig c = Ok pc →
  diffConfigs oldCfg pc = Ok d →
  config.NetworkEqual d = false →
  let next := reconfigure oldCfg c w in
  let o := webRestart (server.Reconfigure (server.robot w) pc) pc w in
  (∃ before, appended w next.2 = before ++ errorLogged o)
  ∧ match o with
    | StopFailed _ | OptionsFailed _ =>
      next.1 = oldCfg
      ∧ watchLoop oldCfg (server.NewConfig c :: ds) w
        = watchLoop oldCfg ds next.2
    | StartFailed _ _ | Restarted _ =>
      next.1 = pc
      ∧ watchLoop oldCfg (server.NewConfig c :: ds) w
        = watchLoop pc ds next.2
    end.
Proof.
  intros Hctx Hp Hd Hne next o. subst next.
  rewrite (watchLoop_cons oldCfg c ds w Hctx).
  destruct (reconfigure_network_changed oldCfg c w pc d Hp Hd Hne)
    as (r & evs & Hrun & _ & Hlog).
  fold o in Hrun, Hlog. rewrite Hrun. cbn [fst snd]. rewrite appended_app.
  split; [exact Hlog|]. by destruct o.
Qed.

End Watcher.

(** ** Runs on the fake robot *)


Lemma restart_check_error_witness :
  reachesCheck (fake.start fake.healthy) unreachable
  ∧ server.err (server.answer unreachable) = Some "connection refused"
  ∧ server.restartCheckLoop 5000 [unreachable; restartNow] (fake.start fake.healthy)
    = server.restartCheckLoop 5000 [restartNow]
        (server.mkWorld fake.healthy
           [server.Wait 5000; server.CallNeedsRestart;
            server.Log server.Info "failed to check restart"
              (Some "connection refused")]
           false).
Proof.
  split; [by split|]. split; [done|].
  exact (proj1 (proj2
    (restart_check_error_is_logged_and_retried 5000 unreachable [restartNow]
       (fake.start fake.healthy) "connection refused"
       (conj eq_refl eq_refl) eq_refl))).
Defined.

Lemma restart_check_answer_witness :
  reachesCheck (fake.start fake.healthy) restartNow
  ∧ server.answer restartNow = server.mkAnswer true 1000 None
  ∧ server.restartCheckLoop 5000 [restartNow; slowDown] (fake.start fake.healthy)
    = (server.Return,
       server.mkWorld fake.healthy
         [server.Wait 5000; server.CallNeedsRestart; server.CallCancel] true)
  ∧ server.restartCheckLoop 5000 [slowDown; unreachable] (fake.start fake.healthy)
    = server.restartCheckLoop 9000 [unreachable]
        (server.mkWorld fake.healthy
           [server.Wait 5000; server.CallNeedsRestart] false).
Proof.
  split; [by split|]. split; [done|]. split.
  - exact (proj1 (proj2
      (restart_check_answer_decides 5000 restartNow [slowDown]
         (fake.start fake.healthy) true 1000 (conj eq_refl eq_refl) eq_refl))).
  - exact (proj1 (proj2
      (restart_check_answer_decides 5000 slowDown [unreachable]
         (fake.start fake.healthy) false 9000 (conj eq_refl eq_refl) eq_refl))).
Defined.

Abbreviation fakeProcess :=
  (server.processConfig unit fake.NewTLSConfig fake.ProcessConfig served fake.args).

Lemma reconfigure_call_order_witness :
  fakeProcess rebound = Ok rebound
  ∧ fake.DiffConfigs None served rebound false = Ok (config.mkDiff false)
  ∧ robotCalls (appended (fake.start fake.healthy)
                  (fake.cycle None fake.healthy served rebound).2)
    = [server.CallReconfigure rebound; server.CallStopWeb;
       server.CallStartWeb weboptions.zero]
  ∧ fakeProcess retuned = Ok retuned
  ∧ fake.DiffConfigs None served retuned false = Ok (config.mkDiff true)
  ∧ robotCalls (appended (fake.start fake.healthy)
                  (fake.cycle None fake.healthy served retuned).2)
    = [server.CallReconfigure retuned].
Proof.
  assert (Hp : fakeProcess rebound = Ok rebound) by (vm_compute; reflexivity).
  assert (Hd : fake.DiffConfigs None served rebound false
               = Ok (config.mkDiff false)) by (vm_compute; reflexivity).
  assert (Hp' : fakeProcess retuned = Ok retuned) by (vm_compute; reflexivity).
  assert (Hd' : fake.DiffConfigs None served retuned false
                = Ok (config.mkDiff true)) by (vm_compute; reflexivity).
  split; [exact Hp|]. split; [exact Hd|]. split.
  - exact (reconfigure_call_order unit fake.NewTLSConfig fake.ProcessConfig
             (fake.DiffConfigs None) fake.FromConfig fake.SplitHostPort
             served fake.args served rebound (fake.start fake.healthy)
             rebound (config.mkDiff false) Hp Hd).
  - split; [exact Hp'|]. split; [exact Hd'|].
    exact (reconfigure_call_order unit fake.NewTLSConfig fake.ProcessConfig
             (fake.DiffConfigs None) fake.FromConfig fake.SplitHostPort
             served fake.args served retuned (fake.start fake.healthy)
             retuned (config.mkDiff true) Hp' Hd').
Defined.

(** C1 as stated fails.  With the bind address changed and every call
    succeeding, the cycle calls [Reconfigure] first and restarts the web
    service after it, so the restart does not come before the apply
    call; and when [StopWeb] fails, [StartWeb] is not called at all. *)
Lemma restart_precedes_apply_fails :
  fake.DiffConfigs None served rebound false = Ok (config.mkDiff false)
  ∧ server.trace (fake.cycle None fake.healthy served rebound).2
    = [server.CallReconfigure rebound; server.CallStopWeb;
       server.CallStartWeb weboptions.zero]
  ∧ restartedBeforeApply false
      (server.trace (fake.cycle None fake.healthy served rebound).2) = false
  ∧ robotCalls (server.trace (fake.cycle None stopFailing served rebound).2)
    = [server.CallReconfigure rebound; server.CallStopWeb].
Proof. repeat split; vm_compute; reflexivity. Qed.

Abbreviation fakeDiscarded failure :=
  (discarded unit fake.NewTLSConfig fake.ProcessConfig
     (fake.DiffConfigs failure) served fake.args).

Lemma discarded_candidate_witness :
  server.ctxDone (fake.start fake.healthy) = false
  ∧ fakeDiscarded (Some "diff failed") served retuned
    = Some (DiffFailed retuned "diff failed")
  ∧ (fake.cycle (Some "diff failed") fake.healthy served retuned).1 = served
  ∧ fakeDiscarded None served nameless
    = Some (ProcessingFailed (config.fieldRequiredError "components.0" "name"))
  ∧ (fake.cycle None fake.healthy served nameless).1 = served.
Proof.
  assert (Hf : fakeDiscarded (Some "diff failed") served retuned
               = Some (DiffFailed retuned "diff failed"))
    by (vm_compute; reflexivity).
  assert (Hf' : fakeDiscarded None served nameless
                = Some (ProcessingFailed
                          (config.fieldRequiredError "components.0" "name")))
    by (vm_compute; reflexivity).
  split; [done|]. split; [exact Hf|]. split.
  - exact (proj1
      (discarded_candidate_keeps_baseline unit fake.NewTLSConfig
         fake.ProcessConfig (fake.DiffConfigs (Some "diff failed"))
         fake.FromConfig fake.SplitHostPort served fake.args
         served retuned [] (fake.start fake.healthy) _ eq_refl Hf)).
  - split; [exact Hf'|].
    exact (proj1
      (discarded_candidate_keeps_baseline unit fake.NewTLSConfig
         fake.ProcessConfig (fake.DiffConfigs None)
         fake.FromConfig fake.SplitHostPort served fake.args
         served nameless [] (fake.start fake.healthy) _ eq_refl Hf')).
Defined.

(** C2 as stated fails.  A candidate whose diff fails has been applied
    all the same: the cycle's one robot call is [Reconfigure] with the
    candidate, and the robot now runs it, while the baseline stays. *)
Lemma discard_without_apply_fails :
  fakeDiscarded (Some "diff failed") served retuned
  = Some (DiffFailed retuned "diff failed")
  ∧ robotCalls
      (server.trace (fake.cycle (Some "diff failed") fake.healthy served retuned).2)
    = [server.CallReconfigure retuned]
  ∧ fake.current
      (server.robot (fake.cycle (Some "diff failed") fake.healthy served retuned).2)
    = Some retuned
  ∧ (fake.cycle (Some "diff failed") fake.healthy served retuned).1 = served.
Proof. repeat split; vm_compute; reflexivity. Qed.

Abbreviation fakeWebRestart r pc :=
  (webRestart fake.FromConfig fake.SplitHostPort fake.args
     (server.Reconfigure r pc) pc (fake.start r)).

Lemma web_error_baseline_witness :
  server.ctxDone (fake.start stopFailing) = false
  ∧ fakeProcess rebound = Ok rebound
  ∧ fake.DiffConfigs None served rebound false = Ok (config.mkDiff false)
  ∧ config.NetworkEqual (config.mkDiff false) = false
  ∧ fakeWebRestart stopFailing rebound = StopFailed "web service busy"
  ∧ (fake.cycle None stopFailing served rebound).1 = served
  ∧ fakeWebRestart startFailing rebound
    = StartFailed weboptions.zero "address already in use"
  ∧ (fake.cycle None startFailing served rebound).1 = rebound
  ∧ fakeProcess portless = Ok portless
  ∧ fake.DiffConfigs None served portless false = Ok (config.mkDiff false)
  ∧ fakeWebRestart fake.healthy portless
    = OptionsFailed "address localhost: missing port in address"
  ∧ (fake.cycle None fake.healthy served portless).1 = served.
Proof.
  assert (Hp : fakeProcess rebound = Ok rebound) by (vm_compute; reflexivity).
  assert (Hd : fake.DiffConfigs None served rebound false
               = Ok (config.mkDiff false)) by (vm_compute; reflexivity).
  assert (Hp' : fakeProcess portless = Ok portless) by (vm_compute; reflexivity).
  assert (Hd' : fake.DiffConfigs None served portless false
                = Ok (config.mkDiff false)) by (vm_compute; reflexivity).
  split; [done|]. split; [exact Hp|]. split; [exact Hd|]. split; [done|].
  split; [vm_compute; reflexivity|]. split.
  { exact (proj1 (proj2
      (web_error_baseline unit fake.NewTLSConfig fake.ProcessConfig
         (fake.DiffConfigs None) fake.FromConfig fake.SplitHostPort
         served fake.args served rebound [] (fake.start stopFailing)
         rebound (config.mkDiff false) eq_refl Hp Hd eq_refl))). }
  split; [vm_compute; reflexivity|]. split.
  { exact (proj1 (proj2
      (web_error_baseline unit fake.NewTLSConfig fake.ProcessConfig
         (fake.DiffConfigs None) fake.FromConfig fake.SplitHostPort
         served fake.args served rebound [] (fake.start startFailing)
         rebound (config.mkDiff false) eq_refl Hp Hd eq_refl))). }
  split; [exact Hp'|]. split; [exact Hd'|].
  split; [vm_compute; reflexivity|].
  exact (proj1 (proj2
    (web_error_baseline unit fake.NewTLSConfig fake.ProcessConfig
       (fake.DiffConfigs None) fake.FromConfig fake.SplitHostPort
       served fake.args served portless [] (fake.start fake.healthy)
       portless (config.mkDiff false) eq_refl Hp' Hd' eq_refl))).
Defined.

(** ** The type registry *)


Lemma register_fresh r reg :
  registered (keyOf r) reg = false →
  is_Some (fourthOf r) →
  ∃ reg', config.register r reg = Returned reg'
          ∧ registered (keyOf r) reg' = true.
Proof.
  destruct r as [t m c v|t c v]; cbn;
    intros Hfresh%bool_decide_eq_false [x ->];
    rewrite <- eq_None_not_Some in Hfresh.
  - unfold config.RegisterComponentAttributeMapConverter. rewrite Hfresh.
    eexists. split; [done|]. cbn. apply bool_decide_eq_true.
    rewrite lookup_insert_eq. by eexists.
  - unfold config.RegisterServiceAttributeMapConverter. rewrite Hfresh.
    eexists. split; [done|]. cbn. apply bool_decide_eq_true.
    rewrite lookup_insert_eq. by eexists.
Qed.

Lemma register_nil r reg :
  fourthOf r = None → panicked (config.register r reg) = true.
Proof. destruct r as [t m c v|t c v]; cbn; by intros ->. Qed.

Lemma register_taken r reg :
  registered (keyOf r) reg = true → panicked (config.register r reg) = true.
Proof.
  destruct r as [t m c v|t c v]; cbn;
    intros [x Hx]%bool_decide_eq_true.
  - unfold config.RegisterComponentAttributeMapConverter.
    destruct v; [|done]. by rewrite Hx.
  - unfold config.RegisterServiceAttributeMapConverter.
    destruct v; [|done]. by rewrite Hx.
Qed.

(** There is no unregistering: a key once taken stays taken. *)
Lemma register_keeps k r reg reg' :
  registered k reg = true →
  config.register r reg = Returned reg' →
  registered k reg' = true.
Proof.
  destruct r as [t m c v|t c v]; cbn.
  - unfold config.RegisterComponentAttributeMapConverter.
    destruct v; [|done].
    destruct (_ !! (t, m)) eqn:Hl; [done|]. intros Hk [= <-].
    destruct k as [t' m'|t']; cbn in *; [|done].
    apply bool_decide_eq_true in Hk. apply bool_decide_eq_true.
    destruct (decide ((t, m) = (t', m'))) as [->|Hne].
    + rewrite lookup_insert_eq. by eexists.
    + by rewrite lookup_insert_ne.
  - unfold config.RegisterServiceAttributeMapConverter.
    destruct v; [|done].
    destruct (_ !! t) eqn:Hl; [done|]. intros Hk [= <-].
    destruct k as [t' m'|t']; cbn in *; [done|].
    apply bool_decide_eq_true in Hk. apply bool_decide_eq_true.
    destruct (decide (t = t')) as [->|Hne].
    + rewrite lookup_insert_eq. by eexists.
    + by rewrite lookup_insert_ne.
Qed.

Lemma registerAll_taken k rs r : ∀ reg,
  registered k reg = true →
  keyOf r = k →
  panicked (config.registerAll (rs ++ [r]) reg) = true.
Proof.
  induction rs as [|r0 rs IH]; intros reg Hk Hr; cbn.
  - pose proof (register_taken r reg) as Hp. rewrite Hr in Hp.
    specialize (Hp Hk). by destruct (config.register r reg).
  - destruct (config.register r0 reg) as [reg'|msg] eqn:H0; [|done].
    apply IH; [|done]. by eapply register_keeps.
Qed.

(** C3, corrected (against the registry modelled from the specification
    and from the two calls [TestFromReaderValidate] asserts to panic).
    A registration under a key not yet taken returns exactly when its
    fourth argument is not nil; with nil there it panics, as the test's
    calls do.  After a registration that returned, a second one under
    the same key panics, whatever it registers, straight after the
    first or after any other registrations in between.  This holds for
    component converters, keyed by type and model, and for service
    converters, keyed by type. *)
Theorem registration_panics_on_duplicate_or_nil reg r r' others :
  registered (keyOf r) reg = false →
  keyOf r' = keyOf r →
  match fourthOf r with
  | None =>
    panicked (config.register r reg) = true
    ∧ panicked (config.registerAll (r :: others ++ [r']) reg) = true
  | Some _ =>
    (∃ reg', config.register r reg = Returned reg'
             ∧ panicked (config.register r' reg') = true)
    ∧ panicked (config.registerAll (r :: others ++ [r']) reg) = true
  end.
Proof.
  intros Hfresh Hsame.
  destruct (fourthOf r) as [v|] eqn:Hv.
  - destruct (register_fresh r reg Hfresh) as (reg' & Hreg & Htaken).
    { by rewrite Hv. }
    split.
    + exists reg'. split; [done|]. apply register_taken. by rewrite Hsame.
    + cbn [config.registerAll]. rewrite Hreg.
      by apply (registerAll_taken (keyOf r)).
  - pose proof (register_nil r reg Hv) as Hp. split; [done|].
    cbn [config.registerAll]. by destruct (config.register r reg).
Qed.

Lemma registration_panics_witness :
  registered (ComponentKey "somecomponent" "somemodel") config.emptyRegistry = false
  ∧ panicked
      (config.registerAll
         [config.RegisterComponent "somecomponent" "somemodel" someConverter
            (Some someValidator);
          config.RegisterService "someservice" someConverter
            (Some someValidator);
          config.RegisterComponent "somecomponent" "somemodel" someConverter
            (Some someValidator)]
         config.emptyRegistry) = true
  ∧ panicked
      (config.register
         (config.RegisterService "someservice" someConverter None)
         config.emptyRegistry) = true.
Proof.
  split; [done|]. split.
  - exact (proj2
      (registration_panics_on_duplicate_or_nil config.emptyRegistry
         (config.RegisterComponent "somecomponent" "somemodel" someConverter
            (Some someValidator))
         (config.RegisterComponent "somecomponent" "somemodel" someConverter
            (Some someValidator))
         [config.RegisterService "someservice" someConverter
            (Some someValidator)]
         eq_refl eq_refl)).
  - exact (proj1
      (registration_panics_on_duplicate_or_nil config.emptyRegistry
         (config.RegisterService "someservice" someConverter None)
         (config.RegisterService "someservice" someConverter None)
         [] eq_refl eq_refl)).
Defined.

(** C3 as stated fails.  The two calls of [TestFromReaderValidate]
    register under a component type and model, and under a service
    type, that nothing registered before; both panic. *)
Lemma fresh_registration_panics :
  registered (ComponentKey "somecomponent" "somemodel") config.emptyRegistry
  = false
  ∧ panicked
      (config.RegisterComponentAttributeMapConverter
         "somecomponent" "somemodel" someConverter None config.emptyRegistry)
    = true
  ∧ registered (ServiceKey "someservice") config.emptyRegistry = false
  ∧ panicked
      (config.RegisterServiceAttributeMapConverter
         "someservice" someConverter None config.emptyRegistry)
    = true.
Proof. repeat split; vm_compute; reflexivity. Qed.

(** ** Attribute conversion *)

Lemma unmatched_lookup to attrs k :
  config.unmatched to attrs !! k
  = if decide (k ∈ config.tags to) then None else attrs !! k.
Proof.
  unfold config.unmatched. rewrite map_lookup_filter.
  destruct (attrs !! k) as [v|]; cbn; [|by case_decide].
  case_decide.
  - by rewrite option_guard_False by (cbn; auto).
  - by rewrite option_guard_True.
Qed.

Lemma union_lookup_new {A} (new old : gmap string A) k x :
  new !! k = Some x → (new ∪ old) !! k = Some x.
Proof. apply lookup_union_Some_l. Qed.

(** Binding the bucket keeps its flavour and its tag, and leaves it as
    it is when the attributes have no key of that tag. *)
Lemma bindResidual_flavour attrs r :
  match r, (config.bindResidual attrs r).1 with
  | config.NoResidual, config.NoResidual => True
  | config.StringBucket t old, config.StringBucket t' mid =>
    t' = t ∧ (attrs !! t = None → mid = old)
  | config.DynamicBucket t old, config.DynamicBucket t' mid =>
    t' = t ∧ (attrs !! t = None → mid = old)
  | _, _ => False
  end.
Proof.
  destruct r as [|t old|t old]; cbn; [done|..].
  - destruct (attrs !! t) as [[| | | | |ms]|]; cbn; try done.
    destruct (config.stringMembers ms); cbn; done.
  - destruct (attrs !! t) as [[| | | | |ms]|]; cbn; done.
Qed.

(** C4 (against the converter modelled from the specification).  For
    every attribute map and every destination with a residual bucket,
    whether or not some declared field fails to convert: the bucket
    keeps its flavour and its tag and, key by key, starting from the
    bucket as its own key left it (as it was, when the attributes have
    no such key): a key some declared field binds, the bucket's own tag
    included, is not routed; a key no field binds goes into a dynamic
    bucket with its value as it is, and into a string-to-string bucket
    when its value is a string, while a value that is not a string is
    dropped; a key the attributes do not have leaves the bucket entry
    as it was. *)
Theorem residual_routing to attrs k :
  let bound := (config.bindResidual attrs (config.residual to)).1 in
  let to' := (config.TransformAttributeMapToStruct to attrs).1 in
  match config.residual to, bound, config.residual to' with
  | config.NoResidual, _, config.NoResidual => True
  | config.StringBucket t old, config.StringBucket _ mid,
    config.StringBucket t' new =>
    t' = t
    ∧ (attrs !! t = None → mid = old)
    ∧ if decide (k ∈ config.tags to) then new !! k = mid !! k
      else
        match attrs !! k with
        | Some (json.Str s) => new !! k = Some s
        | _ => new !! k = mid !! k
        end
  | config.DynamicBucket t old, config.DynamicBucket _ mid,
    config.DynamicBucket t' new =>
    t' = t
    ∧ (attrs !! t = None → mid = old)
    ∧ if decide (k ∈ config.tags to) then new !! k = mid !! k
      else
        match attrs !! k with
        | Some v => new !! k = Some v
        | None => new !! k = mid !! k
        end
  | _, _, _ => False
  end.
Proof.
  cbn zeta. unfold config.TransformAttributeMapToStruct.
  destruct (config.bindFields _ attrs (config.fields to)) as [fs errs].
  pose proof (bindResidual_flavour attrs (config.residual to)) as Hb.
  pose proof (unmatched_lookup to attrs k) as Hu.
  destruct (config.residual to) as [|t old|t old]; revert Hb.
  - by destruct (config.bindResidual attrs config.NoResidual) as [[] err].
  - destruct (config.bindResidual attrs (config.StringBucket t old))
      as [[|t' mid|t' mid] err]; cbn [fst snd]; try done.
    intros [-> Hold]. cbn [config.residual config.route].
    split; [done|]. split; [done|].
    destruct (decide (k ∈ config.tags to)).
    + apply lookup_union_r. by rewrite lookup_omap, Hu.
    + destruct (attrs !! k) as [v|] eqn:Hk.
      * destruct v; try (apply lookup_union_r; by rewrite lookup_omap, Hu).
        apply union_lookup_new. by rewrite lookup_omap, Hu.
      * apply lookup_union_r. by rewrite lookup_omap, Hu.
  - destruct (config.bindResidual attrs (config.DynamicBucket t old))
      as [[|t' mid|t' mid] err]; cbn [fst snd]; try done.
    intros [-> Hold]. cbn [config.residual config.route].
    split; [done|]. split; [done|].
    destruct (decide (k ∈ config.tags to)).
    + by apply lookup_union_r.
    + destruct (attrs !! k) as [v|] eqn:Hk.
      * by apply union_lookup_new.
      * by apply lookup_union_r.
Qed.

Lemma residual_routing_witness :
  (config.TransformAttributeMapToStruct myType mistyped).2
  = [config.ConversionError "a" "string" (json.Number 1)]
  ∧ "attributes" = "attributes"
  ∧ (mistyped !! "attributes" = None
     → ({[ "x" := "y" ]} : gmap string string) = ∅)
  ∧ ({[ "c" := "3"; "x" := "y" ]} : gmap string string) !! "e"
    = ({[ "x" := "y" ]} : gmap string string) !! "e".
Proof.
  split; [vm_compute; reflexivity|].
  exact (residual_routing myType mistyped "e").
Defined.

(** The conversions the test asserts, and one with a mismatch: field
    [a] is reported and left as it was, the other keys are bound and
    routed all the same. *)
Example transform_myType :
  config.TransformAttributeMapToStruct myType testAttrs
  = (config.mkStruct
       [config.mkField "a" config.KString (json.Str "1");
        config.mkField "b" config.KString (json.Str "2")]
       (config.StringBucket "attributes" {[ "c" := "3"; "d" := "4" ]}),
     []).
Proof. vm_compute. reflexivity. Qed.

Example transform_myExtendedType :
  config.TransformAttributeMapToStruct myExtendedType testAttrs
  = (config.mkStruct
       [config.mkField "a" config.KString (json.Str "1");
        config.mkField "b" config.KString (json.Str "2")]
       (config.DynamicBucket "attributes"
          {[ "c" := json.Str "3"; "d" := json.Str "4";
             "e" := json.Number 5 ]}),
     []).
Proof. vm_compute. reflexivity. Qed.

Example transform_mistyped :
  config.TransformAttributeMapToStruct myType mistyped
  = (config.mkStruct
       [config.mkField "a" config.KString (json.Str "");
        config.mkField "b" config.KString (json.Str "2")]
       (config.StringBucket "attributes" {[ "c" := "3"; "x" := "y" ]}),
     [config.ConversionError "a" "string" (json.Number 1)]).
Proof. vm_compute. reflexivity. Qed.

(** ** Reading and validating a config *)


Lemma parse_emptyInput : json.Parse emptyInput = Ok (json.Object []).
Proof. vm_compute. reflexivity. Qed.

Lemma parse_cloudWithoutID :
  json.Parse cloudWithoutID = Ok (json.Object [("cloud", json.Object [])]).
Proof. vm_compute. reflexivity. Qed.

Lemma parse_componentWithoutName :
  json.Parse componentWithoutName
  = Ok (json.Object [("components", json.Array [json.Object []])]).
Proof. vm_compute. reflexivity. Qed.

Lemma parse_oneArm :
  json.Parse oneArm
  = Ok (json.Object
          [("components",
            json.Array
              [json.Object [("name", json.Str "foo"); ("type", json.Str "arm")]])]).
Proof. vm_compute. reflexivity. Qed.

(** C5 (against the reader modelled from the specification).  Whatever
    is registered, the input [{}] reads and validates to the config
    with the given path, the bind address [localhost:8080] with the
    default flag set, and no cloud, components, services, processes or
    remotes. *)
Theorem empty_input_gets_defaults reg path :
  config.FromReader reg path emptyInput
  = Ok (config.mkConfig path None defaultNetwork [] [] [] [] false false false)
  ∧ config.BindAddress defaultNetwork = config.DefaultBindAddress
  ∧ config.BindAddressDefaultSet defaultNetwork = true.
Proof.
  unfold config.FromReader. rewrite parse_emptyInput. by split.
Qed.

(** C6 (against the reader modelled from the specification).  Whatever
    is registered, a cloud section without id and a component without
    name fail validation, with messages that say which field is
    required and, for the component, where: at [components.0]. *)
Theorem missing_fields_are_located reg path :
  (∃ msg, config.FromReader reg path cloudWithoutID = Err msg
          ∧ contains msg (config.quote "id" +:+ " is required") = true)
  ∧ (∃ msg, config.FromReader reg path componentWithoutName = Err msg
            ∧ contains msg "components.0" = true
            ∧ contains msg (config.quote "name" +:+ " is required") = true).
Proof.
  unfold config.FromReader.
  rewrite parse_cloudWithoutID, parse_componentWithoutName. split.
  - exists (config.fieldRequiredError "cloud" "id"). by vm_compute.
  - exists (config.fieldRequiredError "components.0" "name"). by vm_compute.
Qed.

(** C7 (against the reader modelled from the specification).  With no
    converter registered for arms, the input with the one component
    [foo] of type [arm] reads and validates to the config with exactly
    that component and the default network settings. *)
Theorem one_arm_is_read reg path :
  config.lookupRegistration reg config.KindComponent config.ComponentTypeArm ""
  = None →
  config.FromReader reg path oneArm
  = Ok (config.mkConfig path None defaultNetwork
          [config.mkComponent "foo" config.ComponentTypeArm "" [] ∅ None]
          [] [] [] false false false).
Proof.
  intros Hnone. unfold config.FromReader. rewrite parse_oneArm.
  unfold config.Validate, config.ComponentTypeArm in *. cbn.
  unfold config.validateEntry. cbn [config.Name config.Type_ config.Model].
  cbn [String.eqb andb Ascii.eqb Bool.eqb].
  cbn [config.lookupRegistration] in Hnone. by rewrite Hnone.
Qed.

Lemma one_arm_witness :
  config.lookupRegistration config.emptyRegistry config.KindComponent
    config.ComponentTypeArm "" = None
  ∧ config.FromReader config.emptyRegistry "somepath" oneArm
    = Ok (config.mkConfig "somepath" None defaultNetwork
            [config.mkComponent "foo" config.ComponentTypeArm "" [] ∅ None]
            [] [] [] false false false).
Proof.
  split; [done|].
  exact (one_arm_is_read config.emptyRegistry "somepath" eq_refl).
Defined.

(** The two malformed inputs of [TestFromReaderValidate], and a bind
    address chosen by the user, which does not set the default flag. *)
Example empty_payload_fails reg path :
  ∃ msg, config.FromReader reg path "" = Err msg
         ∧ contains msg "unexpected end" = true.
Proof. eexists. by vm_compute. Qed.

Example cloud_number_fails reg path :
  ∃ msg, config.FromReader reg path (quoted "{'cloud': 1}") = Err msg
         ∧ contains msg "unmarshal" = true.
Proof. eexists. by vm_compute. Qed.

Example explicit_bind_address reg path :
  config.Network
  <$> (match config.FromReader reg path
               (quoted "{'network': {'bind_address': 'localhost:8080'}}") with
       | Ok c => Some c
       | Err _ => None
       end)
  = Some (config.mkNetworkConfig "localhost:8080" false "" "").
Proof. by vm_compute. Qed.

(** * Whole runs of the loops, and [createWebOptions] *)

Lemma reconfigureCalls_app evs evs' :
  reconfigureCalls (evs ++ evs') = reconfigureCalls evs ++ reconfigureCalls evs'.
Proof. apply omap_app. Qed.

Lemma reconfigureCalls_robotCalls evs :
  reconfigureCalls (robotCalls evs) = reconfigureCalls evs.
Proof.
  unfold reconfigureCalls, robotCalls.
  induction evs as [|e evs IH]; [done|].
  destruct e; cbn; try done; by f_equal.
Qed.

Lemma cancels_app evs evs' : cancels (evs ++ evs') = (cancels evs + cancels evs')%nat.
Proof. unfold cancels. by rewrite List.filter_app, length_app. Qed.

Lemma checks_app evs evs' : checks (evs ++ evs') = (checks evs + checks evs')%nat.
Proof. unfold checks. by rewrite List.filter_app, length_app. Qed.

Lemma closes_app evs evs' : closes (evs ++ evs') = (closes evs + closes evs')%nat.
Proof. unfold closes. by rewrite List.filter_app, length_app. Qed.

Lemma robotCalls_app evs evs' :
  robotCalls (evs ++ evs') = robotCalls evs ++ robotCalls evs'.
Proof. apply List.filter_app. Qed.

Section WatcherRuns.

Context {R : Type} `{server.LocalRobot R}.
Variable TLSConfig : Type.
Variable NewTLSConfig : config.Config → TLSConfig.
Variable ProcessConfig : config.Config → TLSConfig → result config.Config.
Variable DiffConfigs :
  config.Config → config.Config → bool → result config.Diff.
Variable FromConfig : config.Config → result weboptions.Options.
Variable SplitHostPort : string → result (string * string).
Variable cfg : config.Config.
Variable argsParsed : server.Arguments.

Abbreviation processConfig :=
  (server.processConfig TLSConfig NewTLSConfig ProcessConfig cfg argsParsed).
Abbreviation createWebOptions :=
  (server.createWebOptions FromConfig SplitHostPort).
Abbreviation reconfigure :=
  (server.reconfigure TLSConfig NewTLSConfig ProcessConfig DiffConfigs
     FromConfig SplitHostPort cfg argsParsed).
Abbreviation watchLoop :=
  (server.watchLoop TLSConfig NewTLSConfig ProcessConfig DiffConfigs
     FromConfig SplitHostPort cfg argsParsed).
Abbreviation watchIteration :=
  (server.watchIteration TLSConfig NewTLSConfig ProcessConfig DiffConfigs
     FromConfig SplitHostPort cfg argsParsed).
Abbreviation processed :=
  (processedOf TLSConfig NewTLSConfig ProcessConfig cfg argsParsed).

Implicit Types (w : server.World R) (c pc oldCfg : config.Config).

(** One cycle, for runs: the context flag is kept, the candidate is
    handed to [Reconfigure] once if it processes and not at all if it
    does not, and the baseline is the old one or the processed
    candidate. *)
Lemma reconfigure_run oldCfg c w :
  ∃ r evs,
    (reconfigure oldCfg c w).2
    = server.mkWorld r (server.trace w ++ evs) (server.ctxDone w)
    ∧ reconfigureCalls evs = processed [c]
    ∧ ((reconfigure oldCfg c w).1 = oldCfg
       ∨ processConfig c = Ok (reconfigure oldCfg c w).1).
Proof.
  unfold processedOf. cbn [omap list_omap].
  destruct (processConfig c) as [pc|e] eqn:Hp.
  2:{ rewrite (reconfigure_process_failed _ _ _ DiffConfigs FromConfig
                 SplitHostPort _ _ oldCfg c w e Hp).
      eexists _, _. split; [done|]. split; [done|]. by left. }
  destruct (DiffConfigs oldCfg pc (server.revealSensitiveConfigDiffs argsParsed))
    as [d|e] eqn:Hd.
  2:{ rewrite (reconfigure_diff_failed _ _ _ DiffConfigs FromConfig
                 SplitHostPort _ _ oldCfg c w pc e Hp Hd).
      eexists _, _. split; [done|]. split; [done|]. by left. }
  destruct (config.NetworkEqual d) eqn:Hne.
  { rewrite (reconfigure_network_equal _ _ _ DiffConfigs FromConfig
               SplitHostPort _ _ oldCfg c w pc d Hp Hd Hne).
    eexists _, _. split; [done|]. split; [done|]. by right. }
  destruct (reconfigure_network_changed _ _ _ DiffConfigs FromConfig
              SplitHostPort _ _ oldCfg c w pc d Hp Hd Hne)
    as (r & evs & Hrun & Hcalls & _).
  rewrite Hrun. exists r, evs. split; [done|]. split.
  - rewrite <- reconfigureCalls_robotCalls, Hcalls.
    by destruct (webRestart _ _ _ _ _ _).
  - cbn [fst]. destruct (webRestart _ _ _ _ _ _); cbn; auto.
Qed.

Lemma processed_cons c cs : processed (c :: cs) = processed [c] ++ processed cs.
Proof. unfold processedOf. cbn. by destruct (processConfig c). Qed.

Lemma processed_flags pc cs :
  pc ∈ processed cs →
  config.FromCommand pc = true
  ∧ config.Debug pc = server.Debug argsParsed || config.Debug cfg
  ∧ config.AllowInsecureCreds pc = server.AllowInsecureCreds argsParsed.
Proof.
  unfold processedOf. rewrite list_elem_of_omap. intros (c & _ & Hc).
  unfold server.processConfig in Hc.
  destruct (ProcessConfig c _) as [out|e]; [|done].
  by injection Hc as <-.
Qed.

Lemma watchLoop_run ds : ∀ oldCfg w,
  ∃ r evs done,
    (watchLoop oldCfg ds w).2 = server.mkWorld r (server.trace w ++ evs) done
    ∧ reconfigureCalls evs
      = (if server.ctxDone w then [] else processed (received ds))
    ∧ (∀ b, (watchLoop oldCfg ds w).1 = server.Continue b →
            b = oldCfg ∨ b ∈ reconfigureCalls evs).
Proof.
  induction ds as [|d ds IH]; intros oldCfg w.
  - exists (server.robot w), [], (server.ctxDone w). cbn. run.
    rewrite app_nil_r. split; [by destruct w|].
    split; [by destruct (server.ctxDone w)|]. intros b [= <-]. by left.
  - cbn [server.watchLoop]. unfold mbind, server.M_bind, server.watchIteration.
    destruct (server.ctxDone w) eqn:Hctx.
    { exists (server.robot w), [], true. cbn. rewrite app_nil_r, <- Hctx.
      split; [by destruct w|]. by split. }
    destruct d as [|c].
    { exists (server.robot w), [], true. cbn. rewrite app_nil_r. by split. }
    destruct (reconfigure_run oldCfg c w) as (r & evs & Hw & Happ & Hbase).
    destruct (reconfigure oldCfg c w) as [b1 w1]. cbn [fst snd] in *. subst w1.
    destruct (IH b1 (server.mkWorld r (server.trace w ++ evs) (server.ctxDone w)))
      as (r' & evs' & done' & Hrun & Hrest & Hlast).
    cbn [server.ctxDone server.trace] in *. rewrite Hctx in Hrest.
    exists r', (evs ++ evs'), done'. rewrite app_assoc. split; [done|].
    rewrite reconfigureCalls_app, Happ, Hrest. cbn [received].
    split; [symmetry; apply processed_cons|].
    intros b Hb. destruct (Hlast b Hb) as [->|Hin].
    + destruct Hbase as [->|Hp]; [by left|]. right.
      apply elem_of_app. left. unfold processedOf. cbn. rewrite Hp. by left.
    + right. rewrite <- Hrest. apply elem_of_app. by right.
Qed.

(** X1.  In any run of the watch loop from a live context, the configs
    handed to [Reconfigure] are the processed forms of the candidates
    received that process, each once and in the order received:
    whether the diff or the web restart of a cycle fails makes no
    difference to what is applied.  From a context already done,
    nothing is applied. *)
Theorem watch_loop_applies_each_processed_candidate_once oldCfg ds w :
  reconfigureCalls (appended w (watchLoop oldCfg ds w).2)
  = if server.ctxDone w then [] else processed (received ds).
Proof.
  destruct (watchLoop_run ds oldCfg w) as (r & evs & done & Hw & Happ & _).
  by rewrite Hw, appended_app.
Qed.

(** X2.  The baseline the watch loop diffs against is never a config the
    robot was not given: while the loop is running it is the baseline
    it started with or one of the configs this run handed to
    [Reconfigure]. *)
Theorem watch_loop_baseline_was_applied oldCfg ds w b w' :
  watchLoop oldCfg ds w = (server.Continue b, w') →
  b = oldCfg ∨ b ∈ reconfigureCalls (appended w w').
Proof.
  intros Hrun.
  destruct (watchLoop_run ds oldCfg w) as (r & evs & done & Hw & _ & Hlast).
  rewrite Hrun in Hw, Hlast. cbn [fst snd] in *. subst w'.
  rewrite appended_app. by apply Hlast.
Qed.

(** X3.  Once the context is reported done the watch loop returns and
    looks at no further delivery: what follows a [CtxDone] changes
    nothing, the trace and the robot are those reached before it. *)
Theorem watch_loop_stops_with_context oldCfg ds ds' w :
  let w1 := (watchLoop oldCfg ds w).2 in
  watchLoop oldCfg (ds ++ server.CtxDone :: ds') w
  = (server.Return, server.mkWorld (server.robot w1) (server.trace w1) true).
Proof.
  revert oldCfg w. induction ds as [|d ds IH]; intros oldCfg w; cbn zeta.
  - cbn. unfold mbind, server.M_bind, server.watchIteration. run.
    destruct (server.ctxDone w) eqn:Hctx; [|done]. rewrite <- Hctx. by destruct w.
  - cbn [app server.watchLoop]. unfold mbind, server.M_bind.
    destruct (watchIteration oldCfg d w) as [[b|] w1] eqn:Hit.
    + apply IH.
    + cbn. unfold server.watchIteration in Hit.
      destruct (server.ctxDone w) eqn:Hctx.
      * injection Hit as <-. rewrite <- Hctx. by destruct w.
      * destruct d; [by injection Hit as <-|].
        by destruct (reconfigure oldCfg cfg0 w).
Qed.

(** X4.  Every config the watch loop hands to [Reconfigure] comes out
    of [processConfig]: it is marked as coming from the command, its
    debug flag is that of the command line or of the config [serveWeb]
    was started with, not the candidate's own, and its
    insecure-credentials flag is the command line's. *)
Theorem applied_configs_carry_command_flags oldCfg ds w pc :
  pc ∈ reconfigureCalls (appended w (watchLoop oldCfg ds w).2) →
  config.FromCommand pc = true
  ∧ config.Debug pc = server.Debug argsParsed || config.Debug cfg
  ∧ config.AllowInsecureCreds pc = server.AllowInsecureCreds argsParsed.
Proof.
  destruct (watchLoop_run ds oldCfg w) as (r & evs & done & Hw & Happ & _).
  rewrite Hw, appended_app, Happ.
  destruct (server.ctxDone w); [by intros ?%elem_of_nil|].
  apply processed_flags.
Qed.

End WatcherRuns.

Section RestartCheckerRuns.

Context {R : Type}.
Implicit Types (w : server.World R) (p : server.Poll) (i : Duration).

(** X5.  A turn of the restart checker that finds the context done, or
    during whose wait somebody else cancels, returns after the wait:
    [needsRestart] is not called, nothing is logged and [cancel] is not
    called; so does the loop, whatever turns would follow. *)
Theorem restart_checker_returns_when_context_done i p polls w :
  server.ctxDone w || server.interrupted p = true →
  let w' :=
    server.mkWorld (server.robot w) (server.trace w ++ [server.Wait i]) true in
  server.restartCheckIteration i p w = (server.Return, w')
  ∧ server.restartCheckLoop i (p :: polls) w = (server.Return, w').
Proof.
  intros Hdone w'. 
  assert (Hit : server.restartCheckIteration i p w = (server.Return, w')).
  { unfold server.restartCheckIteration. run. by rewrite Hdone. }
  split; [done|]. cbn [server.restartCheckLoop]. unfold mbind, server.M_bind.
  by rewrite Hit.
Qed.

(** One turn, for runs. *)
Lemma restartCheckIteration_run i p w :
  ∃ evs done,
    (server.restartCheckIteration i p w).2
    = server.mkWorld (server.robot w) (server.trace w ++ evs) done
    ∧ robotCalls evs = []
    ∧ match (server.restartCheckIteration i p w).1 with
      | server.Continue i' =>
        i' = carried i [p] ∧ cancels evs = 0%nat ∧ checks evs = 1%nat
        ∧ done = false
      | server.Return =>
        (cancels evs = 0%nat ∨ (cancels evs = 1%nat ∧ last evs = Some server.CallCancel))
        ∧ (checks evs ≤ 1)%nat
      end.
Proof.
  unfold server.restartCheckIteration. run.
  destruct (server.ctxDone w || server.interrupted p); cbn.
  { eexists _, _. split; [done|]. split; [done|]. split; [by left|]. cbn. lia. }
  destruct (server.answer p) as [mr ni [e|]]; cbn.
  - eexists _, _. rewrite <- !app_assoc. split; [done|]. by repeat split.
  - destruct mr; cbn; eexists _, _; rewrite <- !app_assoc;
      (split; [done|]); (split; [done|]).
    + split; [by right|]. cbn. lia.
    + by repeat split.
Qed.

Lemma restartCheckLoop_run polls : ∀ i w,
  ∃ evs done,
    (server.restartCheckLoop i polls w).2
    = server.mkWorld (server.robot w) (server.trace w ++ evs) done
    ∧ robotCalls evs = []
    ∧ (checks evs ≤ List.length polls)%nat
    ∧ match (server.restartCheckLoop i polls w).1 with
      | server.Continue i' =>
        i' = carried i polls ∧ cancels evs = 0%nat
        ∧ checks evs = List.length polls
      | server.Return =>
        cancels evs = 0%nat
        ∨ (cancels evs = 1%nat ∧ last evs = Some server.CallCancel)
      end.
Proof.
  induction polls as [|p polls IH]; intros i w.
  - exists [], (server.ctxDone w). cbn. run. rewrite app_nil_r.
    split; [by destruct w|]. by repeat split.
  - cbn [server.restartCheckLoop]. unfold mbind, server.M_bind.
    destruct (restartCheckIteration_run i p w) as (evs & done & Hw & Hcalls & Hit).
    destruct (server.restartCheckIteration i p w) as [[i1|] w1];
      cbn [fst snd] in *; subst w1.
    + destruct Hit as (Hi1 & Hc & Hk & ->).
      destruct (IH i1 (server.mkWorld (server.robot w) (server.trace w ++ evs) false))
        as (evs' & done' & Hw' & Hcalls' & Hle & Hloop).
      rewrite Hw'. cbn [server.robot server.trace] in *.
      exists (evs ++ evs'), done'. rewrite app_assoc. split; [done|].
      rewrite robotCalls_app, Hcalls, Hcalls'. split; [done|].
      rewrite cancels_app, checks_app, Hc, Hk. cbn [List.length].
      split; [lia|].
      destruct (server.restartCheckLoop i1 polls _).1 as [i2|].
      * destruct Hloop as (-> & Hc' & Hk'). subst i1. cbn in *.
        split; [by destruct (server.err (server.answer p))|]. split; lia.
      * destruct Hloop as [Hc'|[Hc' Hlast]]; [left; lia|right].
        split; [lia|]. rewrite last_app, Hlast. done.
    + destruct Hit as [Hc Hk]. exists evs, done. split; [done|].
      split; [done|]. cbn [List.length]. split; [lia|]. done.
Qed.

(** The loop itself closes nothing. *)
Lemma restartCheckIteration_closes i p w :
  ∃ evs,
    server.trace (server.restartCheckIteration i p w).2 = server.trace w ++ evs
    ∧ closes evs = 0%nat.
Proof.
  unfold server.restartCheckIteration. run.
  destruct (server.ctxDone w || server.interrupted p); cbn.
  { by eexists. }
  destruct (server.answer p) as [mr ni [e|]]; cbn.
  - eexists. rewrite <- !app_assoc. by split.
  - destruct mr; cbn; eexists; rewrite <- !app_assoc; by split.
Qed.

Lemma restartCheckLoop_closes polls : ∀ i w,
  ∃ evs,
    server.trace (server.restartCheckLoop i polls w).2 = server.trace w ++ evs
    ∧ closes evs = 0%nat.
Proof.
  induction polls as [|p polls IH]; intros i w.
  - exists []. cbn. by rewrite app_nil_r.
  - cbn [server.restartCheckLoop]. unfold mbind, server.M_bind.
    destruct (restartCheckIteration_closes i p w) as (evs & Hw & Hc).
    destruct (server.restartCheckIteration i p w) as [[i1|] w1];
      cbn [fst snd] in *.
    + destruct (IH i1 w1) as (evs' & Hw' & Hc').
      exists (evs ++ evs'). rewrite Hw', Hw, app_assoc. split; [done|].
      rewrite closes_app. lia.
    + by exists evs.
Qed.

(** X6.  Whatever the answers, the restart checker goroutine never
    touches the robot and never calls it, asks [needsRestart] at most
    once a turn, and calls [cancel] at most once.  While it is looping
    it has neither cancelled nor closed.  Once it has returned, the
    deferred [restartCheck.close()] has run exactly once and is the
    last thing it did; a [cancel], when there was one, is the act just
    before that close. *)
Theorem restart_checker_cancels_once_then_closes i polls w :
  let run := server.restartChecker i polls w in
  server.robot run.2 = server.robot w
  ∧ robotCalls (appended w run.2) = []
  ∧ (checks (appended w run.2) ≤ List.length polls)%nat
  ∧ match run.1 with
    | server.Continue _ =>
      cancels (appended w run.2) = 0%nat ∧ closes (appended w run.2) = 0%nat
    | server.Return =>
      ∃ before,
        appended w run.2 = before ++ [server.CallRestartCheckClose]
        ∧ closes before = 0%nat
        ∧ (cancels before = 0%nat
           ∨ (cancels before = 1%nat
              ∧ last before = Some server.CallCancel))
    end.
Proof.
  cbn zeta. unfold server.restartChecker, mbind, server.M_bind.
  destruct (restartCheckLoop_run polls i w)
    as (evs & done & Hw & Hcalls & Hle & Hres).
  destruct (restartCheckLoop_closes polls i w) as (evs' & Htr & Hcl).
  rewrite Hw in Htr. cbn [server.trace] in Htr.
  apply app_inv_head in Htr as <-.
  destruct (server.restartCheckLoop i polls w) as [[i'|] w1];
    cbn [fst snd] in *; subst w1.
  - cbn [fst snd mret server.M_ret]. rewrite appended_app.
    cbn [server.robot]. destruct Hres as (_ & Hc & _). by repeat split.
  - run. cbn [fst snd server.robot server.trace].
    rewrite <- app_assoc, appended_app.
    split; [done|]. split; [by rewrite robotCalls_app, Hcalls|].
    split; [rewrite checks_app; cbn; lia|].
    by exists evs.
Qed.

(** X7.  While the restart checker is still looping, the interval of
    its next wait is the one the latest answer without error supplied,
    or the one it started with if every check so far failed; it has
    asked [needsRestart] once per turn and cancelled nothing. *)
Theorem restart_checker_carries_latest_interval i polls w i' w' :
  server.restartCheckLoop i polls w = (server.Continue i', w') →
  i' = carried i polls
  ∧ checks (appended w w') = List.length polls
  ∧ cancels (appended w w') = 0%nat.
Proof.
  intros Hrun.
  destruct (restartCheckLoop_run polls i w) as (evs & done & Hw & _ & _ & Hres).
  rewrite Hrun in Hw, Hres. cbn [fst snd] in *. subst w'.
  rewrite appended_app. by destruct Hres as (? & ? & ?).
Qed.

(** X8.  However many checks fail in a row, from a live context and
    with nobody cancelling: the restart checker is still looping with
    the interval it started with, it has retried every turn, the
    context is live, and it has cancelled nothing. *)
Theorem restart_checker_survives_failures i polls w :
  server.ctxDone w = false →
  Forall (λ p, server.interrupted p = false ∧ failed p) polls →
  let run := server.restartCheckLoop i polls w in
  run.1 = server.Continue i
  ∧ server.ctxDone run.2 = false
  ∧ checks (appended w run.2) = List.length polls
  ∧ cancels (appended w run.2) = 0%nat.
Proof.
  intros Hctx Hall run. subst run.
  destruct (restartCheckLoop_all_failed polls i w Hctx Hall) as (evs & Hrun & _).
  destruct (restartCheckLoop_run polls i w) as (evs' & done & Hw & _ & _ & Hres).
  rewrite Hrun in Hw, Hres |- *. cbn [fst snd] in *.
  injection Hw as Heq <-. apply app_inv_head in Heq as ->.
  rewrite appended_app. cbn. by destruct Hres as (_ & ? & ?).
Qed.

End RestartCheckerRuns.

Section WebOptions.

Context {R : Type} `{server.LocalRobot R}.
Variable FromConfig : config.Config → result weboptions.Options.
Variable SplitHostPort : string → result (string * string).

Abbreviation createWebOptions :=
  (server.createWebOptions (R:=R) FromConfig SplitHostPort).

Implicit Types (w : server.World R) (c : config.Config) (a : server.Arguments).

(** What [createWebOptions] does, path by path. *)
Lemma createWebOptions_paths c a w :
  createWebOptions c a w
  = match FromConfig c with
    | Err e => (Err e, w)
    | Ok o =>
      match weboptions.AuthHandlers o with
      | _ :: _ => (Ok (withFlags c a o), w)
      | [] =>
        match SplitHostPort (config.BindAddress (config.Network c)) with
        | Err e => (Err e, w)
        | Ok (host, _) =>
          (Ok (withFlags c a o),
           server.mkWorld (server.robot w)
             (server.trace w
              ++ (if bindsAll host
                  then [server.Log server.Warn allInterfacesWarning None]
                  else []))
             (server.ctxDone w))
        end
      end
    end.
Proof.
  unfold server.createWebOptions, withFlags.
  destruct (FromConfig c) as [o|e]; [|done].
  assert (Hopts :
    (if bool_decide (config.Cloud_ c ≠ None) && server.AllowInsecureCreds a
     then weboptions.SignalingDialOpts o
          ++ [rpc.WithAllowInsecureWithCredentialsDowngrade]
     else weboptions.SignalingDialOpts o)
    = weboptions.SignalingDialOpts o
      ++ (if bool_decide (config.Cloud_ c ≠ None) && server.AllowInsecureCreds a
          then [rpc.WithAllowInsecureWithCredentialsDowngrade]
          else [])).
  { destruct (bool_decide _ && _); [done|by rewrite app_nil_r]. }
  rewrite Hopts. cbn [weboptions.AuthHandlers].
  destruct (weboptions.AuthHandlers o) as [|h hs]; cbn [List.length Nat.eqb]; [|done].
  destruct (SplitHostPort _) as [[host port]|e]; [|done].
  unfold bindsAll, allInterfacesWarning. run. destruct (_ || _); cbn; [done|].
  rewrite app_nil_r. by destruct w.
Qed.

(** X9.  [createWebOptions] only ever logs: it leaves the robot and the
    context as they are, calls neither the robot nor [cancel], and
    answers the same in every world. *)
Theorem web_options_only_log c a w w0 :
  let run := createWebOptions c a w in
  server.robot run.2 = server.robot w
  ∧ server.ctxDone run.2 = server.ctxDone w
  ∧ (∃ evs, server.trace run.2 = server.trace w ++ evs
            ∧ robotCalls evs = [] ∧ cancels evs = 0%nat ∧ checks evs = 0%nat)
  ∧ run.1 = (createWebOptions c a w0).1.
Proof.
  cbn zeta. rewrite !createWebOptions_paths.
  destruct (FromConfig c) as [o|e].
  2:{ cbn. repeat split. exists []. by rewrite app_nil_r. }
  destruct (weboptions.AuthHandlers o).
  2:{ cbn. repeat split. exists []. by rewrite app_nil_r. }
  destruct (SplitHostPort _) as [[host port]|e].
  2:{ cbn. repeat split. exists []. by rewrite app_nil_r. }
  cbn. repeat split. eexists. split; [done|]. by destruct (bindsAll host).
Qed.

(** X10.  [createWebOptions] fails in exactly two ways, each time with
    its collaborator's error and without logging: [weboptions.FromConfig]
    fails, or no auth handler is configured and the bind address does
    not split into host and port.  With an auth handler configured the
    bind address is not looked at. *)
Theorem web_options_failure c a w e :
  (createWebOptions c a w).1 = Err e
  ↔ FromConfig c = Err e
    ∨ ∃ o, FromConfig c = Ok o
           ∧ weboptions.AuthHandlers o = []
           ∧ SplitHostPort (config.BindAddress (config.Network c)) = Err e.
Proof.
  rewrite createWebOptions_paths.
  destruct (FromConfig c) as [o|e0]; cbn.
  2:{ split; [intros [= ->]; by left|]. by intros [[= ->]|(o & ? & _)]. }
  destruct (weboptions.AuthHandlers o) as [|h hs] eqn:Hh; cbn.
  2:{ split; [done|]. intros [?|(o1 & [= <-] & Hnil & _)]; [done|congruence]. }
  destruct (SplitHostPort _) as [[host port]|e0]; cbn.
  - split; [done|]. by intros [?|(o1 & _ & _ & ?)].
  - split.
    + intros [= ->]. right. by exists o.
    + by intros [?|(o1 & _ & _ & [= ->])].
Qed.

(** X11.  Whenever [createWebOptions] succeeds, it answers with what
    [weboptions.FromConfig] gave under the command line's settings
    ([withFlags]).  With an auth handler configured it does not look at
    the bind address, which then need not even split, and logs
    nothing.  With none configured the bind address has split into host
    and port, and it warns about binding every interface without
    authentication exactly when the host is empty, [0.0.0.0] or
    [::]. *)
Theorem web_options_success c a w o' :
  let run := createWebOptions c a w in
  run.1 = Ok o' →
  ∃ o,
    FromConfig c = Ok o
    ∧ o' = withFlags c a o
    ∧ match weboptions.AuthHandlers o with
      | _ :: _ => appended w run.2 = []
      | [] =>
        ∃ host port,
          SplitHostPort (config.BindAddress (config.Network c))
          = Ok (host, port)
          ∧ appended w run.2
            = if bindsAll host
              then [server.Log server.Warn allInterfacesWarning None]
              else []
      end.
Proof.
  cbn zeta. rewrite createWebOptions_paths.
  destruct (FromConfig c) as [o|e]; [|done].
  destruct (weboptions.AuthHandlers o) as [|h hs] eqn:Hh.
  - destruct (SplitHostPort _) as [[host port]|e]; [|done].
    cbn [fst snd]. intros [= <-]. exists o. rewrite Hh.
    split; [done|]. split; [done|]. exists host, port.
    split; [done|]. by rewrite appended_app.
  - cbn [fst snd]. intros [= <-]. exists o. rewrite Hh.
    split; [done|]. split; [done|]. unfold appended. by rewrite drop_all.
Qed.

End WebOptions.

(** * The main goroutine *)

Lemma countOf_app p l l' : countOf p (l ++ l') = (countOf p l + countOf p l')%nat.
Proof. unfold countOf. by rewrite List.filter_app, length_app. Qed.

Lemma countOf_Logged p evs :
  (∀ e, p (entry.Logged e) = false) → countOf p (entry.Logged <$> evs) = 0%nat.
Proof.
  intros Hp. unfold countOf. induction evs as [|e evs IH]; [done|].
  cbn. by rewrite Hp.
Qed.

(** Unfold the body layer. *)
Ltac go :=
  unfold entry.call, entry.sub, mbind, mret, entry.Body_bind, entry.Body_ret,
    entry.act, entry.defer, entry.return_;
  cbn [entry.acts entry.deferred entry.unwind fst snd app].

Section MainGoroutine.

Context {R : Type} `{server.LocalRobot R}.
Variable TLSConfig : Type.
Variable NewTLSConfig : config.Config → TLSConfig.
Variable ProcessConfig : config.Config → TLSConfig → result config.Config.
Variable FromConfig : config.Config → result weboptions.Options.
Variable SplitHostPort : string → result (string * string).
Variable ParseFlags : list string → result server.Arguments.
Variable versionLine : string.
Variable osCreate : string → option error.
Variable StartCPUProfile : option error.
Variable ReadLocalConfig : string → result config.Config.
Variable addCloudLogger : config.Cloud → option error.
Variable exporterStart : option error.
Variable Read : string → result config.Config.
Variable robotNew : config.Config → list entry.RobotOption → result R.
Variable NewWatcher : config.Config → option error.
Variable RunWeb : R → weboptions.Options → option error.
Variable dialerClose : option error.
Variable robotClose : option error.
Variable watcherClose : option error.

Abbreviation serveWeb :=
  (entry.serveWeb TLSConfig NewTLSConfig ProcessConfig FromConfig SplitHostPort
     robotNew NewWatcher RunWeb dialerClose robotClose watcherClose).
Abbreviation runServerWithLogging :=
  (entry.runServerWithLogging TLSConfig NewTLSConfig ProcessConfig FromConfig
     SplitHostPort exporterStart Read robotNew NewWatcher RunWeb
     dialerClose robotClose watcherClose).
Abbreviation RunServer :=
  (entry.RunServer TLSConfig NewTLSConfig ProcessConfig FromConfig
     SplitHostPort ParseFlags versionLine osCreate StartCPUProfile
     ReadLocalConfig addCloudLogger exporterStart Read robotNew NewWatcher
     RunWeb dialerClose robotClose watcherClose).
Abbreviation processConfig cfg argsParsed :=
  (server.processConfig TLSConfig NewTLSConfig ProcessConfig cfg argsParsed cfg).
Abbreviation webOptions pc argsParsed r :=
  (optionsOrZero
     (server.createWebOptions FromConfig SplitHostPort pc argsParsed
        (server.mkWorld r [] false)).1).
Abbreviation webLogs pc argsParsed r :=
  (entry.Logged
   <$> server.trace
         (server.createWebOptions FromConfig SplitHostPort pc argsParsed
            (server.mkWorld r [] false)).2).

Implicit Types (cfg pc : config.Config) (a : server.Arguments).

(** [serveWeb], path by path. *)
Lemma serveWeb_paths cfg a :
  serveWeb cfg a
  = match processConfig cfg a with
    | Err e =>
      (entry.Combine (Some e) dialerClose,
       [entry.CallWithCancel; entry.CallNewCachedDialer;
        entry.CallDialerClose; entry.CallCancel])
    | Ok pc =>
      let spawn :=
        if bool_decide (config.Cloud_ pc ≠ None)
        then [entry.GoRestartChecker (config.Cloud_ cfg)] else [] in
      let opts := entry.robotOptions a in
      match robotNew pc opts with
      | Err e =>
        (entry.Combine (Some e) dialerClose,
         [entry.CallWithCancel; entry.CallNewCachedDialer] ++ spawn
         ++ [entry.CallRobotNew pc opts;
             entry.CallDialerClose; entry.CallCancel])
      | Ok r =>
        match NewWatcher cfg with
        | Some e =>
          (entry.Combine (entry.Combine (Some e) robotClose) dialerClose,
           [entry.CallWithCancel; entry.CallNewCachedDialer] ++ spawn
           ++ [entry.CallRobotNew pc opts; entry.CallNewWatcher cfg;
               entry.CallRobotClose; entry.CallDialerClose; entry.CallCancel])
        | None =>
          (entry.Combine
             (entry.Combine
                (entry.Combine (RunWeb r (webOptions pc a r)) watcherClose)
                robotClose)
             dialerClose,
           [entry.CallWithCancel; entry.CallNewCachedDialer] ++ spawn
           ++ [entry.CallRobotNew pc opts; entry.CallNewWatcher cfg;
               entry.GoWatcher pc]
           ++ webLogs pc a r
           ++ [entry.CallRunWeb (webOptions pc a r);
               entry.CallCancel; entry.WaitWatchDone; entry.CallWatcherClose;
               entry.CallRobotClose; entry.CallDialerClose; entry.CallCancel])
        end
      end
    end.
Proof.
  unfold entry.serveWeb.
  destruct (processConfig cfg a) as [pc|e]; [|by go].
  cbn zeta.
  destruct (bool_decide (config.Cloud_ pc ≠ None));
    (destruct (robotNew pc (entry.robotOptions a)) as [r|e]; [|by go]);
    (destruct (NewWatcher cfg) as [e|]; [by go|]);
    destruct (server.createWebOptions FromConfig SplitHostPort pc a
                (server.mkWorld r [] false)) as [options w];
    go; by rewrite <- ?app_assoc.
Qed.

Lemma runServerWithLogging_paths a :
  runServerWithLogging a
  = match exporterStart with
    | Some e => (Some e, [entry.CallExporterStart])
    | None =>
      match Read (server.ConfigFile a) with
      | Err e =>
        (Some e,
         [entry.CallExporterStart; entry.CallWithTimeout;
          entry.CallRead (server.ConfigFile a); entry.CallCancelTimeout;
          entry.CallExporterStop])
      | Ok cfg =>
        ((serveWeb cfg a).1,
         [entry.CallExporterStart; entry.CallWithTimeout;
          entry.CallRead (server.ConfigFile a); entry.CallCancelTimeout]
         ++ (serveWeb cfg a).2
         ++ match (serveWeb cfg a).1 with
            | Some e => [entry.LogError "error serving web" (Some e)]
            | None => []
            end
         ++ [entry.CallExporterStop])
      end
    end.
Proof.
  unfold entry.runServerWithLogging.
  destruct exporterStart as [e|]; [by go|].
  destruct (Read (server.ConfigFile a)) as [cfg|e]; [|by go].
  go. destruct (serveWeb cfg a) as [[e|] l]; go; by rewrite <- ?app_assoc.
Qed.

(** The acts of [RunServer] once the flags name a config file: the
    profile when asked for, the local read, the cloud logger when the
    local config asks for it, the server, and the deferred calls. *)
Lemma RunServer_paths args :
  RunServer args
  = match ParseFlags args with
    | Err e => (Some e, [entry.CallParseFlags args])
    | Ok a =>
      let head := [entry.CallParseFlags args; entry.LogInfof versionLine] in
      if server.Version a then (None, head)
      else if String.eqb (server.ConfigFile a) ""
      then (None, head ++ [entry.LogError entry.missingConfigMessage None])
      else
        let profiled := negb (String.eqb (server.CPUProfile a) "") in
        let create :=
          if profiled then [entry.CallOsCreate (server.CPUProfile a)] else [] in
        let start := if profiled then [entry.CallStartCPUProfile] else [] in
        let stop := if profiled then [entry.CallStopCPUProfile] else [] in
        let read :=
          [entry.CallWithTimeout;
           entry.CallReadLocalConfig (server.ConfigFile a);
           entry.CallCancelTimeout] in
        match (if profiled then osCreate (server.CPUProfile a) else None) with
        | Some e => (Some e, head ++ create)
        | None =>
          match (if profiled then StartCPUProfile else None) with
          | Some e => (Some e, head ++ create ++ start)
          | None =>
            match ReadLocalConfig (server.ConfigFile a) with
            | Err e => (Some e, head ++ create ++ start ++ read ++ stop)
            | Ok cfgFromDisk =>
              let served rest :=
                ((runServerWithLogging a).1,
                 head ++ create ++ start ++ read ++ rest.1
                 ++ (runServerWithLogging a).2
                 ++ match (runServerWithLogging a).1 with
                    | Some e => [entry.LogError fatalMessage (Some e)]
                    | None => []
                    end
                 ++ rest.2 ++ stop) in
              match config.Cloud_ cfgFromDisk with
              | Some cloud =>
                if logsRemotely cfgFromDisk then
                  match addCloudLogger cloud with
                  | Some e =>
                    (Some e,
                     head ++ create ++ start ++ read
                     ++ [entry.CallAddCloudLogger cloud] ++ stop)
                  | None =>
                    served ([entry.CallAddCloudLogger cloud], [entry.CallCloser])
                  end
                else served ([], [])
              | None => served ([], [])
              end
            end
          end
        end
    end.
Proof.
  unfold entry.RunServer, logsRemotely, fatalMessage.
  destruct (ParseFlags args) as [a|e]; [|by go].
  cbn zeta. destruct (server.Version a); [by go|].
  destruct (String.eqb (server.ConfigFile a) ""); [by go|].
  destruct (String.eqb (server.CPUProfile a) ""); cbn [negb].
  - destruct (ReadLocalConfig _) as [c|e]; [|by go].
    destruct (config.Cloud_ c) as [cloud|].
    + destruct (negb _ || negb _).
      * destruct (addCloudLogger cloud) as [e|]; [by go|].
        go. destruct (runServerWithLogging a) as [[e|] l]; go;
          by rewrite <- ?app_assoc.
      * go. destruct (runServerWithLogging a) as [[e|] l]; go;
          by rewrite <- ?app_assoc, ?app_nil_r.
    + go. destruct (runServerWithLogging a) as [[e|] l]; go;
        by rewrite <- ?app_assoc, ?app_nil_r.
  - destruct (osCreate _) as [e|]; [by go|].
    destruct StartCPUProfile as [e|]; [by go|].
    destruct (ReadLocalConfig _) as [c|e]; [|by go].
    destruct (config.Cloud_ c) as [cloud|].
    + destruct (negb _ || negb _).
      * destruct (addCloudLogger cloud) as [e|]; [by go|].
        go. destruct (runServerWithLogging a) as [[e|] l]; go;
          by rewrite <- ?app_assoc.
      * go. destruct (runServerWithLogging a) as [[e|] l]; go;
          by rewrite <- ?app_assoc, ?app_nil_r.
    + go. destruct (runServerWithLogging a) as [[e|] l]; go;
        by rewrite <- ?app_assoc, ?app_nil_r.
Qed.

Lemma Combine_None x y : entry.Combine x y = None ↔ x = None ∧ y = None.
Proof. destruct x, y; cbn; split; try done; by intros [? ?]. Qed.

(** Count the acts of an explicit list. *)
Ltac count :=
  rewrite ?countOf_app, ?countOf_Logged by done; cbn.

(** X12.  [RunServer] started with [-version], or with no [-config],
    returns nil after logging the version, and in the second case the
    request for a config file: it reads no config, starts no profile
    and no server.  A missing config file is not an error result. *)
Theorem run_server_without_config_file args a :
  ParseFlags args = Ok a →
  server.Version a || String.eqb (server.ConfigFile a) "" = true →
  RunServer args
  = (None,
     [entry.CallParseFlags args; entry.LogInfof versionLine]
     ++ if server.Version a then []
        else [entry.LogError entry.missingConfigMessage None]).
Proof.
  intros Hp Hv. rewrite RunServer_paths, Hp. cbn zeta.
  destruct (server.Version a); [done|]. cbn in Hv. by rewrite Hv.
Qed.

(** X13.  [serveWeb] returns nil exactly when the config processed, the
    robot and the watcher were created, the web server returned nil and
    closing the watcher, the robot and the dialer all returned nil: an
    error of a deferred close is reported even when the server itself
    ended well. *)
Theorem serve_web_returns_nil_iff_clean cfg a :
  (serveWeb cfg a).1 = None
  ↔ ∃ pc r,
      processConfig cfg a = Ok pc
      ∧ robotNew pc (entry.robotOptions a) = Ok r
      ∧ NewWatcher cfg = None
      ∧ RunWeb r (webOptions pc a r) = None
      ∧ watcherClose = None ∧ robotClose = None ∧ dialerClose = None.
Proof.
  rewrite serveWeb_paths.
  destruct (processConfig cfg a) as [pc|e]; cbn zeta.
  2:{ cbn [fst]. rewrite Combine_None.
      split; [by intros [? ?] | by intros (? & ? & ? & _)]. }
  destruct (robotNew pc (entry.robotOptions a)) as [r|e] eqn:Hr.
  2:{ cbn [fst]. rewrite Combine_None. split; [by intros [? ?]|].
      intros (? & ? & [= <-] & ? & _). congruence. }
  destruct (NewWatcher cfg) as [e|] eqn:Hw; cbn [fst]; rewrite !Combine_None.
  - split; [by intros [[? ?] ?] | by intros (? & ? & _ & _ & ? & _)].
  - split.
    + intros [[[? ?] ?] ?]. by exists pc, r.
    + intros (? & r0 & [= <-] & Hr0 & _ & ? & ? & ? & ?).
      rewrite Hr in Hr0. by injection Hr0 as <-.
Qed.

(** X14.  A failure of [createWebOptions] at the end of [serveWeb] stops
    nothing: the web server is run all the same, with the zero options,
    and the error is dropped; what [serveWeb] returns is made of the
    results of the web server and of the three closes only. *)
Theorem serve_web_drops_web_options_error cfg a pc r e :
  processConfig cfg a = Ok pc →
  robotNew pc (entry.robotOptions a) = Ok r →
  NewWatcher cfg = None →
  (server.createWebOptions FromConfig SplitHostPort pc a
     (server.mkWorld r [] false)).1 = Err e →
  entry.CallRunWeb weboptions.zero ∈ (serveWeb cfg a).2
  ∧ (serveWeb cfg a).1
    = entry.Combine
        (entry.Combine
           (entry.Combine (RunWeb r weboptions.zero) watcherClose)
           robotClose)
        dialerClose.
Proof.
  intros Hp Hr Hw He. rewrite serveWeb_paths, Hp. cbn zeta.
  rewrite Hr, Hw, He. cbn [fst snd optionsOrZero]. split; [|done].
  rewrite !elem_of_app, !elem_of_cons. auto 20.
Qed.

(** X15.  When the config processes and the robot and the watcher are
    created, the main goroutine of [serveWeb] starts the watch loop with
    the processed config as its baseline, runs the web server, and then
    unwinds in this order: cancel the context, wait for the watch loop
    to end, close the watcher, close the robot, close the dialer, cancel
    again.  Among its own acts there is no [cancel] before [RunWeb];
    the restart checker it may have started holds the same [cancel] and
    can call it earlier, which is not an act of the main goroutine. *)
Theorem serve_web_teardown_order cfg a pc r :
  processConfig cfg a = Ok pc →
  robotNew pc (entry.robotOptions a) = Ok r →
  NewWatcher cfg = None →
  ∃ before,
    (serveWeb cfg a).2
    = before
      ++ [entry.GoWatcher pc] ++ webLogs pc a r
      ++ [entry.CallRunWeb (webOptions pc a r);
          entry.CallCancel; entry.WaitWatchDone; entry.CallWatcherClose;
          entry.CallRobotClose; entry.CallDialerClose; entry.CallCancel]
    ∧ countOf isCancel before = 0%nat.
Proof.
  intros Hp Hr Hw. rewrite serveWeb_paths, Hp. cbn zeta. rewrite Hr, Hw.
  cbn [snd].
  exists ([entry.CallWithCancel; entry.CallNewCachedDialer]
          ++ (if bool_decide (config.Cloud_ pc ≠ None)
              then [entry.GoRestartChecker (config.Cloud_ cfg)] else [])
          ++ [entry.CallRobotNew pc (entry.robotOptions a);
              entry.CallNewWatcher cfg]).
  split.
  - by rewrite <- !app_assoc.
  - count. by destruct (bool_decide _).
Qed.

(** X16.  On every path [serveWeb] creates one dialer and closes it
    once, cancels its context at least once and as its last act, closes
    the robot exactly when it created one and the watcher exactly when
    it created one. *)
Theorem serve_web_closes_what_it_opened cfg a :
  let acts := (serveWeb cfg a).2 in
  let robotCreated :=
    match processConfig cfg a with
    | Ok pc => is_ok (robotNew pc (entry.robotOptions a))
    | Err _ => false
    end in
  let watcherCreated := robotCreated && bool_decide (NewWatcher cfg = None) in
  countOf isNewCachedDialer acts = 1%nat
  ∧ countOf isDialerClose acts = 1%nat
  ∧ countOf isWithCancel acts = 1%nat
  ∧ (1 ≤ countOf isCancel acts)%nat
  ∧ last acts = Some entry.CallCancel
  ∧ countOf isRobotClose acts = (if robotCreated then 1 else 0)%nat
  ∧ countOf isWatcherClose acts = (if watcherCreated then 1 else 0)%nat.
Proof.
  cbn zeta. rewrite serveWeb_paths.
  destruct (processConfig cfg a) as [pc|e]; cbn zeta; [|by repeat split].
  destruct (robotNew pc (entry.robotOptions a)) as [r|e]; cbn [is_ok snd].
  2:{ destruct (bool_decide _); count; repeat split; lia. }
  destruct (NewWatcher cfg) as [e|]; cbn [snd andb bool_decide].
  - destruct (bool_decide (config.Cloud_ pc ≠ None)); count; repeat split; lia.
  - rewrite !last_app. cbn [last].
    destruct (bool_decide (config.Cloud_ pc ≠ None)); count; repeat split; lia.
Qed.

Lemma balanced_app l l' : balanced l → balanced l' → balanced (l ++ l').
Proof.
  unfold balanced. rewrite !countOf_app.
  intros (? & ? & ? & ? & ? & ?) (? & ? & ? & ? & ? & ?).
  repeat split; lia.
Qed.

Lemma serveWeb_balanced cfg a : balanced (serveWeb cfg a).2.
Proof.
  rewrite serveWeb_paths. unfold balanced.
  destruct (processConfig cfg a) as [pc|e]; cbn zeta;
    [|cbn; repeat split; lia].
  destruct (robotNew pc (entry.robotOptions a)) as [r|e]; cbn [snd].
  2:{ destruct (bool_decide _); count; repeat split; lia. }
  destruct (NewWatcher cfg) as [e|]; cbn [snd];
    destruct (bool_decide (config.Cloud_ pc ≠ None)); count;
    repeat split; lia.
Qed.

Lemma runServerWithLogging_balanced a : balanced (runServerWithLogging a).2.
Proof.
  rewrite runServerWithLogging_paths.
  destruct exporterStart as [e|]; [cbn; unfold balanced; cbn; repeat split; lia|].
  destruct (Read (server.ConfigFile a)) as [cfg|e];
    [|cbn; unfold balanced; cbn; repeat split; lia].
  cbn [snd]. pose proof (serveWeb_balanced cfg a) as Hs.
  unfold balanced in *. destruct Hs as (? & ? & ? & ? & ? & ?).
  destruct (serveWeb cfg a).1; count; repeat split; lia.
Qed.

(** X17.  Whatever the environment answers, over a whole [RunServer]
    call every read context made with a timeout is cancelled once,
    every dialer created is closed once, [serveWeb]'s context is
    cancelled at least once, and nothing is stopped or closed more often
    than it was started or created. *)
Theorem run_server_is_balanced args : balanced (RunServer args).2.
Proof.
  rewrite RunServer_paths.
  pose proof (λ a, runServerWithLogging_balanced a) as Hs.
  unfold balanced in *.
  destruct (ParseFlags args) as [a|e0]; [|cbn; repeat split; lia].
  specialize (Hs a). destruct Hs as (? & ? & ? & ? & ? & ?).
  cbn zeta. destruct (server.Version a); [cbn; repeat split; lia|].
  destruct (String.eqb (server.ConfigFile a) ""); [cbn; repeat split; lia|].
  destruct (negb (String.eqb (server.CPUProfile a) "")).
  - destruct (osCreate _) as [e1|]; [cbn; repeat split; lia|].
    destruct StartCPUProfile as [e2|]; [cbn; repeat split; lia|].
    destruct (ReadLocalConfig _) as [c|e3]; [|cbn; repeat split; lia].
    destruct (config.Cloud_ c) as [cloud|].
    + destruct (logsRemotely c).
      * destruct (addCloudLogger cloud) as [e4|]; [cbn; repeat split; lia|].
        cbn [fst snd]. destruct (runServerWithLogging a).1; count;
          repeat split; lia.
      * cbn [fst snd]. destruct (runServerWithLogging a).1; count;
          repeat split; lia.
    + cbn [fst snd]. destruct (runServerWithLogging a).1; count;
        repeat split; lia.
  - destruct (ReadLocalConfig _) as [c|e3]; [|cbn; repeat split; lia].
    destruct (config.Cloud_ c) as [cloud|].
    + destruct (logsRemotely c).
      * destruct (addCloudLogger cloud) as [e4|]; [cbn; repeat split; lia|].
        cbn [fst snd]. destruct (runServerWithLogging a).1; count;
          repeat split; lia.
      * cbn [fst snd]. destruct (runServerWithLogging a).1; count;
          repeat split; lia.
    + cbn [fst snd]. destruct (runServerWithLogging a).1; count;
        repeat split; lia.
Qed.

(** X18.  Once [RunServer] has started the CPU profile and the cloud
    logger, every way out closes the logger and then stops the profile,
    as its last two acts, whatever the server did; and it returns what
    [runServerWithLogging] returned. *)
Theorem run_server_unwinds_logger_then_profile args a c cloud :
  ParseFlags args = Ok a →
  server.Version a = false →
  String.eqb (server.ConfigFile a) "" = false →
  String.eqb (server.CPUProfile a) "" = false →
  osCreate (server.CPUProfile a) = None →
  StartCPUProfile = None →
  ReadLocalConfig (server.ConfigFile a) = Ok c →
  config.Cloud_ c = Some cloud →
  logsRemotely c = true →
  addCloudLogger cloud = None →
  (RunServer args).1 = (runServerWithLogging a).1
  ∧ ∃ before,
      (RunServer args).2
      = before ++ [entry.CallCloser; entry.CallStopCPUProfile].
Proof.
  intros Hp Hv Hc Hprof Hcreate Hstart Hread Hcloud Hlog Hadd.
  rewrite RunServer_paths, Hp. cbn zeta.
  rewrite Hv, Hc, Hprof. cbn [negb]. rewrite Hcreate, Hstart, Hread, Hcloud, Hlog, Hadd.
  cbn [fst snd]. split; [done|].
  exists ([entry.CallParseFlags args; entry.LogInfof versionLine;
           entry.CallOsCreate (server.CPUProfile a); entry.CallStartCPUProfile;
           entry.CallWithTimeout;
           entry.CallReadLocalConfig (server.ConfigFile a);
           entry.CallCancelTimeout; entry.CallAddCloudLogger cloud]
          ++ (runServerWithLogging a).2
          ++ match (runServerWithLogging a).1 with
             | Some e => [entry.LogError fatalMessage (Some e)]
             | None => []
             end).
  cbn [app]. by rewrite <- !app_assoc.
Qed.

End MainGoroutine.

(** * Runs in the fake environment *)

Lemma watch_loop_baseline_witness :
  fakeWatch served [server.NewConfig rebound; server.NewConfig nameless]
    (fake.start fake.healthy)
  = (server.Continue rebound,
     (fakeWatch served [server.NewConfig rebound; server.NewConfig nameless]
        (fake.start fake.healthy)).2)
  ∧ (rebound = served
     ∨ rebound
       ∈ reconfigureCalls
           (appended (fake.start fake.healthy)
              (fakeWatch served [server.NewConfig rebound; server.NewConfig nameless]
                 (fake.start fake.healthy)).2)).
Proof.
  assert (Hrun :
    fakeWatch served [server.NewConfig rebound; server.NewConfig nameless]
      (fake.start fake.healthy)
    = (server.Continue rebound,
       (fakeWatch served [server.NewConfig rebound; server.NewConfig nameless]
          (fake.start fake.healthy)).2)) by (vm_compute; reflexivity).
  split; [exact Hrun|].
  exact (watch_loop_baseline_was_applied unit fake.NewTLSConfig fake.ProcessConfig
           (fake.DiffConfigs None) fake.FromConfig fake.SplitHostPort
           served fake.args served _ (fake.start fake.healthy) rebound _ Hrun).
Defined.

Lemma applied_configs_witness :
  reconfigureCalls
    (appended (fake.start fake.healthy)
       (fakeWatch served [server.NewConfig nameless; server.NewConfig retuned]
          (fake.start fake.healthy)).2)
  = [retuned]
  ∧ config.FromCommand retuned = true
  ∧ config.Debug retuned = server.Debug fake.args || config.Debug served
  ∧ config.AllowInsecureCreds retuned = server.AllowInsecureCreds fake.args.
Proof.
  assert (Hcalls :
    reconfigureCalls
      (appended (fake.start fake.healthy)
         (fakeWatch served [server.NewConfig nameless; server.NewConfig retuned]
            (fake.start fake.healthy)).2)
    = [retuned]) by (vm_compute; reflexivity).
  split; [exact Hcalls|].
  refine (applied_configs_carry_command_flags unit fake.NewTLSConfig
            fake.ProcessConfig (fake.DiffConfigs None) fake.FromConfig
            fake.SplitHostPort served fake.args served
            [server.NewConfig nameless; server.NewConfig retuned]
            (fake.start fake.healthy) retuned _).
  unfold fakeWatch in Hcalls. rewrite Hcalls. apply list_elem_of_here.
Defined.

Lemma restart_checker_context_done_witness :
  server.ctxDone (fake.start fake.healthy) || server.interrupted cancelledElsewhere
  = true
  ∧ server.restartCheckLoop 5000 [cancelledElsewhere; restartNow]
      (fake.start fake.healthy)
    = (server.Return, server.mkWorld fake.healthy [server.Wait 5000] true).
Proof.
  split; [done|].
  exact (proj2 (restart_checker_returns_when_context_done 5000
                  cancelledElsewhere [restartNow] (fake.start fake.healthy)
                  eq_refl)).
Defined.

Lemma restart_checker_interval_witness :
  server.restartCheckLoop 5000 [slowDown; unreachable] (fake.start fake.healthy)
  = (server.Continue 9000,
     (server.restartCheckLoop 5000 [slowDown; unreachable]
        (fake.start fake.healthy)).2)
  ∧ 9000 = carried 5000 [slowDown; unreachable]
  ∧ checks (appended (fake.start fake.healthy)
              (server.restartCheckLoop 5000 [slowDown; unreachable]
                 (fake.start fake.healthy)).2) = 2%nat
  ∧ cancels (appended (fake.start fake.healthy)
               (server.restartCheckLoop 5000 [slowDown; unreachable]
                  (fake.start fake.healthy)).2) = 0%nat.
Proof.
  assert (Hrun :
    server.restartCheckLoop 5000 [slowDown; unreachable] (fake.start fake.healthy)
    = (server.Continue 9000,
       (server.restartCheckLoop 5000 [slowDown; unreachable]
          (fake.start fake.healthy)).2)) by (vm_compute; reflexivity).
  split; [exact Hrun|].
  exact (restart_checker_carries_latest_interval 5000 [slowDown; unreachable]
           (fake.start fake.healthy) 9000 _ Hrun).
Defined.

Lemma restart_checker_failures_witness :
  server.ctxDone (fake.start fake.healthy) = false
  ∧ Forall (λ p, server.interrupted p = false ∧ failed p)
      [unreachable; unreachable; unreachable]
  ∧ (server.restartCheckLoop 5000 [unreachable; unreachable; unreachable]
       (fake.start fake.healthy)).1 = server.Continue 5000.
Proof.
  assert (Hall : Forall (λ p, server.interrupted p = false ∧ failed p)
                   [unreachable; unreachable; unreachable]).
  { repeat constructor; by eexists. }
  split; [done|]. split; [exact Hall|].
  exact (proj1 (restart_checker_survives_failures 5000
                  [unreachable; unreachable; unreachable]
                  (fake.start fake.healthy) eq_refl Hall)).
Defined.

Lemma web_options_success_witness :
  (fakeWebOptions exposed).1 = Ok (withFlags exposed fake.args weboptions.zero)
  ∧ appended (fake.start fake.healthy) (fakeWebOptions exposed).2
    = [server.Log server.Warn allInterfacesWarning None]
  ∧ is_ok (fake.SplitHostPort (config.BindAddress (config.Network portless)))
    = false
  ∧ (server.createWebOptions (λ _, Ok authenticated) fake.SplitHostPort
       portless fake.args (fake.start fake.healthy)).1
    = Ok (withFlags portless fake.args authenticated)
  ∧ appended (fake.start fake.healthy)
      (server.createWebOptions (λ _, Ok authenticated) fake.SplitHostPort
         portless fake.args (fake.start fake.healthy)).2
    = [].
Proof.
  assert (H1 : (fakeWebOptions exposed).1
               = Ok (withFlags exposed fake.args weboptions.zero))
    by (vm_compute; reflexivity).
  assert (H2 : (server.createWebOptions (λ _, Ok authenticated)
                  fake.SplitHostPort portless fake.args
                  (fake.start fake.healthy)).1
               = Ok (withFlags portless fake.args authenticated))
    by (vm_compute; reflexivity).
  split; [exact H1|].
  destruct (web_options_success fake.FromConfig fake.SplitHostPort exposed
              fake.args (fake.start fake.healthy) _ H1)
    as (o & Hf & _ & Hm).
  injection Hf as <-. cbn [weboptions.AuthHandlers weboptions.zero] in Hm.
  destruct Hm as (host & port & Hs & Happ).
  assert (host = "0.0.0.0") as -> by (vm_compute in Hs; congruence).
  split; [exact Happ|]. split; [vm_compute; reflexivity|].
  split; [exact H2|].
  destruct (web_options_success (λ _, Ok authenticated) fake.SplitHostPort
              portless fake.args (fake.start fake.healthy) _ H2)
    as (o & Hf & _ & Hm).
  injection Hf as <-. exact Hm.
Defined.

Lemma run_server_without_config_witness :
  server.Version versionFlags || String.eqb (server.ConfigFile versionFlags) ""
  = true
  ∧ fakeRunServer versionFlags None served ["-version"]
    = (None,
       [entry.CallParseFlags ["-version"];
        entry.LogInfof "Viam RDK Version: dev, Hash: 0"]).
Proof.
  split; [done|].
  exact (run_server_without_config_file (R:=fake.Robot) unit fake.NewTLSConfig
           fake.ProcessConfig fake.FromConfig fake.SplitHostPort
           (λ _, Ok versionFlags) "Viam RDK Version: dev, Hash: 0" (λ _, None) None
           (λ _, Ok served) (λ _, None) None (λ _, Ok served)
           (λ _ _, Ok fake.healthy) (λ _, None) (λ _ _, None)
           None None None ["-version"] versionFlags eq_refl eq_refl).
Defined.

Lemma serve_web_drops_options_error_witness :
  server.processConfig unit fake.NewTLSConfig fake.ProcessConfig
    portless profiledFlags portless = Ok portless
  ∧ (server.createWebOptions fake.FromConfig fake.SplitHostPort portless
       profiledFlags (server.mkWorld fake.healthy [] false)).1
    = Err "address localhost: missing port in address"
  ∧ entry.CallRunWeb weboptions.zero ∈ (fakeServeWeb None (Some "dialer busy") portless).2
  ∧ (fakeServeWeb None (Some "dialer busy") portless).1 = Some "dialer busy".
Proof.
  assert (Hp : server.processConfig unit fake.NewTLSConfig fake.ProcessConfig
                 portless profiledFlags portless = Ok portless)
    by (vm_compute; reflexivity).
  assert (He : (server.createWebOptions fake.FromConfig fake.SplitHostPort portless
                  profiledFlags (server.mkWorld fake.healthy [] false)).1
               = Err "address localhost: missing port in address")
    by (vm_compute; reflexivity).
  split; [exact Hp|]. split; [exact He|].
  exact (serve_web_drops_web_options_error (R:=fake.Robot) unit fake.NewTLSConfig
           fake.ProcessConfig fake.FromConfig fake.SplitHostPort
           (λ _ _, Ok fake.healthy) (λ _, None) (λ _ _, None)
           (Some "dialer busy") None None portless profiledFlags portless
           fake.healthy _ Hp eq_refl eq_refl He).
Defined.

Lemma serve_web_teardown_witness :
  server.processConfig unit fake.NewTLSConfig fake.ProcessConfig
    rebound profiledFlags rebound = Ok rebound
  ∧ ∃ before,
      (fakeServeWeb (Some "web died") None rebound).2
      = before
        ++ [entry.GoWatcher rebound]
        ++ [entry.CallRunWeb weboptions.zero;
            entry.CallCancel; entry.WaitWatchDone; entry.CallWatcherClose;
            entry.CallRobotClose; entry.CallDialerClose; entry.CallCancel]
      ∧ countOf isCancel before = 0%nat.
Proof.
  assert (Hp : server.processConfig unit fake.NewTLSConfig fake.ProcessConfig
                 rebound profiledFlags rebound = Ok rebound)
    by (vm_compute; reflexivity).
  split; [exact Hp|].
  exact (serve_web_teardown_order (R:=fake.Robot) unit fake.NewTLSConfig
           fake.ProcessConfig fake.FromConfig fake.SplitHostPort
           (λ _ _, Ok fake.healthy) (λ _, None) (λ _ _, Some "web died")
           None None None rebound profiledFlags rebound fake.healthy
           Hp eq_refl eq_refl).
Defined.

Lemma run_server_unwinds_witness :
  server.Version profiledFlags = false
  ∧ String.eqb (server.ConfigFile profiledFlags) "" = false
  ∧ String.eqb (server.CPUProfile profiledFlags) "" = false
  ∧ config.Cloud_ (cloudConfig "localhost:8080") = Some someCloud
  ∧ logsRemotely (cloudConfig "localhost:8080") = true
  ∧ ∃ before,
      (fakeRunServer profiledFlags (Some "web died")
         (cloudConfig "localhost:8080") ["-config"; "robot.json"]).2
      = before ++ [entry.CallCloser; entry.CallStopCPUProfile].
Proof.
  repeat (split; [done|]).
  exact (proj2
    (run_server_unwinds_logger_then_profile (R:=fake.Robot) unit
       fake.NewTLSConfig fake.ProcessConfig fake.FromConfig fake.SplitHostPort
       (λ _, Ok profiledFlags) "Viam RDK Version: dev, Hash: 0" (λ _, None) None
       (λ _, Ok (cloudConfig "localhost:8080")) (λ _, None) None
       (λ _, Ok (cloudConfig "localhost:8080"))
       (λ _ _, Ok fake.healthy) (λ _, None) (λ _ _, Some "web died")
       None None None ["-config"; "robot.json"] profiledFlags
       (cloudConfig "localhost:8080") someCloud
       eq_refl eq_refl eq_refl eq_refl eq_refl eq_refl eq_refl eq_refl
       eq_refl eq_refl)).
Defined.

(** * The camera test's image source *)

Lemma reads_from {Image : Type} (n : nat) : ∀ (imgs : list Image) (i : nat),
  (i ≤ List.length imgs)%nat →
  camera_test.reads Image n (camera_test.mkImageSource Image imgs i)
  = (((λ img, (Some img, None)) <$> take n (drop i imgs))
     ++ replicate (n - (List.length imgs - i)) (None, None),
     camera_test.mkImageSource Image imgs (i + n `min` (List.length imgs - i))).
Proof.
  induction n as [|n IH]; intros imgs i Hi.
  - cbn. rewrite take_0, Nat.add_0_r. done.
  - cbn [camera_test.reads]. unfold camera_test.Read.
    cbn [camera_test.Images camera_test.idx].
    destruct (Nat.leb_spec (List.length imgs) i) as [Hge|Hlt].
    + assert (i = List.length imgs) as -> by lia.
      rewrite (IH imgs (List.length imgs)) by lia.
      rewrite drop_all, !take_nil, Nat.sub_diag, !Nat.sub_0_r.
      cbn. by rewrite !Nat.min_0_r.
    + rewrite (IH imgs (S i)) by lia.
      destruct (imgs !! i) as [img|] eqn:Himg.
      2:{ apply lookup_ge_None in Himg. lia. }
      rewrite (drop_S imgs img i Himg). cbn [take fmap list_fmap app].
      replace (S n - (List.length imgs - i))%nat
        with (n - (List.length imgs - S i))%nat by lia.
      replace (i + S n `min` (List.length imgs - i))%nat
        with (S i + n `min` (List.length imgs - S i))%nat by lia.
      done.
Qed.

(** X19.  A fresh image source returns its images in order, one per
    read, then nil for every further read, and never an error; after
    [n] reads it stands at the smaller of [n] and the number of
    images. *)
Theorem image_source_reads_in_order {Image : Type} (imgs : list Image)
    (n : nat) :
  camera_test.reads Image n (camera_test.mkImageSource Image imgs 0)
  = (((λ img, (Some img, None)) <$> take n imgs)
     ++ replicate (n - List.length imgs) (None, None),
     camera_test.mkImageSource Image imgs (n `min` List.length imgs)).
Proof.
  rewrite (reads_from n imgs 0) by lia.
  by rewrite drop_0, Nat.sub_0_r.
Qed.

(** * The arm *)

Lemma noPorts_wf : wfPorts wx250s.noPorts.
Proof. intros p m. cbn. by rewrite lookup_empty. Qed.

Lemma getPortMutex_spec port st :
  wfPorts st →
  let run := wx250s.getPortMutex port st in
  wfPorts run.2
  ∧ wx250s.portMapping run.2 !! port = Some run.1
  ∧ (∀ p m, wx250s.portMapping st !! p = Some m →
            wx250s.portMapping run.2 !! p = Some m).
Proof.
  intros Hwf. unfold wx250s.getPortMutex.
  destruct (wx250s.portMapping st !! port) as [mu|] eqn:Hl; cbn.
  { done. }
  split; [|split].
  - intros p m. cbn. destruct (decide (port = p)) as [->|Hne].
    + rewrite lookup_insert_eq. intros [= <-]. split; [lia|].
      intros q. destruct (decide (p = q)) as [->|Hq]; [done|].
      rewrite lookup_insert_ne by done. intros Hq'.
      destruct (Hwf q _ Hq') as [? _]. lia.
    + rewrite lookup_insert_ne by done. intros Hp.
      destruct (Hwf p m Hp) as [Hlt Hinj]. split; [lia|].
      intros q. destruct (decide (port = q)) as [->|Hq].
      * rewrite lookup_insert_eq. intros [= <-]. lia.
      * rewrite lookup_insert_ne by done. apply Hinj.
  - by rewrite lookup_insert_eq.
  - intros p m Hp. destruct (decide (port = p)) as [->|Hne]; [congruence|].
    by rewrite lookup_insert_ne.
Qed.

Lemma getPortMutexes_spec ports : ∀ st,
  wfPorts st →
  wfPorts (wx250s.getPortMutexes ports st).2
  ∧ (∀ p m, wx250s.portMapping st !! p = Some m →
            wx250s.portMapping (wx250s.getPortMutexes ports st).2 !! p = Some m).
Proof.
  induction ports as [|p0 ports IH]; intros st Hwf; [done|].
  cbn [wx250s.getPortMutexes].
  destruct (getPortMutex_spec p0 st Hwf) as (Hwf1 & _ & Hkeep1).
  destruct (wx250s.getPortMutex p0 st) as [mu st1]. cbn [fst snd] in *.
  destruct (IH st1 Hwf1) as [Hwf2 Hkeep2].
  destruct (wx250s.getPortMutexes ports st1) as [mus st2]. cbn [fst snd] in *.
  split; [done|]. intros p m Hp. apply Hkeep2, Hkeep1, Hp.
Qed.

(** X20.  [getPortMutex] hands out one mutex per port: asked twice,
    with any other requests in between, it returns the same mutex when
    the two ports are the same and different mutexes when they
    differ. *)
Theorem port_mutex_is_per_port st p others q :
  wfPorts st →
  let first := wx250s.getPortMutex p st in
  let between := wx250s.getPortMutexes others first.2 in
  let second := wx250s.getPortMutex q between.2 in
  first.1 = second.1 ↔ p = q.
Proof.
  intros Hwf. cbn zeta.
  destruct (getPortMutex_spec p st Hwf) as (Hwf1 & Hl1 & _).
  destruct (getPortMutexes_spec others _ Hwf1) as [Hwf2 Hkeep2].
  destruct (getPortMutex_spec q _ Hwf2) as (Hwf3 & Hl3 & Hkeep3).
  pose proof (Hkeep3 _ _ (Hkeep2 _ _ Hl1)) as Hp.
  split.
  - intros Heq. destruct (Hwf3 _ _ Hl3) as [_ Hinj].
    apply (Hinj p). rewrite Hp. f_equal. exact Heq.
  - intros <-. congruence.
Qed.

Lemma port_mutex_witness :
  wfPorts wx250s.noPorts
  ∧ (wx250s.getPortMutexes ["/dev/ttyUSB0"; "/dev/ttyUSB1"; "/dev/ttyUSB0"]
       wx250s.noPorts).1 = [0; 1; 0]%nat
  ∧ ((wx250s.getPortMutex "/dev/ttyUSB0" wx250s.noPorts).1
     = (wx250s.getPortMutex "/dev/ttyUSB1"
          (wx250s.getPortMutexes ["/dev/ttyUSB1"]
             (wx250s.getPortMutex "/dev/ttyUSB0" wx250s.noPorts).2).2).1
     ↔ "/dev/ttyUSB0" = "/dev/ttyUSB1").
Proof.
  split; [exact noPorts_wf|]. split; [by vm_compute|].
  exact (port_mutex_is_per_port wx250s.noPorts "/dev/ttyUSB0"
           ["/dev/ttyUSB1"] "/dev/ttyUSB1" noPorts_wf).
Defined.

(** X21.  [JointTo] commands exactly one move, to the requested
    position clamped into 0..4095, on the servos of the named joint;
    a failure of the move is logged and nothing else happens. *)
Theorem joint_to_clamps_position {Servo : Type}
    (GoalAndTrack : Z → bool → list Servo → option error)
    (a : wx250s.Arm Servo) (jointName : string) (pos : Z) (block : bool) :
  let p := Z.max 0 (Z.min 4095 pos) in
  let servos := wx250s.jointServos Servo a jointName in
  (0 ≤ p ≤ 4095)%Z
  ∧ wx250s.JointTo Servo GoalAndTrack a jointName pos block
    = wx250s.CallGoalAndTrack Servo p block servos
      :: match GoalAndTrack p block servos with
         | Some err =>
           [wx250s.Errorf Servo (jointName +:+ " jointTo error: " +:+ err)]
         | None => []
         end.
Proof.
  cbn zeta. split; [lia|].
  unfold wx250s.JointTo, wx250s.GetServos. cbn [app].
  assert ((if (4095 <? pos)%Z then 4095%Z
           else if (pos <? 0)%Z then 0%Z else pos)
          = Z.max 0 (Z.min 4095 pos)) as ->; [|done].
  destruct (Z.ltb_spec 4095 pos); [lia|].
  destruct (Z.ltb_spec pos 0); lia.
Qed.

Lemma eachServo_spec {Servo : Type} (op : Servo → option error) :
  ∀ servos : list Servo,
  ∃ called,
    (wx250s.eachServo Servo op servos).2 = wx250s.CallServo Servo <$> called
    ∧ match (wx250s.eachServo Servo op servos).1 with
      | None => called = servos ∧ Forall (λ s, op s = None) called
      | Some err =>
        ∃ ok s rest,
          servos = ok ++ s :: rest ∧ called = ok ++ [s]
          ∧ Forall (λ s, op s = None) ok ∧ op s = Some err
      end.
Proof.
  induction servos as [|s servos IH]; cbn [wx250s.eachServo].
  - exists []. by repeat split.
  - destruct (op s) as [err|] eqn:Hs.
    + exists [s]. split; [done|]. cbn. by exists [], s, servos.
    + destruct IH as (called & Hevs & Hres).
      destruct (wx250s.eachServo Servo op servos) as [err evs].
      cbn [fst snd] in *. exists (s :: called). split.
      { cbn. by rewrite Hevs. }
      destruct err as [err|].
      * destruct Hres as (ok & s' & rest & -> & -> & Hok & Hs').
        exists (s :: ok), s', rest. repeat split; try done.
        by constructor.
      * destruct Hres as [-> Hall]. split; [done|]. by constructor.
Qed.

(** X22.  [SetAcceleration], [SetVelocity], [TorqueOn] and [TorqueOff]
    take the move lock first and release it last on every path; in
    between they call the servos of the arm in joint order and stop at
    the first servo that fails, whose error they return; they return
    nil only after every servo has been called and none failed. *)
Theorem all_servos_loop_stops_at_first_error {Servo : Type}
    (a : wx250s.Arm Servo) (op : Servo → option error) :
  ∃ called,
    (wx250s.withAllServos Servo a op).2
    = [wx250s.Lock Servo] ++ (wx250s.CallServo Servo <$> called)
      ++ [wx250s.Unlock Servo]
    ∧ match (wx250s.withAllServos Servo a op).1 with
      | None =>
        called = wx250s.GetAllServos Servo a
        ∧ Forall (λ s, op s = None) called
      | Some err =>
        ∃ ok s rest,
          wx250s.GetAllServos Servo a = ok ++ s :: rest
          ∧ called = ok ++ [s]
          ∧ Forall (λ s, op s = None) ok ∧ op s = Some err
      end.
Proof.
  unfold wx250s.withAllServos.
  destruct (eachServo_spec op (wx250s.GetAllServos Servo a))
    as (called & Hevs & Hres).
  destruct (wx250s.eachServo Servo op (wx250s.GetAllServos Servo a))
    as [err evs].
  cbn [fst snd] in *. exists called. by rewrite Hevs.
Qed.

(** X23.  When the model parses and the solver is created, [NewArm]
    panics exactly when fewer than eight servos were found; otherwise
    the arm's servos, joint by joint in joint order, are the first
    eight servos found, in the order found. *)
Theorem new_arm_needs_eight_servos {Servo : Type} (servos : list Servo) :
  match wx250s.NewArm Servo (Ok servos) None None with
  | Returned (Ok a) =>
    (8 ≤ List.length servos)%nat
    ∧ wx250s.GetAllServos Servo a = take 8 servos
  | Returned (Err _) => False
  | Panicked _ => (List.length servos < 8)%nat
  end.
Proof.
  destruct servos as [|s0 [|s1 [|s2 [|s3 [|s4 [|s5 [|s6 [|s7 rest]]]]]]]];
    cbn [wx250s.NewArm List.length]; try lia.
  split; [lia|]. by vm_compute.
Qed.

(** * The data export's retry loop *)

Lemma retry_spec {Datum : Type}
    (call : nat → option (list Datum) * option error) (left : nat) :
  ∀ count resp err,
  left ≠ 0%nat →
  let out := cli.retry Datum call left count resp err in
  (count < out.1.1 ≤ count + left)%nat
  ∧ (∀ i, (count ≤ i < out.1.1 - 1)%nat → (call i).2 ≠ None)
  ∧ (out.1.2, out.2) = call (out.1.1 - 1)%nat
  ∧ ((call (out.1.1 - 1)%nat).2 ≠ None → out.1.1 = (count + left)%nat).
Proof.
  induction left as [|left IH]; intros count resp err Hleft; [done|].
  cbn [cli.retry].
  destruct (call count) as [r e] eqn:Hcall. destruct e as [e|].
  - destruct (decide (left = 0%nat)) as [->|Hne].
    + cbn. rewrite Nat.sub_0_r, Hcall.
      split; [lia|]. split; [intros i Hi; lia|]. split; [done|]. lia.
    + specialize (IH (S count) r (Some e) Hne). cbn zeta in IH.
      destruct IH as (Hcalls & Hfail & Hlast & Hall).
      split; [lia|]. split; [|split; [exact Hlast|]].
      * intros i Hi. destruct (decide (i = count)) as [->|Hic].
        { by rewrite Hcall. }
        apply Hfail. lia.
      * intros Hn. rewrite (Hall Hn). lia.
  - cbn. rewrite Nat.sub_0_r, Hcall.
    split; [lia|]. split; [intros i Hi; lia|]. split; [done|]. done.
Qed.

(** X24.  [downloadBinary] asks the server at least once and at most
    five times, every call before the last one having failed.  It
    stops at the first call that succeeds, and then goes on with the
    single datum of that response or fails on a response that does not
    hold exactly one; when all five calls fail it returns the error of
    the fifth, wrapped. *)
Theorem download_binary_retries {Datum : Type}
    (call : nat → option (list Datum) * option error) :
  let calls := (cli.downloadBinary Datum call).1 in
  let last := call (calls - 1)%nat in
  (1 ≤ calls ≤ 5)%nat
  ∧ (∀ i, (i < calls - 1)%nat → (call i).2 ≠ None)
  ∧ match last.2 with
    | Some err =>
      calls = 5%nat
      ∧ (cli.downloadBinary Datum call).2
        = Err (cli.Wrapf err "received error from server")
    | None =>
      (cli.downloadBinary Datum call).2
      = match cli.GetData Datum last.1 with
        | [datum] => Ok datum
        | data => Err ("expected a single response, received "
                       +:+ pretty (List.length data))
        end
    end.
Proof.
  cbn zeta. unfold cli.downloadBinary.
  pose proof (retry_spec call cli.maxRetryCount 0 None None) as H.
  cbn zeta in H. specialize (H ltac:(done)).
  destruct (cli.retry Datum call cli.maxRetryCount 0 None None)
    as [[calls resp] err].
  cbn [fst snd] in H. destruct H as (Hcalls & Hfail & Hlast & Hall).
  unfold cli.maxRetryCount in *.
  destruct err as [err|].
  - cbn [fst snd]. rewrite <- Hlast. cbn [fst snd].
    repeat split; try lia.
    + intros i Hi. apply Hfail. lia.
    + rewrite <- Hlast in Hall. cbn in Hall. by rewrite Hall.
  - assert ((match cli.GetData Datum resp with
             | [datum] => (calls, Ok datum)
             | data => (calls, Err ("expected a single response, received "
                                    +:+ pretty (List.length data)))
             end)
            = (calls, match cli.GetData Datum resp with
                      | [datum] => Ok datum
                      | data => Err ("expected a single response, received "
                                     +:+ pretty (List.length data))
                      end)) as ->.
    { by destruct (cli.GetData Datum resp) as [|d [|d' rest]]. }
    cbn [fst snd]. rewrite <- Hlast. cbn [fst snd].
    repeat split; try lia.
    intros i Hi. apply Hfail. lia.
Qed.
